(** * Helperly platform: ingestion and retrieval pipeline

    A shallow embedding of the backend services of the Helperly platform
    (chunking, embedding, vector search, query and ingestion pipelines, and
    the chatbox routes), together with the properties established about them.

    Conventions of the embedding:
    - a Python [str] is a [string] whose characters are the code points below
      256; [len], slicing, [strip], [rstrip] and [lower] follow CPython on
      that range;
    - a Python [int] is a [Z], a Python [float] is a primitive binary64 float;
    - [Optional[T]] is [option T], with [None] for Python's [None];
    - a call that may raise returns an [outcome];
    - [await f(...)] runs the coroutine where it stands and is the call
      itself, except where the code subscripts the coroutine object first;
    - code that reads or writes the database runs in the monad [M], which
      also records the calls made on collaborators. *)

From Stdlib Require Import ZArith String Ascii List Bool Lia Floats.
From stdpp Require Import base option list gmap strings pretty.

Import ListNotations.
Local Open Scope Z_scope.

(** ** Python values *)

Module Py.

(** The exceptions the code can meet: the classes of
    [app/core/exceptions.py], each with the arguments of its constructor, and
    [OtherError cls message] for an [Exception] of any other class (the
    interpreter's [TypeError], a driver or provider error). Everything here
    is caught by [except Exception]. *)
Inductive exn : Type :=
| ValidationError (message : string)
| NotFoundError (message : string)
| UnauthorizedError (message : string)
| ForbiddenError (message : string)
| RateLimitError (message : string)
| ExternalServiceError (message : string) (service : string)
| OriginNotAllowedError (origin : string)
| OtherError (cls : string) (message : string).

(** What running a piece of code gives: a value, a raised exception, or no
    answer within the steps allowed (only a loop can give the last one). *)
Inductive outcome (A : Type) : Type :=
| Return (a : A)
| Raise (e : exn)
| Diverge.

Arguments Return {A} a.
Arguments Raise {A} e.
Arguments Diverge {A}.

(** [code] attribute of a [HelperlyException] ([None] for another class). *)
Definition code (e : exn) : option string :=
  match e with
  | ValidationError _ => Some "VALIDATION_ERROR"
  | NotFoundError _ => Some "NOT_FOUND"
  | UnauthorizedError _ => Some "UNAUTHORIZED"
  | ForbiddenError _ => Some "FORBIDDEN"
  | RateLimitError _ => Some "RATE_LIMIT_EXCEEDED"
  | ExternalServiceError _ _ => Some "EXTERNAL_SERVICE_ERROR"
  | OriginNotAllowedError _ => Some "FORBIDDEN"
  | OtherError _ _ => None
  end.

(** [message] attribute: [OriginNotAllowedError.__init__] builds it from the
    origin. *)
Definition message (e : exn) : string :=
  match e with
  | ValidationError m | NotFoundError m | UnauthorizedError m
  | ForbiddenError m | RateLimitError m | ExternalServiceError m _
  | OtherError _ m => m
  | OriginNotAllowedError origin =>
      "Origin '" +:+ origin +:+ "' is not allowed for this chatbox"
  end.

(** [isinstance(e, ForbiddenError)]: [OriginNotAllowedError] subclasses
    [ForbiddenError]. *)
Definition is_ForbiddenError (e : exn) : bool :=
  match e with
  | ForbiddenError _ | OriginNotAllowedError _ => true
  | _ => false
  end.

Definition is_ValidationError (e : exn) : bool :=
  match e with
  | ValidationError _ => true
  | _ => false
  end.

(** [len(s)] *)
Definition len (s : string) : Z := Z.of_nat (String.length s).

(** Truth value of a [str]: empty is false. *)
Definition truthy_str (s : string) : bool :=
  match s with
  | EmptyString => false
  | String _ _ => true
  end.

(** Truth value of a list: empty is false. *)
Definition truthy_list {A} (l : list A) : bool :=
  match l with
  | [] => false
  | _ :: _ => true
  end.

(** Truth value of an [int]: zero is false. *)
Definition truthy_int (n : Z) : bool := negb (n =? 0).

(** Truth value of a [float]: zero (of either sign) is false, everything
    else, a NaN included, is true. *)
Definition truthy_float (x : float) : bool := negb (PrimFloat.eqb x 0%float).

(** Truth value of an [Optional[T]]: [None] is false, a value has its own. *)
Definition truthy_opt {A} (truthy : A -> bool) (o : option A) : bool :=
  match o with
  | None => false
  | Some a => truthy a
  end.

(** [x or d] for an [Optional[T]] on the left and a [T] on the right. *)
Definition or_default {A} (truthy : A -> bool) (x : option A) (d : A) : A :=
  match x with
  | Some a => if truthy a then a else d
  | None => d
  end.

(** [c.isspace()] for a code point below 256. *)
Definition isspace (c : ascii) : bool :=
  let n := Z.of_N (N_of_ascii c) in
  ((9 <=? n) && (n <=? 13)) || ((28 <=? n) && (n <=? 32))
  || (n =? 133) || (n =? 160).

(** [c.lower()] for a code point below 256: A-Z and the accented capitals
    U+00C0..U+00DE (U+00D7, the multiplication sign, apart) move up by 32. *)
Definition lower_char (c : ascii) : ascii :=
  let n := Z.of_N (N_of_ascii c) in
  if ((65 <=? n) && (n <=? 90))
     || ((192 <=? n) && (n <=? 222) && negb (n =? 215))
  then ascii_of_N (Z.to_N (n + 32))
  else c.

(** [s.lower()] *)
Fixpoint lower (s : string) : string :=
  match s with
  | EmptyString => EmptyString
  | String c s' => String (lower_char c) (lower s')
  end.

(** Drop the leading characters that satisfy [p]. *)
Fixpoint lstrip_by (p : ascii -> bool) (s : string) : string :=
  match s with
  | EmptyString => EmptyString
  | String c s' => if p c then lstrip_by p s' else s
  end.

(** Drop the trailing characters that satisfy [p]. *)
Fixpoint rstrip_by (p : ascii -> bool) (s : string) : string :=
  match s with
  | EmptyString => EmptyString
  | String c s' =>
      match rstrip_by p s' with
      | EmptyString => if p c then EmptyString else String c EmptyString
      | r => String c r
      end
  end.

(** [s.strip()] *)
Definition strip (s : string) : string := lstrip_by isspace (rstrip_by isspace s).

(** [s.rstrip(chars)]: drops every trailing character that occurs in [chars]. *)
Definition rstrip (s chars : string) : string :=
  rstrip_by (fun c => existsb (Ascii.eqb c) (list_ascii_of_string chars)) s.

(** A slice bound as CPython adjusts it for a sequence of length [n]. *)
Definition slice_bound (n i : Z) : Z :=
  if i <? 0 then Z.max (i + n) 0 else Z.min i n.

(** [s[start:stop]] *)
Definition slice (s : string) (start stop : Z) : string :=
  let lo := slice_bound (len s) start in
  let hi := slice_bound (len s) stop in
  String.substring (Z.to_nat lo) (Z.to_nat (hi - lo)) s.

(** [sep.join(parts)] *)
Fixpoint join (sep : string) (parts : list string) : string :=
  match parts with
  | [] => ""
  | [p] => p
  | p :: rest => p +:+ sep +:+ join sep rest
  end.

(** [x in l] for a list of strings. *)
Definition contains (x : string) (l : list string) : bool :=
  existsb (String.eqb x) l.

End Py.

Export Py (exn(..), outcome(..)).

(** [str(e)] of an exception. *)
Definition str_exn (e : exn) : string := Py.message e.

(** ** Sequencing of calls that may raise *)

Definition obind {A B} (m : outcome A) (f : A -> outcome B) : outcome B :=
  match m with
  | Return a => f a
  | Raise e => Raise e
  | Diverge => Diverge
  end.

(** [try: body except Exception: handler] *)
Definition try_except {A} (body : outcome A) (handler : exn -> outcome A) : outcome A :=
  match body with
  | Return a => Return a
  | Raise e => handler e
  | Diverge => Diverge
  end.

(** ** [app/core/config.py] *)

Module Settings.

Record t : Type := mk {
  vector_min_score_default : float;
  vector_top_k_default : Z;
  upload_max_mb : Z;
  openai_api_key : option string;
  openai_embedding_model : string;
  openai_chat_model : string;
  chunk_size : Z;
  chunk_overlap : Z
}.

(** The values of the class body, used when the environment sets none. *)
Definition defaults : t := {|
  vector_min_score_default := 0x1.6666666666666p-1%float;
  vector_top_k_default := 5;
  upload_max_mb := 7;
  openai_api_key := None;
  openai_embedding_model := "text-embedding-3-small";
  openai_chat_model := "gpt-4o-mini";
  chunk_size := 1000;
  chunk_overlap := 200
|}.

End Settings.

(** ** [app/models] and [app/schemas]

    The timestamp columns, which no code modelled here reads, are left out. *)

Module Chatbox.
Record t : Type := mk {
  id : option Z;
  organization_id : Z;
  name : string;
  description : option string;
  allowed_domains : option (list string);
  enforce_allowed_domains : bool
}.
End Chatbox.

Inductive DocumentType : Type := TEXT | URL | FILE.

Module Document.
Record t : Type := mk {
  id : option Z;
  chatbox_id : Z;
  source_type : DocumentType;
  source_name : option string;
  source_url : option string;
  raw_content : string;
  file_size_bytes : option Z;
  mime_type : option string
}.
End Document.

Module Chunk.
Record t : Type := mk {
  id : option Z;
  document_id : option Z;
  chatbox_id : Z;
  content : string;
  chunk_index : Z;
  embedding : option (list float)
}.
End Chunk.

Module SourceChunk.
Record t : Type := mk {
  document_id : Z;
  chunk_id : Z;
  content : string;
  score : float;
  source_name : option string
}.
End SourceChunk.

Module ChatboxCreate.
Record t : Type := mk {
  name : string;
  description : option string;
  allowed_domains : option (list string);
  enforce_allowed_domains : bool
}.
End ChatboxCreate.

Module ChatboxUpdate.
Record t : Type := mk {
  name : option string;
  description : option string;
  allowed_domains : option (list string);
  enforce_allowed_domains : option bool
}.
End ChatboxUpdate.

(** ** The interpreter process

    What the code takes from the Python process it runs in and from numpy,
    none of it code of this repository: the built-in [hash] of a [str] (CPython
    keys it with a secret drawn when the process starts, unless PYTHONHASHSEED
    fixes it), [str] of a [float], and numpy's seeded generator and norm. *)

Module Interp.
Record t : Type := mk {
  hash : string -> Z;
  float_str : float -> string;
  np_random_randn : Z -> Z -> list float;
  np_linalg_norm : list float -> float
}.
End Interp.

(** ** The hash of [str] in CPython

    CPython 3.11 hashes a [str] with SipHash-1-3 over its bytes, keyed by the
    first sixteen bytes of a secret that each process draws at start-up: from
    the operating system by default, from PYTHONHASHSEED when that is set.
    This is the interpreter's code, not the repository's; it is written out
    to run the stub embedding's seed on actual processes. *)

Module CPython.

(** Arithmetic of [uint64_t]. *)

Definition wrap64 (x : Z) : Z := x mod 2 ^ 64.

(** [ROTATE(x, b)] *)
Definition rotl (x b : Z) : Z :=
  Z.lor (wrap64 (Z.shiftl x b)) (Z.shiftr x (64 - b)).

(** [HALF_ROUND] and [SINGLE_ROUND] of SipHash. *)
Definition half_round (a b c d s t : Z) : Z * Z * Z * Z :=
  let a := wrap64 (a + b) in
  let c := wrap64 (c + d) in
  let b := Z.lxor (rotl b s) a in
  let d := Z.lxor (rotl d t) c in
  let a := rotl a 32 in
  (a, b, c, d).

Definition single_round (v : Z * Z * Z * Z) : Z * Z * Z * Z :=
  let '(v0, v1, v2, v3) := v in
  let '(v0, v1, v2, v3) := half_round v0 v1 v2 v3 13 16 in
  let '(v2, v1, v0, v3) := half_round v2 v1 v0 v3 17 21 in
  (v0, v1, v2, v3).

(** The integer a run of bytes spells, least significant byte first. *)
Fixpoint le_bytes (bytes : list Z) : Z :=
  match bytes with
  | [] => 0
  | b :: rest => b + 256 * le_bytes rest
  end.

(** One message word: [v3 ^= m], a round, [v0 ^= m]. *)
Definition absorb (v : Z * Z * Z * Z) (m : Z) : Z * Z * Z * Z :=
  let '(v0, v1, v2, v3) := v in
  let '(v0, v1, v2, v3) := single_round (v0, v1, v2, Z.lxor v3 m) in
  (Z.lxor v0 m, v1, v2, v3).

(** The whole words of the message, eight bytes each; what is left is the tail. *)
Fixpoint blocks (data : list Z) (v : Z * Z * Z * Z) : Z * Z * Z * Z * list Z :=
  match data with
  | b0 :: b1 :: b2 :: b3 :: b4 :: b5 :: b6 :: b7 :: rest =>
      blocks rest (absorb v (le_bytes [b0; b1; b2; b3; b4; b5; b6; b7]))
  | tail => (v, tail)
  end.

(** SipHash-1-3 of [data] under the key [(k0, k1)]. *)
Definition siphash13 (k0 k1 : Z) (data : list Z) : Z :=
  let v := (Z.lxor k0 0x736f6d6570736575, Z.lxor k1 0x646f72616e646f6d,
            Z.lxor k0 0x6c7967656e657261, Z.lxor k1 0x7465646279746573) in
  let '(v, tail) := blocks data v in
  let b := Z.lor (wrap64 (Z.shiftl (Z.of_nat (length data)) 56)) (le_bytes tail) in
  let '(v0, v1, v2, v3) := absorb v b in
  let '(v0, v1, v2, v3) :=
    single_round (single_round (single_round (v0, v1, Z.lxor v2 0xff, v3))) in
  Z.lxor (Z.lxor v0 v1) (Z.lxor v2 v3).

(** The secret a fixed PYTHONHASHSEED gives: bytes of a linear congruential
    generator, or zeros for seed 0. *)
Fixpoint lcg_urandom (size : nat) (x : Z) : list Z :=
  match size with
  | O => []
  | S size =>
      let x := (x * 214013 + 2531011) mod 2 ^ 32 in
      (Z.shiftr x 16 mod 256) :: lcg_urandom size x
  end.

Definition secret (seed : Z) : list Z :=
  if seed =? 0 then repeat 0 24 else lcg_urandom 24 seed.

(** [hash(s)] for a [str] of code points below 256 (one byte each) in a
    process started with PYTHONHASHSEED=[seed]: zero for the empty string,
    else the hash as a signed 64-bit integer, with -1 moved to -2. *)
Definition str_hash (seed : Z) (s : string) : Z :=
  let data := map (fun c => Z.of_N (N_of_ascii c)) (list_ascii_of_string s) in
  match data with
  | [] => 0
  | _ =>
      let k0 := le_bytes (firstn 8 (secret seed)) in
      let k1 := le_bytes (firstn 8 (skipn 8 (secret seed))) in
      let x := siphash13 k0 k1 data in
      let x := if 2 ^ 63 <=? x then x - 2 ^ 64 else x in
      if x =? -1 then -2 else x
  end.

End CPython.

(** ** The database and the session

    The committed tables, keyed by primary key, with the sequences that
    number new rows. *)

Module Database.
Record t : Type := mk {
  chatboxes : gmap Z Chatbox.t;
  documents : gmap Z Document.t;
  chunks : gmap Z Chunk.t;
  chatboxes_id_seq : Z;
  documents_id_seq : Z;
  chunks_id_seq : Z
}.

Definition empty : t := mk ∅ ∅ ∅ 0 0 0.
End Database.

Inductive SqlValue : Type :=
| SqlNull
| SqlInt (n : Z)
| SqlFloat (x : float)
| SqlStr (s : string).

(** A row of the similarity query's result. *)
Module Row.
Record t : Type := mk {
  id : Z;
  document_id : Z;
  chatbox_id : Z;
  content : string;
  chunk_index : Z;
  similarity : float
}.
End Row.

(** The session handed to the repositories by [get_db]. The connection and
    the engine behind it are outside this code: [orm_error db] is the
    exception, if any, that an ORM statement or a commit meets when the
    database is in state [db], and [execute_text db query params] is what
    the engine answers to a textual statement. *)
Module AsyncSession.
Record t : Type := mk {
  orm_error : Database.t -> option exn;
  execute_text : Database.t -> string -> gmap string SqlValue -> outcome (list Row.t)
}.
End AsyncSession.

(** ** Calls on collaborators

    The pipelines record each call they make on the embedding service, the
    vector search and the language-model service, with its arguments. *)

Inductive Call : Type :=
| Call_embed_text (text : string)
| Call_embed_texts (texts : list string)
| Call_similarity_search (chatbox_id : option Z) (query_embedding : list float)
    (top_k : Z) (min_score : float) (document_id : option Z)
| Call_generate_answer (question : string) (context_chunks : list string).

(** ** The monad of the pipelines

    A computation starts from the committed database and gives its outcome,
    the database it leaves, and the calls it made, in order. What was
    committed before an exception stays committed. *)

Module Run.
Record t (A : Type) : Type := mk {
  result : outcome A;
  db : Database.t;
  calls : list Call
}.
Arguments mk {A} result db calls.
Arguments result {A} _.
Arguments db {A} _.
Arguments calls {A} _.
End Run.

Definition M (A : Type) : Type := Database.t -> Run.t A.

Definition ret {A} (a : A) : M A := fun db => Run.mk (Return a) db [].

Definition raise {A} (e : exn) : M A := fun db => Run.mk (Raise e) db [].

Definition bind {A B} (m : M A) (f : A -> M B) : M B := fun db =>
  let r := m db in
  match Run.result r with
  | Return a =>
      let r' := f a (Run.db r) in
      Run.mk (Run.result r') (Run.db r') (Run.calls r ++ Run.calls r')
  | Raise e => Run.mk (Raise e) (Run.db r) (Run.calls r)
  | Diverge => Run.mk Diverge (Run.db r) (Run.calls r)
  end.

(** A call that touches nothing: its outcome, in the monad. *)
Definition lift {A} (o : outcome A) : M A := fun db => Run.mk o db [].

(** Record a call on a collaborator. *)
Definition called (c : Call) : M unit := fun db => Run.mk (Return tt) db [c].

Notation "x <- m ;; k" := (bind m (fun x => k))
  (at level 100, m at next level, right associativity).
Notation "x <~ m ;; k" := (obind m (fun x => k))
  (at level 100, m at next level, right associativity).

(** Database steps of a repository. *)

(** A statement sent through the session: it raises what the connection
    raises in the current state, if anything. *)
Definition statement (session : AsyncSession.t) : M unit := fun db =>
  match AsyncSession.orm_error session db with
  | Some e => Run.mk (Raise e) db []
  | None => Run.mk (Return tt) db []
  end.

Definition read {A} (f : Database.t -> A) : M A := fun db => Run.mk (Return (f db)) db [].

Definition write (f : Database.t -> Database.t) : M unit := fun db =>
  Run.mk (Return tt) (f db) [].

(** ** [app/repositories] *)

Module ChatboxRepository.

Record t : Type := mk { session : AsyncSession.t }.

Definition with_id (new_id : Z) (chatbox : Chatbox.t) : Chatbox.t :=
  Chatbox.mk (Some new_id) (Chatbox.organization_id chatbox)
    (Chatbox.name chatbox) (Chatbox.description chatbox)
    (Chatbox.allowed_domains chatbox) (Chatbox.enforce_allowed_domains chatbox).

Definition insert_row (new_id : Z) (chatbox : Chatbox.t) (db : Database.t) : Database.t :=
  Database.mk (<[new_id := chatbox]> (Database.chatboxes db))
    (Database.documents db) (Database.chunks db)
    new_id (Database.documents_id_seq db) (Database.chunks_id_seq db).

Definition update_row (key : Z) (chatbox : Chatbox.t) (db : Database.t) : Database.t :=
  Database.mk (<[key := chatbox]> (Database.chatboxes db))
    (Database.documents db) (Database.chunks db)
    (Database.chatboxes_id_seq db) (Database.documents_id_seq db)
    (Database.chunks_id_seq db).

(** [add], [commit], [refresh]: the commit inserts the row under the next id
    of the sequence. *)
Definition create (self : t) (chatbox : Chatbox.t) : M Chatbox.t :=
  _ <- statement (session self) ;;
  seq <- read Database.chatboxes_id_seq ;;
  let chatbox := with_id (seq + 1) chatbox in
  _ <- write (insert_row (seq + 1) chatbox) ;;
  _ <- statement (session self) ;;
  ret chatbox.

Definition get_by_id (self : t) (chatbox_id : Z) : M Chatbox.t :=
  _ <- statement (session self) ;;
  chatbox <- read (fun db => Database.chatboxes db !! chatbox_id) ;;
  match chatbox with
  | Some chatbox => ret chatbox
  | None =>
      raise (NotFoundError ("Chatbox with id " +:+ pretty chatbox_id +:+ " not found"))
  end.

(** [commit], [refresh]: the commit writes the changes made to the loaded
    object to its row. Until then they live in the request's session only,
    which [get_db] rolls back and closes when the request raises. *)
Definition update (self : t) (chatbox : Chatbox.t) : M Chatbox.t :=
  _ <- statement (session self) ;;
  _ <- match Chatbox.id chatbox with
       | Some key => write (update_row key chatbox)
       | None => ret tt
       end ;;
  _ <- statement (session self) ;;
  ret chatbox.

End ChatboxRepository.

Module DocumentRepository.

Record t : Type := mk { session : AsyncSession.t }.

Definition with_id (new_id : Z) (document : Document.t) : Document.t :=
  Document.mk (Some new_id) (Document.chatbox_id document)
    (Document.source_type document) (Document.source_name document)
    (Document.source_url document) (Document.raw_content document)
    (Document.file_size_bytes document) (Document.mime_type document).

Definition insert_row (new_id : Z) (document : Document.t) (db : Database.t) : Database.t :=
  Database.mk (Database.chatboxes db)
    (<[new_id := document]> (Database.documents db)) (Database.chunks db)
    (Database.chatboxes_id_seq db) new_id (Database.chunks_id_seq db).

(** [add], [commit], [refresh]: the commit inserts the row under the next id
    of the sequence. *)
Definition create (self : t) (document : Document.t) : M Document.t :=
  _ <- statement (session self) ;;
  seq <- read Database.documents_id_seq ;;
  let document := with_id (seq + 1) document in
  _ <- write (insert_row (seq + 1) document) ;;
  _ <- statement (session self) ;;
  ret document.

Definition get_by_id_optional (self : t) (document_id : Z) : M (option Document.t) :=
  _ <- statement (session self) ;;
  read (fun db => Database.documents db !! document_id).

End DocumentRepository.

Module ChunkRepository.

Record t : Type := mk { session : AsyncSession.t }.

Definition with_id (new_id : Z) (chunk : Chunk.t) : Chunk.t :=
  Chunk.mk (Some new_id) (Chunk.document_id chunk) (Chunk.chatbox_id chunk)
    (Chunk.content chunk) (Chunk.chunk_index chunk) (Chunk.embedding chunk).

(** The chunks as the commit numbers them, from the sequence value [seq]. *)
Fixpoint numbered (seq : Z) (chunks : list Chunk.t) : list Chunk.t :=
  match chunks with
  | [] => []
  | chunk :: rest => with_id (seq + 1) chunk :: numbered (seq + 1) rest
  end.

Definition key_of (chunk : Chunk.t) : Z := default 0 (Chunk.id chunk).

Definition insert_rows (chunks : list Chunk.t) (db : Database.t) : Database.t :=
  Database.mk (Database.chatboxes db) (Database.documents db)
    (foldl (fun table chunk => <[key_of chunk := chunk]> table)
       (Database.chunks db) chunks)
    (Database.chatboxes_id_seq db) (Database.documents_id_seq db)
    (Database.chunks_id_seq db + Z.of_nat (length chunks)).

(** [for chunk in chunks: await self.session.refresh(chunk)] *)
Fixpoint refresh_all (self : t) (chunks : list Chunk.t) : M unit :=
  match chunks with
  | [] => ret tt
  | _ :: rest => _ <- statement (session self) ;; refresh_all self rest
  end.

(** Bulk create chunks: [add_all], one [commit], then a [refresh] each. *)
Definition create_many (self : t) (chunks : list Chunk.t) : M (list Chunk.t) :=
  _ <- statement (session self) ;;
  seq <- read Database.chunks_id_seq ;;
  let chunks := numbered seq chunks in
  _ <- write (insert_rows chunks) ;;
  _ <- refresh_all self chunks ;;
  ret chunks.

(** Delete all chunks for a document: select them, mark each for deletion,
    commit. *)
Definition delete_by_document (self : t) (document_id : Z) : M unit :=
  _ <- statement (session self) ;;
  chunks <- read (fun db =>
                    map_to_list
                      (filter (fun kv => Chunk.document_id kv.2 = Some document_id)
                         (Database.chunks db))) ;;
  _ <- statement (session self) ;;
  write (fun db =>
           Database.mk (Database.chatboxes db) (Database.documents db)
             (foldl (fun table kv => delete kv.1 table) (Database.chunks db) chunks)
             (Database.chatboxes_id_seq db) (Database.documents_id_seq db)
             (Database.chunks_id_seq db)).

Definition select_similarity : string :=
  " SELECT id, document_id, chatbox_id, content, chunk_index, embedding, 1 - (embedding <=> :embedding::vector) AS similarity FROM chunks WHERE chatbox_id = :chatbox_id ".

Definition filter_and_limit : string :=
  " AND (1 - (embedding <=> :embedding::vector)) >= :min_score ORDER BY embedding <=> :embedding::vector LIMIT :top_k ".

Definition sql_opt_int (o : option Z) : SqlValue :=
  match o with
  | Some n => SqlInt n
  | None => SqlNull
  end.

(** The body of the [try] block of [similarity_search]. *)
Definition similarity_query (rt : Interp.t) (self : t) (db : Database.t)
    (chatbox_id : option Z) (query_embedding : list float) (top_k : Z)
    (min_score : float) (document_id : option Z)
  : outcome (list (Chunk.t * float)) :=
  let embedding_str :=
    "[" +:+ Py.join "," (map (Interp.float_str rt) query_embedding) +:+ "]" in
  let query := select_similarity in
  let params : gmap string SqlValue :=
    <["chatbox_id" := sql_opt_int chatbox_id]>
      (<["embedding" := SqlStr embedding_str]> ∅) in
  let '(query, params) :=
    match document_id with
    | Some d =>
        (query +:+ " AND document_id = :document_id",
         <["document_id" := SqlInt d]> params)
    | None => (query, params)
    end in
  let query := query +:+ filter_and_limit in
  let params := <["min_score" := SqlFloat min_score]> params in
  let params := <["top_k" := SqlInt top_k]> params in
  rows <~ AsyncSession.execute_text (session self) db query params ;;
  Return (map (fun row =>
                 (Chunk.mk (Some (Row.id row)) (Some (Row.document_id row))
                    (Row.chatbox_id row) (Row.content row) (Row.chunk_index row)
                    None,
                  Row.similarity row))
            rows).

(** Vector similarity search: whatever exception the [try] block meets, the
    handler logs it and returns the empty list. *)
Definition similarity_search (rt : Interp.t) (self : t) (chatbox_id : option Z)
    (query_embedding : list float) (top_k : Z) (min_score : float)
    (document_id : option Z) : M (list (Chunk.t * float)) := fun db =>
  Run.mk
    (try_except
       (similarity_query rt self db chatbox_id query_embedding top_k min_score
          document_id)
       (fun _ => Return []))
    db [].

End ChunkRepository.

(** ** [app/services/chunking_service.py] *)

Module ChunkingService.

Record t : Type := mk {
  chunk_size : Z;
  chunk_overlap : Z
}.

(** [__init__]: an argument left out, or zero, gives way to the setting. *)
Definition init (settings : Settings.t) (chunk_size chunk_overlap : option Z) : t :=
  mk (Py.or_default Py.truthy_int chunk_size (Settings.chunk_size settings))
     (Py.or_default Py.truthy_int chunk_overlap (Settings.chunk_overlap settings)).

(** The [while] loop of [chunk_text], entered at its test with the current
    [start] and [chunks]; [fuel] bounds the number of tests. *)
Fixpoint chunk_loop (fuel : nat) (self : t) (text : string) (start : Z)
    (chunks : list string) : outcome (list string) :=
  match fuel with
  | O => Diverge
  | S fuel =>
      if start <? Py.len text then
        let end_ := start + chunk_size self in
        let chunk := Py.slice text start end_ in
        let chunks :=
          if Py.truthy_str (Py.strip chunk) then chunks ++ [Py.strip chunk]
          else chunks in
        let start := start + (chunk_size self - chunk_overlap self) in
        if start <=? 0 then Return chunks
        else chunk_loop fuel self text start chunks
      else Return chunks
  end.

(** Split text into overlapping chunks. The loop gets one test more than
    the text has characters. *)
Definition chunk_text (self : t) (text : string) : outcome (list string) :=
  if negb (Py.truthy_str text) || negb (Py.truthy_str (Py.strip text)) then Return []
  else chunk_loop (S (String.length text)) self text 0 [].

End ChunkingService.

(** ** The provider client

    The two calls the services make on the OpenAI client, reduced to what
    they read from the response: the embeddings of [response.data], and the
    [message.content] of each of [response.choices]. *)

Module AsyncOpenAI.
Record t : Type := mk {
  embeddings_create : string -> list string -> outcome (list (list float));
  chat_completions_create :
    string -> list (string * string) -> Z -> float -> outcome (list (option string))
}.
End AsyncOpenAI.

(** A coroutine object: what calling an [async def] function gives before it
    is awaited. *)
Inductive coroutine (A : Type) : Type :=
| Coroutine (body : outcome A).
Arguments Coroutine {A} body.

(** [await c] *)
Definition await {A} (c : coroutine A) : outcome A :=
  match c with
  | Coroutine body => body
  end.

(** [c[i]] on a coroutine object: the class has no [__getitem__]. *)
Definition coroutine_getitem {A B} (c : coroutine A) (i : Z) : outcome B :=
  Raise (OtherError "TypeError" "'coroutine' object is not subscriptable").

(** [l[i]] on a list, for an index that is not negative. *)
Definition list_getitem {A} (l : list A) (i : nat) : outcome A :=
  match l !! i with
  | Some a => Return a
  | None => Raise (OtherError "IndexError" "list index out of range")
  end.

(** ** [app/services/embedding_service.py] *)

Module EmbeddingService.

Record t : Type := mk {
  openai_client : option AsyncOpenAI.t;
  embedding_dim : Z
}.

(** [__init__]: a client when a key is configured and the client can be
    built, the stub otherwise. *)
Definition init (settings : Settings.t) (make_client : string -> outcome AsyncOpenAI.t) : t :=
  mk (match Settings.openai_api_key settings with
      | Some key =>
          if Py.truthy_str key then
            match make_client key with
            | Return client => Some client
            | _ => None
            end
          else None
      | None => None
      end)
     1536.

(** [hash(text) % (2**32)], the argument of [np.random.seed]. *)
Definition stub_seed (rt : Interp.t) (text : string) : Z := Interp.hash rt text mod 2 ^ 32.

(** Deterministic stub embedding for dev mode, seeded by the text's hash. *)
Definition _generate_stub_embedding (rt : Interp.t) (self : t) (text : string) : list float :=
  let seed := stub_seed rt text in
  let embedding := Interp.np_random_randn rt seed (embedding_dim self) in
  let norm := Interp.np_linalg_norm rt embedding in
  if PrimFloat.ltb 0%float norm then map (fun x => PrimFloat.div x norm) embedding
  else embedding.

(** Generate embeddings for multiple texts. *)
Definition embed_texts (rt : Interp.t) (settings : Settings.t) (self : t)
    (texts : list string) : outcome (list (list float)) :=
  if negb (Py.truthy_list texts) then Return []
  else
    match openai_client self with
    | Some client =>
        try_except
          (AsyncOpenAI.embeddings_create client
             (Settings.openai_embedding_model settings) texts)
          (fun e =>
             Raise (ExternalServiceError
                      ("Failed to generate embeddings: " +:+ str_exn e) "openai"))
    | None => Return (map (_generate_stub_embedding rt self) texts)
    end.

(** Generate embedding for a single text. The body is
    [return await self.embed_texts([text])[0]]: the subscription binds
    tighter than [await], so it is applied to the coroutine object and the
    result of that is what would be awaited. *)
Definition embed_text (rt : Interp.t) (settings : Settings.t) (self : t)
    (text : string) : outcome (list float) :=
  item <~ coroutine_getitem (B := coroutine (list float))
            (Coroutine (embed_texts rt settings self [text])) 0 ;;
  await item.

End EmbeddingService.

(** ** [app/services/llm_service.py] *)

Definition nl : string := String (ascii_of_nat 10) EmptyString.

Module LLMService.

Record t : Type := mk { openai_client : option AsyncOpenAI.t }.

Definition init (settings : Settings.t) (make_client : string -> outcome AsyncOpenAI.t) : t :=
  mk (match Settings.openai_api_key settings with
      | Some key =>
          if Py.truthy_str key then
            match make_client key with
            | Return client => Some client
            | _ => None
            end
          else None
      | None => None
      end).

(** Generate a stub answer for dev mode. *)
Definition _generate_stub_answer (question : string) (context_chunks : list string) : string :=
  if negb (Py.truthy_list context_chunks) then
    "[DEV MODE - Stub Answer] I don't have enough information to answer: '"
      +:+ question +:+ "'. " +:+ "No relevant content was found."
  else
    "[DEV MODE - Stub Answer] Based on the retrieved context, here's a response to: '"
      +:+ question +:+ "'. "
      +:+ "Found " +:+ pretty (Z.of_nat (length context_chunks)) +:+ " relevant chunks. "
      +:+ "In production, OpenAI would generate a detailed answer here.".

Definition system_prompt : string :=
  "You are a helpful assistant that answers questions based on the provided context. "
  +:+ "If the answer is not in the context, say so. "
  +:+ "Always cite your sources by reference number [1], [2], etc.".

(** Generate an answer to a question based on retrieved context chunks. *)
Definition generate_answer (settings : Settings.t) (self : t) (question : string)
    (context_chunks : list string) (max_tokens : Z) : outcome string :=
  match openai_client self with
  | Some client =>
      try_except
        (let context :=
           Py.join (nl +:+ nl)
             (imap (fun i chunk => "[" +:+ pretty (Z.of_nat i + 1) +:+ "] " +:+ chunk)
                context_chunks) in
         let user_prompt :=
           "Context:" +:+ nl +:+ context +:+ nl +:+ nl +:+ "Question: " +:+ question
             +:+ nl +:+ nl +:+ "Answer:" in
         choices <~ AsyncOpenAI.chat_completions_create client
                      (Settings.openai_chat_model settings)
                      [("system", system_prompt); ("user", user_prompt)]
                      max_tokens 0x1.6666666666666p-1%float ;;
         first <~ list_getitem choices 0 ;;
         match first with
         | Some content => Return (Py.strip content)
         | None =>
             Raise (OtherError "AttributeError"
                      "'NoneType' object has no attribute 'strip'")
         end)
        (fun e =>
           Raise (ExternalServiceError
                    ("Failed to generate answer: " +:+ str_exn e) "openai"))
  | None => Return (_generate_stub_answer question context_chunks)
  end.

End LLMService.

(** ** The injected services

    The pipelines receive their embedding and language-model services
    through their constructors and use them through these methods only. An
    object is given by what its methods do. *)

Module Embedder.
Record t : Type := mk {
  embed_text : string -> outcome (list float);
  embed_texts : list string -> outcome (list (list float))
}.

(** The repository's own service, as wired by [get_embedding_service]. *)
Definition of_service (rt : Interp.t) (settings : Settings.t) (svc : EmbeddingService.t) : t :=
  mk (EmbeddingService.embed_text rt settings svc)
     (EmbeddingService.embed_texts rt settings svc).
End Embedder.

Module Answerer.
Record t : Type := mk {
  generate_answer : string -> list string -> outcome string
}.

(** The repository's own service, as wired by [get_llm_service]; callers
    leave [max_tokens] at its default. *)
Definition of_service (settings : Settings.t) (svc : LLMService.t) : t :=
  mk (fun question context_chunks =>
        LLMService.generate_answer settings svc question context_chunks 500).
End Answerer.

(** ** [app/services/ingestion_service.py] *)

Module IngestionService.

Record t : Type := mk {
  document_repo : DocumentRepository.t;
  chunk_repo : ChunkRepository.t;
  chunking_service : ChunkingService.t;
  embedding_service : Embedder.t
}.

(** Ingest raw text: chunk, embed, and store. *)
Definition ingest_text (self : t) (chatbox_id : Z) (text : string)
    (source_name : option string) : M (Document.t * Z) :=
  let document :=
    Document.mk None chatbox_id TEXT
      (Some (Py.or_default Py.truthy_str source_name "Raw Text"))
      None text None None in
  document <- DocumentRepository.create (document_repo self) document ;;
  chunks_text <- lift (ChunkingService.chunk_text (chunking_service self) text) ;;
  if negb (Py.truthy_list chunks_text) then ret (document, 0)
  else
    _ <- called (Call_embed_texts chunks_text) ;;
    embeddings <- lift (Embedder.embed_texts (embedding_service self) chunks_text) ;;
    let chunks :=
      imap (fun i '(chunk_text, embedding) =>
              Chunk.mk None (Document.id document) chatbox_id chunk_text
                (Z.of_nat i) (Some embedding))
        (zip chunks_text embeddings) in
    _ <- ChunkRepository.create_many (chunk_repo self) chunks ;;
    ret (document, Z.of_nat (length chunks)).

End IngestionService.

(** ** [app/services/query_service.py] *)

Module QueryService.

Record t : Type := mk {
  chunk_repo : ChunkRepository.t;
  document_repo : DocumentRepository.t;
  embedding_service : Embedder.t;
  llm_service : Answerer.t
}.

(** Validate request origin against chatbox's allowed domains. *)
Definition validate_origin (chatbox : Chatbox.t) (origin : option string) : outcome unit :=
  if negb (Chatbox.enforce_allowed_domains chatbox) then Return tt
  else if negb (Py.truthy_opt Py.truthy_str origin) then
    Raise (ForbiddenError "Origin header is required for this chatbox")
  else if negb (Py.truthy_opt Py.truthy_list (Chatbox.allowed_domains chatbox)) then
    Raise (ForbiddenError "No allowed domains configured for this chatbox")
  else
    let origin := default "" origin in
    let origin_normalized := Py.rstrip (Py.lower origin) "/" in
    let allowed_normalized :=
      map (fun d => Py.rstrip (Py.lower d) "/")
        (default [] (Chatbox.allowed_domains chatbox)) in
    if negb (Py.contains origin_normalized allowed_normalized) then
      Raise (OriginNotAllowedError origin)
    else Return tt.

Definition no_information_answer : string :=
  "I couldn't find any relevant information to answer your question.".

(** The first loop of the second half of [query]: look up each document id
    once and keep the documents found, by id. *)
Fixpoint load_documents (self : t) (doc_ids : list (option Z))
    (documents : gmap Z Document.t) : M (gmap Z Document.t) :=
  match doc_ids with
  | [] => ret documents
  | doc_id :: rest =>
      doc <- match doc_id with
             | Some key => DocumentRepository.get_by_id_optional (document_repo self) key
             | None => _ <- statement (DocumentRepository.session (document_repo self)) ;;
                       ret None
             end ;;
      match doc_id, doc with
      | Some key, Some doc => load_documents self rest (<[key := doc]> documents)
      | _, _ => load_documents self rest documents
      end
  end.

(** [SourceChunk(...)]: the schema wants integers for both ids. *)
Definition source_chunk (document_id chunk_id : option Z) (content : string)
    (score : float) (source_name : option string) : outcome SourceChunk.t :=
  match document_id, chunk_id with
  | Some document_id, Some chunk_id =>
      Return (SourceChunk.mk document_id chunk_id content score source_name)
  | _, _ =>
      Raise (OtherError "pydantic.ValidationError" "Input should be a valid integer")
  end.

(** The second loop: one source record per result, in ranking order. *)
Fixpoint build_sources (documents : gmap Z Document.t)
    (results : list (Chunk.t * float)) : outcome (list SourceChunk.t) :=
  match results with
  | [] => Return []
  | (chunk, score) :: rest =>
      let doc := Chunk.document_id chunk ≫= (fun key => documents !! key) in
      source <~ source_chunk (Chunk.document_id chunk) (Chunk.id chunk)
                  (Chunk.content chunk) score
                  (doc ≫= Document.source_name) ;;
      sources <~ build_sources documents rest ;;
      Return (source :: sources)
  end.

(** Process a query with RAG. Returns the answer and its sources. *)
Definition query (rt : Interp.t) (settings : Settings.t) (self : t)
    (chatbox : Chatbox.t) (question : string) (origin : option string)
    (document_id : option Z) (top_k : option Z) (min_score : option float)
  : M (string * list SourceChunk.t) :=
  _ <- lift (validate_origin chatbox origin) ;;
  let top_k := Py.or_default Py.truthy_int top_k (Settings.vector_top_k_default settings) in
  let min_score :=
    Py.or_default Py.truthy_float min_score (Settings.vector_min_score_default settings) in
  _ <- called (Call_embed_text question) ;;
  query_embedding <- lift (Embedder.embed_text (embedding_service self) question) ;;
  _ <- called (Call_similarity_search (Chatbox.id chatbox) query_embedding top_k
                 min_score document_id) ;;
  chunks_with_scores <-
    ChunkRepository.similarity_search rt (chunk_repo self) (Chatbox.id chatbox)
      query_embedding top_k min_score document_id ;;
  if negb (Py.truthy_list chunks_with_scores) then ret (no_information_answer, [])
  else
    let chunks := map fst chunks_with_scores in
    let scores := map snd chunks_with_scores in
    let context_texts := map Chunk.content chunks in
    _ <- called (Call_generate_answer question context_texts) ;;
    answer <- lift (Answerer.generate_answer (llm_service self) question context_texts) ;;
    let doc_ids := elements (list_to_set (map Chunk.document_id chunks) : gset (option Z)) in
    documents <- load_documents self doc_ids ∅ ;;
    source_chunks <- lift (build_sources documents (zip chunks scores)) ;;
    ret (answer, source_chunks).

End QueryService.

(** ** [app/api/routes/chatboxes.py]

    The response of both routes repeats the fields of the stored chatbox. *)

Definition allowed_domains_required : string :=
  "allowed_domains is required when enforce_allowed_domains is True".

(** Create a new chatbox. *)
Definition create_chatbox (data : ChatboxCreate.t) (org_id : Z)
    (repo : ChatboxRepository.t) : M Chatbox.t :=
  if ChatboxCreate.enforce_allowed_domains data
     && negb (Py.truthy_opt Py.truthy_list (ChatboxCreate.allowed_domains data))
  then raise (ValidationError allowed_domains_required)
  else
    let chatbox :=
      Chatbox.mk None org_id (ChatboxCreate.name data) (ChatboxCreate.description data)
        (ChatboxCreate.allowed_domains data)
        (ChatboxCreate.enforce_allowed_domains data) in
    ChatboxRepository.create repo chatbox.

(** The four assignments of [update_chatbox]: a field the request gives
    replaces the one of the loaded chatbox. *)
Definition apply_update (data : ChatboxUpdate.t) (chatbox : Chatbox.t) : Chatbox.t :=
  Chatbox.mk (Chatbox.id chatbox) (Chatbox.organization_id chatbox)
    (default (Chatbox.name chatbox) (ChatboxUpdate.name data))
    (match ChatboxUpdate.description data with
     | Some d => Some d
     | None => Chatbox.description chatbox
     end)
    (match ChatboxUpdate.allowed_domains data with
     | Some ds => Some ds
     | None => Chatbox.allowed_domains chatbox
     end)
    (default (Chatbox.enforce_allowed_domains chatbox)
       (ChatboxUpdate.enforce_allowed_domains data)).

(** Update a chatbox. *)
Definition update_chatbox (chatbox_id : Z) (data : ChatboxUpdate.t)
    (repo : ChatboxRepository.t) : M Chatbox.t :=
  chatbox <- ChatboxRepository.get_by_id repo chatbox_id ;;
  let chatbox := apply_update data chatbox in
  if Chatbox.enforce_allowed_domains chatbox
     && negb (Py.truthy_opt Py.truthy_list (Chatbox.allowed_domains chatbox))
  then raise (ValidationError allowed_domains_required)
  else ChatboxRepository.update repo chatbox.

(** Get a specific chatbox by ID. *)
Definition get_chatbox (chatbox_id : Z) (repo : ChatboxRepository.t) : M Chatbox.t :=
  ChatboxRepository.get_by_id repo chatbox_id.

(** ** [app/schemas/query.py] and [app/api/routes/query.py] *)

Module QueryRequest.
Record t : Type := mk {
  chatbox_id : Z;
  question : string;
  document_id : option Z;
  top_k : option Z;
  origin : option string
}.

(** The constraints of the fields: a question of at least one character, a
    [top_k] between 1 and 20 when given. A request that fails them is
    answered by the framework and never reaches the route. *)
Definition valid (data : t) : bool :=
  (1 <=? Py.len (question data))
  && match top_k data with
     | Some k => (1 <=? k) && (k <=? 20)
     | None => true
     end.
End QueryRequest.

Module QueryResponse.
Record t : Type := mk {
  answer : string;
  sources : list SourceChunk.t;
  chatbox_id : Z
}.
End QueryResponse.

(** Query a chatbox with a question. The route passes no [min_score]. *)
Definition query_chatbox (rt : Interp.t) (settings : Settings.t) (data : QueryRequest.t)
    (chatbox_repo : ChatboxRepository.t) (query_service : QueryService.t)
  : M QueryResponse.t :=
  chatbox <- ChatboxRepository.get_by_id chatbox_repo (QueryRequest.chatbox_id data) ;;
  result <- QueryService.query rt settings query_service chatbox
              (QueryRequest.question data) (QueryRequest.origin data)
              (QueryRequest.document_id data) (QueryRequest.top_k data) None ;;
  ret (QueryResponse.mk result.1 result.2 (QueryRequest.chatbox_id data)).

(** ** [app/schemas/ingest.py] and [app/api/routes/ingest.py] *)

Module IngestTextRequest.
Record t : Type := mk {
  chatbox_id : Z;
  text : string;
  source_name : option string
}.
End IngestTextRequest.

Module IngestTextResponse.
Record t : Type := mk {
  document_id : Z;
  chunks_created : Z;
  message : string
}.
End IngestTextResponse.

Module IngestRoutes.

(** Ingest raw text into a chatbox, after checking that the chatbox exists. *)
Definition ingest_text (data : IngestTextRequest.t) (chatbox_repo : ChatboxRepository.t)
    (ingestion_service : IngestionService.t) : M IngestTextResponse.t :=
  _ <- ChatboxRepository.get_by_id chatbox_repo (IngestTextRequest.chatbox_id data) ;;
  result <- IngestionService.ingest_text ingestion_service
              (IngestTextRequest.chatbox_id data) (IngestTextRequest.text data)
              (IngestTextRequest.source_name data) ;;
  match Document.id result.1 with
  | Some document_id =>
      ret (IngestTextResponse.mk document_id result.2
             ("Successfully ingested text with " +:+ pretty result.2 +:+ " chunks"))
  | None =>
      raise (OtherError "pydantic.ValidationError" "Input should be a valid integer")
  end.

End IngestRoutes.

(** ** [app/core/exception_handlers.py]

    The error responses, reduced to the status code and to the [code] and
    [message] of the body; the request id is left out. *)

Module ErrorResponse.
Record t : Type := mk {
  status_code : Z;
  error_code : string;
  message : string
}.
End ErrorResponse.

(** [status_map] of [helperly_exception_handler]. *)
Definition status_map : gmap string Z :=
  <["VALIDATION_ERROR" := 400]>
    (<["NOT_FOUND" := 404]>
       (<["UNAUTHORIZED" := 401]>
          (<["FORBIDDEN" := 403]>
             (<["RATE_LIMIT_EXCEEDED" := 429]>
                (<["EXTERNAL_SERVICE_ERROR" := 502]> ∅))))).

(** Handle custom Helperly exceptions, given the [code] and the [message]
    of the exception. *)
Definition helperly_exception_handler (code message : string) : ErrorResponse.t :=
  let status_code := default 500 (status_map !! code) in
  ErrorResponse.mk status_code code message.

(** Handle any unhandled exceptions. *)
Definition generic_exception_handler : ErrorResponse.t :=
  ErrorResponse.mk 500 "INTERNAL_ERROR"
    "An internal error occurred. Please try again later.".

(** The handler [main.py] registers for the class of an exception that
    leaves a route: the first for [HelperlyException] and its subclasses, the
    second for every other [Exception]. (The two framework classes that have
    handlers of their own are raised by the framework, not by the routes.) *)
Definition error_response (e : exn) : ErrorResponse.t :=
  match Py.code e with
  | Some code => helperly_exception_handler code (Py.message e)
  | None => generic_exception_handler
  end.

(** * Notions used by the statements, and sample data *)

(** The chunk read at offset [start]: the slice of [chunk_size] characters,
    stripped. *)
Definition chunk_at (self : ChunkingService.t) (text : string) (start : Z) : string :=
  Py.strip (Py.slice text start (start + ChunkingService.chunk_size self)).

(** [count] offsets from [start], [step] apart. *)
Fixpoint offsets_from (start step : Z) (count : nat) : list Z :=
  match count with
  | O => []
  | S count => start :: offsets_from (start + step) step count
  end.

(** The number of multiples of [step] below [n], zero included. *)
Definition offset_count (n step : Z) : nat := Z.to_nat ((n + step - 1) / step).

(** The normalization [validate_origin] applies to the origin and to each
    allow-listed entry. *)
Definition normalize_origin (s : string) : string := Py.rstrip (Py.lower s) "/".

Definition is_slash (c : ascii) : bool := Ascii.eqb c "/".

(** Origin validation as the specification words it: a missing origin is
    what is rejected, and normalization strips a single trailing slash. *)
Module OriginSpec.

Fixpoint strip_one_trailing_slash (s : string) : string :=
  match s with
  | EmptyString => EmptyString
  | String c EmptyString => if is_slash c then EmptyString else s
  | String c s' => String c (strip_one_trailing_slash s')
  end.

Definition normalize (s : string) : string := strip_one_trailing_slash (Py.lower s).

Definition validate_origin (chatbox : Chatbox.t) (origin : option string) : outcome unit :=
  if negb (Chatbox.enforce_allowed_domains chatbox) then Return tt
  else
    match origin with
    | None => Raise (ForbiddenError "Origin header is required for this chatbox")
    | Some origin =>
        match Chatbox.allowed_domains chatbox with
        | None | Some [] =>
            Raise (ForbiddenError "No allowed domains configured for this chatbox")
        | Some allowed =>
            if Py.contains (normalize origin) (map normalize allowed) then Return tt
            else Raise (OriginNotAllowedError origin)
        end
    end.

End OriginSpec.

(** An enforcing chatbox with the one allowed origin [https://a.com]. *)
Definition chatbox_a : Chatbox.t :=
  Chatbox.mk (Some 1) 1 "docs" None (Some ["https://a.com"]) true.

(** An enforcing chatbox whose one entry is a lone slash. *)
Definition chatbox_slash : Chatbox.t :=
  Chatbox.mk (Some 2) 1 "root" None (Some ["/"]) true.

(** An enforcing chatbox has an allow-list with an entry. *)
Definition allow_list_ok (chatbox : Chatbox.t) : Prop :=
  Chatbox.enforce_allowed_domains chatbox = true →
  ∃ d ds, Chatbox.allowed_domains chatbox = Some (d :: ds).

Definition allow_list_invariant (db : Database.t) : Prop :=
  ∀ key chatbox, Database.chatboxes db !! key = Some chatbox → allow_list_ok chatbox.

(** A request to one of the two routes that write chatboxes. *)
Inductive ChatboxRequest : Type :=
| PostChatbox (data : ChatboxCreate.t) (org_id : Z)
| PatchChatbox (chatbox_id : Z) (data : ChatboxUpdate.t).

Definition handle (repo : ChatboxRepository.t) (request : ChatboxRequest) : M Chatbox.t :=
  match request with
  | PostChatbox data org_id => create_chatbox data org_id repo
  | PatchChatbox chatbox_id data => update_chatbox chatbox_id data repo
  end.

(** The databases the two routes lead to from the empty one, over any
    session. *)
Inductive reachable : Database.t → Prop :=
| reachable_empty : reachable Database.empty
| reachable_step db repo request :
    reachable db → reachable (Run.db (handle repo request db)).

(** The check both routes make before they write. *)
Definition rejected (enforce : bool) (allowed : option (list string)) : bool :=
  enforce && negb (Py.truthy_opt Py.truthy_list allowed).

(** A session over a healthy connection to a database without the vector
    extension: ORM statements succeed, the similarity query is refused. *)
Definition session_without_pgvector : AsyncSession.t :=
  AsyncSession.mk (fun _ => None)
    (fun _ _ _ => Raise (OtherError "ProgrammingError" "type vector does not exist")).

Definition chatbox_repo_0 : ChatboxRepository.t :=
  ChatboxRepository.mk session_without_pgvector.

(** The database after one enforcing chatbox was created. *)
Definition db_one_chatbox : Database.t :=
  Run.db (create_chatbox
            (ChatboxCreate.mk "docs" None (Some ["https://a.com"]) true) 1
            chatbox_repo_0 Database.empty).

(** An interpreter whose parts are placeholders, for runs that do not
    depend on them. *)
Definition interp_0 : Interp.t :=
  Interp.mk (fun _ => 0) (fun _ => "0.0") (fun _ _ => []) (fun _ => 0%float).

Definition chunk_repo_0 : ChunkRepository.t := ChunkRepository.mk session_without_pgvector.

(** What C2 claims of [embed_text]: the first element of
    [await self.embed_texts([text])]. *)
Definition embed_text_claimed (rt : Interp.t) (settings : Settings.t)
    (self : EmbeddingService.t) (text : string) : outcome (list float) :=
  embeddings <~ await (Coroutine (EmbeddingService.embed_texts rt settings self [text])) ;;
  list_getitem embeddings 0.

(** The values [query] passes on for [top_k] and [min_score]. *)
Definition resolved_top_k (settings : Settings.t) (top_k : option Z) : Z :=
  Py.or_default Py.truthy_int top_k (Settings.vector_top_k_default settings).

Definition resolved_min_score (settings : Settings.t) (min_score : option float) : float :=
  Py.or_default Py.truthy_float min_score (Settings.vector_min_score_default settings).

(** An embedding service that answers every text with the same vector. *)
Definition embedder_fixed : Embedder.t :=
  Embedder.mk (fun _ => Return [1%float])
    (fun texts => Return (map (fun _ => [1%float]) texts)).

(** An embedding service whose provider is out of quota. *)
Definition embedder_failing : Embedder.t :=
  Embedder.mk
    (fun _ => Raise (ExternalServiceError "Failed to generate embeddings: quota" "openai"))
    (fun _ => Raise (ExternalServiceError "Failed to generate embeddings: quota" "openai")).

(** A query service over a database without the vector extension, with the
    stub language model. *)
Definition query_service_0 : QueryService.t :=
  QueryService.mk chunk_repo_0 (DocumentRepository.mk session_without_pgvector)
    embedder_fixed (Answerer.of_service Settings.defaults (LLMService.mk None)).

(** A chatbox that does not enforce an allow-list. *)
Definition chatbox_open : Chatbox.t := Chatbox.mk (Some 1) 1 "docs" None None false.

(** An ingestion service whose embedding provider is out of quota. *)
Definition ingestion_service_failing : IngestionService.t :=
  IngestionService.mk (DocumentRepository.mk session_without_pgvector) chunk_repo_0
    (ChunkingService.mk 40 10) embedder_failing.

Definition helperly_text : string :=
  "Helperly is a RAG platform. It chunks, embeds, and retrieves.".

Definition helperly_document : Document.t :=
  Document.mk (Some 1) 1 TEXT (Some "Raw Text") None helperly_text None None.

(** [c] is a contiguous piece of [text]. *)
Definition part_of (c text : string) : Prop := ∃ pre post, text = pre +:+ c +:+ post.

(** What the loop appends: the non-empty stripped slice read at an offset
    inside the text. *)
Definition chunk_of (self : ChunkingService.t) (text c : string) : Prop :=
  Py.truthy_str c = true
  ∧ ∃ start, 0 ≤ start < Py.len text ∧ c = chunk_at self text start.

(** The rows of a table carry their key as id, and no key is ahead of the
    sequence that numbers the table. *)
Definition keys_ok {A} (id_of : A → option Z) (table : gmap Z A) (seq : Z) : Prop :=
  ∀ key row, table !! key = Some row → id_of row = Some key ∧ key ≤ seq.

Definition consistent (db : Database.t) : Prop :=
  keys_ok Chatbox.id (Database.chatboxes db) (Database.chatboxes_id_seq db)
  ∧ keys_ok Document.id (Database.documents db) (Database.documents_id_seq db)
  ∧ keys_ok Chunk.id (Database.chunks db) (Database.chunks_id_seq db).

(** A computation that keeps a property of the database, however it ends. *)
Definition keeps {A} (P : Database.t → Prop) (m : M A) : Prop :=
  ∀ db, P db → P (Run.db (m db)).

(** Every stored chunk names a stored document, of the same chatbox. *)
Definition chunks_belong (db : Database.t) : Prop :=
  ∀ key chunk, Database.chunks db !! key = Some chunk →
    ∃ document_key document,
      Chunk.document_id chunk = Some document_key
      ∧ Database.documents db !! document_key = Some document
      ∧ Document.chatbox_id document = Chunk.chatbox_id chunk.

(** The chunk records [ingest_text] builds from the chunk texts and their
    embeddings. *)
Definition new_chunks (document : Document.t) (chatbox_id : Z)
    (chunks_text : list string) (embeddings : list (list float)) : list Chunk.t :=
  imap (fun i '(chunk_text, embedding) =>
          Chunk.mk None (Document.id document) chatbox_id chunk_text
            (Z.of_nat i) (Some embedding))
    (zip chunks_text embeddings).

(** The operations that write or read the database. *)
Inductive Operation : Type :=
| CreateChatbox (data : ChatboxCreate.t) (org_id : Z) (repo : ChatboxRepository.t)
| UpdateChatbox (chatbox_id : Z) (data : ChatboxUpdate.t) (repo : ChatboxRepository.t)
| IngestText (service : IngestionService.t) (chatbox_id : Z) (text : string)
    (source_name : option string)
| Query (rt : Interp.t) (settings : Settings.t) (service : QueryService.t)
    (chatbox : Chatbox.t) (question : string) (origin : option string)
    (document_id : option Z) (top_k : option Z) (min_score : option float)
| DeleteChunks (repo : ChunkRepository.t) (document_id : Z).

(** The database an operation leaves, whether it returns or raises. *)
Definition perform (op : Operation) (db : Database.t) : Database.t :=
  match op with
  | CreateChatbox data org_id repo => Run.db (create_chatbox data org_id repo db)
  | UpdateChatbox chatbox_id data repo => Run.db (update_chatbox chatbox_id data repo db)
  | IngestText service chatbox_id text source_name =>
      Run.db (IngestionService.ingest_text service chatbox_id text source_name db)
  | Query rt settings service chatbox question origin document_id top_k min_score =>
      Run.db (QueryService.query rt settings service chatbox question origin document_id
                top_k min_score db)
  | DeleteChunks repo document_id =>
      Run.db (ChunkRepository.delete_by_document repo document_id db)
  end.

(** The messages [generate_answer] sends to the provider: the system prompt,
    then the numbered context chunks and the question. *)
Definition chat_messages (question : string) (context_chunks : list string)
  : list (string * string) :=
  let context :=
    Py.join (nl +:+ nl)
      (imap (fun i chunk => "[" +:+ pretty (Z.of_nat i + 1) +:+ "] " +:+ chunk)
         context_chunks) in
  [("system", LLMService.system_prompt);
   ("user",
    "Context:" +:+ nl +:+ context +:+ nl +:+ nl +:+ "Question: " +:+ question
      +:+ nl +:+ nl +:+ "Answer:")].



(** An ingestion service over healthy sessions whose embedding service
    answers every text with the same vector. *)
Definition ingestion_service_fixed : IngestionService.t :=
  IngestionService.mk (DocumentRepository.mk session_without_pgvector) chunk_repo_0
    (ChunkingService.mk 40 10) embedder_fixed.

(** A chunk table with two chunks of document 1 and one of document 2. *)
Definition db_three_chunks : Database.t :=
  Database.mk ∅ ∅
    (<[1 := Chunk.mk (Some 1) (Some 1) 1 "hello" 0 None]>
       (<[2 := Chunk.mk (Some 2) (Some 1) 1 "world" 1 None]>
          (<[3 := Chunk.mk (Some 3) (Some 2) 1 "other" 0 None]> ∅)))
    0 0 3.

(** A row the similarity query finds for the Helperly document. *)
Definition row_helperly : Row.t :=
  Row.mk 1 1 1 "Helperly is a RAG platform." 0 0.5%float.

(** A session over a healthy connection whose engine answers the similarity
    query with that row. *)
Definition session_with_rows : AsyncSession.t :=
  AsyncSession.mk (fun _ => None) (fun _ _ _ => Return [row_helperly]).

Definition query_service_rows : QueryService.t :=
  QueryService.mk (ChunkRepository.mk session_with_rows)
    (DocumentRepository.mk session_with_rows) embedder_fixed
    (Answerer.of_service Settings.defaults (LLMService.mk None)).

(** A database that holds the Helperly document. *)
Definition db_helperly : Database.t :=
  Database.mk ∅ (<[1 := helperly_document]> ∅) ∅ 0 1 0.

(** A request for seven chunks. *)
Definition query_request_seven : QueryRequest.t :=
  QueryRequest.mk 1 "What is Helperly?" None (Some 7) (Some "https://a.com").

(** A request without an origin. *)
Definition query_request_no_origin : QueryRequest.t :=
  QueryRequest.mk 1 "What is Helperly?" None None None.

(** A client whose account is out of quota. *)
Definition client_out_of_quota : AsyncOpenAI.t :=
  AsyncOpenAI.mk (fun _ _ => Raise (OtherError "RateLimitError" "quota"))
    (fun _ _ _ _ => Raise (OtherError "RateLimitError" "quota")).

(** A client whose chat completion comes back without a choice. *)
Definition client_no_choice : AsyncOpenAI.t :=
  AsyncOpenAI.mk (fun _ texts => Return (map (fun _ => [1%float]) texts))
    (fun _ _ _ _ => Return []).

(** A request to ingest the Helperly text into chatbox 1. *)
Definition ingest_request_helperly : IngestTextRequest.t :=
  IngestTextRequest.mk 1 helperly_text None.

(** * Properties *)

(** ** The chunker *)

(** Inside the text a slice is the substring from [start], cut at the end
    of the text. *)
Lemma slice_in_range text start size :
  0 ≤ start ≤ Py.len text → 0 ≤ size →
  Py.slice text start (start + size)
  = String.substring (Z.to_nat start) (Z.to_nat (Z.min size (Py.len text - start))) text.
Proof.
  intros Hstart Hsize. unfold Py.slice, Py.slice_bound.
  destruct (Z.ltb_spec start 0), (Z.ltb_spec (start + size) 0); try lia.
  f_equal; lia.
Qed.

Lemma offsets_from_seq start step count :
  offsets_from start step count
  = map (fun k => start + Z.of_nat k * step) (seq 0 count).
Proof.
  revert start. induction count as [|count IH]; intros start; [reflexivity|].
  cbn [offsets_from]. rewrite IH. cbn [seq map]. f_equal; [lia|].
  rewrite <- seq_shift, map_map. apply map_ext. intros k. lia.
Qed.

(** With a positive step the loop visits [count] offsets, provided the last
    of them is the last below the length of the text and the fuel allows one
    test more. *)
Lemma chunk_loop_positive_step self text count :
  ∀ fuel start chunks,
    0 < ChunkingService.chunk_size self - ChunkingService.chunk_overlap self →
    0 ≤ start →
    (count < fuel)%nat →
    start + (Z.of_nat count - 1) * (ChunkingService.chunk_size self
                                    - ChunkingService.chunk_overlap self) < Py.len text
      ∨ count = 0%nat →
    Py.len text ≤ start + Z.of_nat count * (ChunkingService.chunk_size self
                                           - ChunkingService.chunk_overlap self) →
    ChunkingService.chunk_loop fuel self text start chunks
    = Return (chunks ++
              List.filter Py.truthy_str
                (map (chunk_at self text)
                   (offsets_from start (ChunkingService.chunk_size self
                                        - ChunkingService.chunk_overlap self) count))).
Proof.
  induction count as [|count IH]; intros fuel start chunks Hstep Hstart Hfuel Hlast Hend.
  - destruct fuel as [|fuel]; [lia|].
    cbn [ChunkingService.chunk_loop offsets_from map List.filter].
    replace (start <? Py.len text) with false by (symmetry; apply Z.ltb_ge; lia).
    by rewrite app_nil_r.
  - destruct fuel as [|fuel]; [lia|]. cbn [ChunkingService.chunk_loop offsets_from map].
    set (step := ChunkingService.chunk_size self - ChunkingService.chunk_overlap self) in *.
    assert (start < Py.len text) as Hlt.
    { destruct Hlast as [Hlast|]; [|lia]. nia. }
    replace (start <? Py.len text) with true by (symmetry; apply Z.ltb_lt; lia).
    replace (start + step <=? 0) with false by (symmetry; apply Z.leb_gt; lia).
    rewrite IH by lia.
    fold (chunk_at self text start). cbn [List.filter].
    destruct (Py.truthy_str (chunk_at self text start)); [|reflexivity].
    by rewrite <- app_assoc.
Qed.

Lemma offset_count_bounds n step :
  0 < n → 0 < step →
  (Z.of_nat (offset_count n step) - 1) * step < n ≤ Z.of_nat (offset_count n step) * step
  ∧ (0 < offset_count n step ≤ Z.to_nat n)%nat.
Proof.
  intros Hn Hstep. unfold offset_count.
  pose proof (Z.div_mod (n + step - 1) step ltac:(lia)) as Hdiv.
  pose proof (Z.mod_pos_bound (n + step - 1) step Hstep) as Hmod.
  assert (0 < (n + step - 1) / step ≤ n) as Hq by nia.
  rewrite Z2Nat.id by lia. split; [nia|lia].
Qed.

Lemma len_pos_of_truthy text : Py.truthy_str text = true → 0 < Py.len text.
Proof. destruct text; [discriminate|]. unfold Py.len. cbn. lia. Qed.

(** C6: for a configuration with [0 < chunk_size] and
    [0 <= chunk_overlap < chunk_size], [chunk_text] returns the empty list for
    an empty or all-whitespace text, and otherwise the non-empty ones among
    the stripped slices [[start, start + chunk_size)] taken at the offsets
    [0, step, 2 * step, ...] below the length of the text, in that order,
    where [step = chunk_size - chunk_overlap]. *)
Theorem chunk_text_offsets (self : ChunkingService.t) (text : string) :
  0 < ChunkingService.chunk_size self →
  0 ≤ ChunkingService.chunk_overlap self < ChunkingService.chunk_size self →
  let step := ChunkingService.chunk_size self - ChunkingService.chunk_overlap self in
  ChunkingService.chunk_text self text
  = Return
      (if Py.truthy_str (Py.strip text) then
         List.filter Py.truthy_str
           (map (fun start =>
                   Py.strip (Py.slice text start (start + ChunkingService.chunk_size self)))
              (map (fun k => Z.of_nat k * step)
                 (seq 0 (Z.to_nat ((Py.len text + step - 1) / step)))))
       else []).
Proof.
  intros Hsize Hoverlap step. unfold ChunkingService.chunk_text.
  destruct (Py.truthy_str text) eqn:Htext; cbn [negb orb].
  2:{ destruct text; [reflexivity|discriminate]. }
  destruct (Py.truthy_str (Py.strip text)) eqn:Hstrip; cbn [negb]; [|reflexivity].
  pose proof (len_pos_of_truthy _ Htext) as Hlen.
  assert (0 < step) as Hstep by (subst step; lia).
  destruct (offset_count_bounds (Py.len text) step Hlen Hstep)
    as [[Hlast Hend] [Hpos Hle]].
  rewrite (chunk_loop_positive_step self text (offset_count (Py.len text) step));
    fold step; try lia.
  - cbn [app]. rewrite offsets_from_seq. reflexivity.
  - unfold Py.len in *. rewrite Nat2Z.id in Hle. lia.
Qed.

(** C6, at a text of fifteen characters with size 4 and overlap 1: the
    offsets are 0, 3, 6, 9 and 12. *)
Lemma chunk_text_offsets_witness :
  0 < 4 ∧ 0 ≤ 1 < 4
  ∧ ChunkingService.chunk_text (ChunkingService.mk 4 1) "hello   world  "
    = Return ["hell"; "lo"; "wo"; "orld"; "d"].
Proof.
  split; [lia|]. split; [lia|].
  rewrite (chunk_text_offsets (ChunkingService.mk 4 1) "hello   world  ");
    [reflexivity | cbn; lia | cbn; lia].
Defined.

(** With an advance that is not positive the loop runs its body once: the
    guard after the update of [start] leaves it. *)
Lemma chunk_loop_nonpositive_step fuel self text chunks :
  ChunkingService.chunk_size self ≤ ChunkingService.chunk_overlap self →
  0 < Py.len text →
  ChunkingService.chunk_loop (S fuel) self text 0 chunks
  = Return (chunks ++ List.filter Py.truthy_str [chunk_at self text 0]).
Proof.
  intros Hstep Hlen. cbn [ChunkingService.chunk_loop].
  replace (0 <? Py.len text) with true by (symmetry; apply Z.ltb_lt; lia).
  replace (0 + (ChunkingService.chunk_size self - ChunkingService.chunk_overlap self) <=? 0)
    with true by (symmetry; apply Z.leb_le; lia).
  fold (chunk_at self text 0). cbn [List.filter].
  destruct (Py.truthy_str (chunk_at self text 0)); [reflexivity|by rewrite app_nil_r].
Qed.

(** C4, as the code has it: when [chunk_overlap >= chunk_size] the chunker
    raises nothing and does not loop. It returns the empty list for an empty
    or all-whitespace text and otherwise the stripped first slice alone, if
    that is not empty. *)
Theorem chunk_text_nonpositive_step (self : ChunkingService.t) (text : string) :
  ChunkingService.chunk_size self ≤ ChunkingService.chunk_overlap self →
  ChunkingService.chunk_text self text
  = Return
      (if Py.truthy_str (Py.strip text) then
         List.filter Py.truthy_str
           [Py.strip (Py.slice text 0 (0 + ChunkingService.chunk_size self))]
       else []).
Proof.
  intros Hstep. unfold ChunkingService.chunk_text.
  destruct (Py.truthy_str text) eqn:Htext; cbn [negb orb].
  2:{ destruct text; [reflexivity|discriminate]. }
  destruct (Py.truthy_str (Py.strip text)); cbn [negb]; [|reflexivity].
  rewrite chunk_loop_nonpositive_step by auto using len_pos_of_truthy.
  reflexivity.
Qed.

(** C4, at size 4 and overlap 4. *)
Lemma chunk_text_nonpositive_step_witness :
  4 ≤ 4
  ∧ ChunkingService.chunk_text (ChunkingService.mk 4 4) "hello world" = Return ["hell"].
Proof.
  split; [lia|].
  rewrite (chunk_text_nonpositive_step (ChunkingService.mk 4 4) "hello world");
    [reflexivity | cbn; lia].
Defined.

(** C4 as claimed fails: with size 4 and overlap 4 the chunker returns a
    result and raises no error. *)
Lemma chunk_text_overlap_not_rejected :
  ChunkingService.chunk_text (ChunkingService.mk 4 4) "hello world" = Return ["hell"]
  ∧ ¬ (∃ e, ChunkingService.chunk_text (ChunkingService.mk 4 4) "hello world" = Raise e).
Proof. split; [reflexivity|]. intros [e He]. discriminate He. Qed.

(** The chunker returns for every configuration and text: the fuel given to
    the loop is never used up, and nothing is raised. *)
Lemma chunk_text_returns (self : ChunkingService.t) (text : string) :
  ∃ chunks, ChunkingService.chunk_text self text = Return chunks.
Proof.
  unfold ChunkingService.chunk_text.
  destruct (Py.truthy_str text) eqn:Htext; cbn [negb orb]; [|by eexists].
  destruct (Py.truthy_str (Py.strip text)); cbn [negb]; [|by eexists].
  pose proof (len_pos_of_truthy _ Htext) as Hlen.
  destruct (Z.le_gt_cases (ChunkingService.chunk_size self)
              (ChunkingService.chunk_overlap self)) as [Hle|Hgt].
  - eexists. by apply chunk_loop_nonpositive_step.
  - set (step := ChunkingService.chunk_size self - ChunkingService.chunk_overlap self).
    assert (0 < step) as Hstep by (subst step; lia).
    destruct (offset_count_bounds (Py.len text) step Hlen Hstep)
      as [[Hlast Hend] [Hpos Hle]].
    eexists.
    apply (chunk_loop_positive_step self text (offset_count (Py.len text) step));
      fold step; try lia.
    unfold Py.len in *. rewrite Nat2Z.id in Hle. lia.
Qed.

(** ** Origin validation *)

Lemma rstrip_slash s : Py.rstrip s "/" = Py.rstrip_by is_slash s.
Proof.
  unfold Py.rstrip. induction s as [|c s IH]; [reflexivity|].
  cbn [Py.rstrip_by]. rewrite IH. cbn. unfold is_slash. by rewrite orb_false_r.
Qed.

Lemma append_nil_l (t : string) : "" +:+ t = t.
Proof. reflexivity. Qed.

Lemma append_cons (c : ascii) (s t : string) : String c s +:+ t = String c (s +:+ t).
Proof. reflexivity. Qed.

(** [rstrip_by] removes a suffix made of stripped characters only ... *)
Lemma rstrip_by_suffix p s :
  ∃ t, s = Py.rstrip_by p s +:+ t ∧ forallb p (list_ascii_of_string t) = true.
Proof.
  induction s as [|c s (t & Hs & Ht)].
  - by exists "".
  - cbn [Py.rstrip_by]. destruct (Py.rstrip_by p s) as [|b r].
    + rewrite append_nil_l in Hs. subst t. destruct (p c) eqn:Hc.
      * exists (String c s). split; [reflexivity|]. cbn. by rewrite Hc.
      * by exists s.
    + exists t. split; [|done]. by rewrite append_cons, <- Hs.
Qed.

(** ... and what it leaves does not end in a stripped character. *)
Lemma rstrip_by_last p s u c :
  Py.rstrip_by p s = u +:+ String c "" → p c = false.
Proof.
  revert u. induction s as [|a s IH]; intros u.
  - destruct u; discriminate.
  - cbn [Py.rstrip_by]. destruct (Py.rstrip_by p s) as [|b r].
    + destruct (p a) eqn:Ha; [destruct u; discriminate|].
      destruct u as [|b u]; [rewrite append_nil_l; congruence|].
      rewrite append_cons. intros [= _ Hu]. destruct u; discriminate.
    + destruct u as [|b' u]; [rewrite append_nil_l; discriminate|].
      rewrite append_cons. intros [= _ Hu]. by apply (IH u).
Qed.

Lemma contains_spec x l : Py.contains x l = true ↔ x ∈ l.
Proof.
  unfold Py.contains. rewrite existsb_exists. split.
  - intros (y & Hy & Heq). apply String.eqb_eq in Heq. subst y. by apply list_elem_of_In.
  - intros Hx. exists x. split; [by apply list_elem_of_In|apply String.eqb_refl].
Qed.

Lemma validate_origin_enforcing chatbox origin allowed :
  Chatbox.enforce_allowed_domains chatbox = true →
  Py.truthy_str origin = true →
  Chatbox.allowed_domains chatbox = Some allowed →
  Py.truthy_list allowed = true →
  QueryService.validate_origin chatbox (Some origin)
  = if Py.contains (normalize_origin origin) (map normalize_origin allowed)
    then Return tt else Raise (OriginNotAllowedError origin).
Proof.
  intros He Ho Ha Hl. unfold QueryService.validate_origin, normalize_origin.
  rewrite He, Ha. cbn [negb Py.truthy_opt default]. rewrite Ho, Hl. cbn [negb].
  by destruct (Py.contains _ _).
Qed.

(** C3, as the code has it. A chatbox that does not enforce accepts every
    origin, a missing one included. An enforcing chatbox rejects a missing or
    empty origin with [ForbiddenError], then a missing or empty allow-list
    with [ForbiddenError]; otherwise it accepts the origin exactly when its
    normalization (lowercase, every trailing slash stripped) equals that of
    some allow-listed entry, and rejects any other with
    [OriginNotAllowedError], a [ForbiddenError] whose message names the
    origin as it was supplied. *)
Theorem validate_origin_decides (chatbox : Chatbox.t) (origin : option string) :
  (Chatbox.enforce_allowed_domains chatbox = false →
   QueryService.validate_origin chatbox origin = Return tt)
  ∧ (Chatbox.enforce_allowed_domains chatbox = true →
     (origin = None ∨ origin = Some "" →
      QueryService.validate_origin chatbox origin
      = Raise (ForbiddenError "Origin header is required for this chatbox"))
     ∧ (∀ o, origin = Some o → o ≠ "" →
        (Chatbox.allowed_domains chatbox = None
         ∨ Chatbox.allowed_domains chatbox = Some [] →
         QueryService.validate_origin chatbox origin
         = Raise (ForbiddenError "No allowed domains configured for this chatbox"))
        ∧ (∀ allowed, Chatbox.allowed_domains chatbox = Some allowed → allowed ≠ [] →
           (QueryService.validate_origin chatbox origin = Return tt
            ↔ ∃ d, d ∈ allowed ∧ normalize_origin d = normalize_origin o)
           ∧ (QueryService.validate_origin chatbox origin ≠ Return tt →
              QueryService.validate_origin chatbox origin
              = Raise (OriginNotAllowedError o)
              ∧ Py.is_ForbiddenError (OriginNotAllowedError o) = true
              ∧ Py.message (OriginNotAllowedError o)
                = "Origin '" +:+ o +:+ "' is not allowed for this chatbox"))))
  ∧ (∀ s, ∃ slashes,
       Py.lower s = normalize_origin s +:+ slashes
       ∧ forallb is_slash (list_ascii_of_string slashes) = true
       ∧ ∀ u c, normalize_origin s = u +:+ String c "" → c ≠ "/"%char).
Proof.
  split; [|split].
  - intros He. unfold QueryService.validate_origin. by rewrite He.
  - intros He. split.
    + intros [->| ->]; unfold QueryService.validate_origin; by rewrite He.
    + intros o -> Ho.
      assert (Py.truthy_str o = true) as Hto by (by destruct o).
      split.
      * intros [Ha|Ha]; unfold QueryService.validate_origin; rewrite He, Ha; cbn;
          by rewrite Hto.
      * intros allowed Ha Hne.
        assert (Py.truthy_list allowed = true) as Htl by (by destruct allowed).
        rewrite (validate_origin_enforcing chatbox o allowed He Hto Ha Htl).
        destruct (Py.contains _ _) eqn:Hc.
        -- split; [|done]. split; [intros _|done].
           apply contains_spec, list_elem_of_fmap in Hc as (d & Hd & Hin). eauto.
        -- split; [|done]. split; [done|]. intros (d & Hin & Hd).
           assert (Py.contains (normalize_origin o) (map normalize_origin allowed) = true)
             as Hc'; [|congruence].
           apply contains_spec, list_elem_of_fmap. eauto.
  - intros s. unfold normalize_origin. rewrite rstrip_slash.
    destruct (rstrip_by_suffix is_slash (Py.lower s)) as (t & Hs & Ht).
    exists t. split; [done|]. split; [done|].
    intros u c Hu Hc. apply rstrip_by_last in Hu. subst c. discriminate.
Qed.

(** C3, at [chatbox_a]: an origin in capitals with a trailing slash is
    accepted, a missing origin is rejected. *)
Lemma validate_origin_decides_witness :
  QueryService.validate_origin chatbox_a (Some "https://A.com/") = Return tt
  ∧ QueryService.validate_origin chatbox_a None
    = Raise (ForbiddenError "Origin header is required for this chatbox").
Proof.
  split.
  - destruct (validate_origin_decides chatbox_a (Some "https://A.com/")) as (_ & H & _).
    destruct (H eq_refl) as (_ & H1).
    destruct (H1 _ eq_refl ltac:(discriminate)) as (_ & H2).
    destruct (H2 _ eq_refl ltac:(discriminate)) as (Hiff & _).
    apply Hiff. exists "https://a.com". split; [apply list_elem_of_here|reflexivity].
  - destruct (validate_origin_decides chatbox_a None) as (_ & H & _).
    destruct (H eq_refl) as (H1 & _). apply H1. by left.
Defined.

(** C3 as claimed fails twice. An origin with two trailing slashes is
    accepted by the code, where stripping a single slash leaves one and the
    match fails; and an origin that is present but empty is rejected as
    missing, where the claim would compare it with the allow-list. *)
Lemma validate_origin_not_as_specified :
  (QueryService.validate_origin chatbox_a (Some "https://a.com//") = Return tt
   ∧ OriginSpec.validate_origin chatbox_a (Some "https://a.com//")
     = Raise (OriginNotAllowedError "https://a.com//"))
  ∧ (QueryService.validate_origin chatbox_slash (Some "")
     = Raise (ForbiddenError "Origin header is required for this chatbox")
     ∧ OriginSpec.validate_origin chatbox_slash (Some "") = Return tt).
Proof. repeat split; reflexivity. Qed.

(** ** The allow-list invariant of the chatbox routes *)

Lemma not_rejected_ok chatbox :
  rejected (Chatbox.enforce_allowed_domains chatbox) (Chatbox.allowed_domains chatbox)
  = false →
  allow_list_ok chatbox.
Proof.
  unfold rejected, allow_list_ok. intros Hr He. rewrite He in Hr.
  destruct (Chatbox.allowed_domains chatbox) as [[|d ds]|]; try discriminate. eauto.
Qed.

Lemma invariant_insert db key chatbox seq :
  allow_list_invariant db → allow_list_ok chatbox →
  allow_list_invariant
    (Database.mk (<[key := chatbox]> (Database.chatboxes db)) (Database.documents db)
       (Database.chunks db) seq (Database.documents_id_seq db)
       (Database.chunks_id_seq db)).
Proof.
  intros Hinv Hok key' chatbox'. cbn. rewrite lookup_insert.
  case_decide; [intros [= <-]; exact Hok|apply Hinv].
Qed.

Ltac run_step := cbn [Run.result Run.db Run.calls].
Ltac run_unfold := unfold bind, statement, read, write, ret, raise, lift, called.

(** What the repository calls do, by the answer of the connection to each
    statement. *)
Lemma chatbox_create_run self chatbox db :
  ChatboxRepository.create self chatbox db
  = match AsyncSession.orm_error (ChatboxRepository.session self) db with
    | Some e => Run.mk (Raise e) db []
    | None =>
        let key := Database.chatboxes_id_seq db + 1 in
        let db' :=
          ChatboxRepository.insert_row key (ChatboxRepository.with_id key chatbox) db in
        match AsyncSession.orm_error (ChatboxRepository.session self) db' with
        | Some e => Run.mk (Raise e) db' []
        | None => Run.mk (Return (ChatboxRepository.with_id key chatbox)) db' []
        end
    end.
Proof.
  unfold ChatboxRepository.create. run_unfold.
  destruct (AsyncSession.orm_error _ db); run_step; [reflexivity|].
  destruct (AsyncSession.orm_error _ _); reflexivity.
Qed.

Lemma chatbox_get_by_id_run self chatbox_id db :
  ChatboxRepository.get_by_id self chatbox_id db
  = match AsyncSession.orm_error (ChatboxRepository.session self) db with
    | Some e => Run.mk (Raise e) db []
    | None =>
        match Database.chatboxes db !! chatbox_id with
        | Some chatbox => Run.mk (Return chatbox) db []
        | None =>
            Run.mk (Raise (NotFoundError
                      ("Chatbox with id " +:+ pretty chatbox_id +:+ " not found")))
              db []
        end
    end.
Proof.
  unfold ChatboxRepository.get_by_id. run_unfold.
  destruct (AsyncSession.orm_error _ db); run_step; [reflexivity|].
  destruct (Database.chatboxes db !! chatbox_id); reflexivity.
Qed.

Lemma chatbox_update_run self chatbox db :
  ChatboxRepository.update self chatbox db
  = match AsyncSession.orm_error (ChatboxRepository.session self) db with
    | Some e => Run.mk (Raise e) db []
    | None =>
        let db' :=
          match Chatbox.id chatbox with
          | Some key => ChatboxRepository.update_row key chatbox db
          | None => db
          end in
        match AsyncSession.orm_error (ChatboxRepository.session self) db' with
        | Some e => Run.mk (Raise e) db' []
        | None => Run.mk (Return chatbox) db' []
        end
    end.
Proof.
  unfold ChatboxRepository.update. run_unfold.
  destruct (AsyncSession.orm_error _ db); run_step; [reflexivity|].
  destruct (Chatbox.id chatbox); run_step;
    destruct (AsyncSession.orm_error _ _); reflexivity.
Qed.

Lemma bind_run {A B} (m : M A) (f : A → M B) db :
  bind m f db
  = match Run.result (m db) with
    | Return a =>
        Run.mk (Run.result (f a (Run.db (m db)))) (Run.db (f a (Run.db (m db))))
          (Run.calls (m db) ++ Run.calls (f a (Run.db (m db))))
    | Raise e => Run.mk (Raise e) (Run.db (m db)) (Run.calls (m db))
    | Diverge => Run.mk Diverge (Run.db (m db)) (Run.calls (m db))
    end.
Proof. reflexivity. Qed.

Lemma bind_lift {A B} (o : outcome A) (f : A → M B) db :
  bind (lift o) f db
  = match o with
    | Return a => f a db
    | Raise e => Run.mk (Raise e) db []
    | Diverge => Run.mk Diverge db []
    end.
Proof.
  rewrite bind_run. unfold lift. run_step.
  destruct o; [|reflexivity..]. by destruct (f a db).
Qed.

Lemma bind_called {B} (c : Call) (f : unit → M B) db :
  bind (called c) f db
  = Run.mk (Run.result (f tt db)) (Run.db (f tt db)) (c :: Run.calls (f tt db)).
Proof. reflexivity. Qed.

Lemma create_chatbox_preserves data org_id repo db :
  allow_list_invariant db →
  allow_list_invariant (Run.db (create_chatbox data org_id repo db)).
Proof.
  intros Hinv. unfold create_chatbox.
  destruct (ChatboxCreate.enforce_allowed_domains data
            && negb (Py.truthy_opt Py.truthy_list (ChatboxCreate.allowed_domains data)))
    eqn:Hr; [exact Hinv|].
  rewrite chatbox_create_run.
  destruct (AsyncSession.orm_error _ db); [exact Hinv|]. cbv zeta.
  match goal with
  | |- allow_list_invariant (Run.db (match ?x with _ => _ end)) =>
      assert (allow_list_invariant
                (ChatboxRepository.insert_row (Database.chatboxes_id_seq db + 1)
                   (ChatboxRepository.with_id (Database.chatboxes_id_seq db + 1)
                      (Chatbox.mk None org_id (ChatboxCreate.name data)
                         (ChatboxCreate.description data)
                         (ChatboxCreate.allowed_domains data)
                         (ChatboxCreate.enforce_allowed_domains data))) db)) as Hinv';
      [|destruct x; exact Hinv']
  end.
  apply invariant_insert; [exact Hinv|]. by apply not_rejected_ok.
Qed.

Lemma update_chatbox_preserves chatbox_id data repo db :
  allow_list_invariant db →
  allow_list_invariant (Run.db (update_chatbox chatbox_id data repo db)).
Proof.
  intros Hinv. unfold update_chatbox. rewrite bind_run, chatbox_get_by_id_run.
  destruct (AsyncSession.orm_error _ db); [exact Hinv|].
  destruct (Database.chatboxes db !! chatbox_id) as [chatbox|]; run_step; [|exact Hinv].
  destruct (Chatbox.enforce_allowed_domains (apply_update data chatbox)
            && negb (Py.truthy_opt Py.truthy_list
                       (Chatbox.allowed_domains (apply_update data chatbox))))
    eqn:Hr; [exact Hinv|].
  rewrite chatbox_update_run.
  destruct (AsyncSession.orm_error _ db); [exact Hinv|]. cbv zeta.
  match goal with
  | |- allow_list_invariant (Run.db (match AsyncSession.orm_error _ ?d with _ => _ end)) =>
      assert (allow_list_invariant d) as Hinv';
      [|destruct (AsyncSession.orm_error (ChatboxRepository.session repo) d); exact Hinv']
  end.
  destruct (Chatbox.id (apply_update data chatbox)) as [key|]; [|exact Hinv].
  apply invariant_insert; [exact Hinv|]. by apply not_rejected_ok.
Qed.

Lemma reachable_invariant db : reachable db → allow_list_invariant db.
Proof.
  induction 1 as [|db repo [data org_id|chatbox_id data] _ IH].
  - intros key chatbox. cbn. by rewrite lookup_empty.
  - by apply create_chatbox_preserves.
  - by apply update_chatbox_preserves.
Qed.

Lemma rejected_of_missing enforce allowed :
  enforce = true → allowed = None ∨ allowed = Some [] → rejected enforce allowed = true.
Proof. by intros -> [-> | ->]. Qed.

(** C9: every chatbox stored in a database that the create and update routes
    lead to has a non-empty allow-list if it enforces one; create rejects a
    request that enforces with a missing or empty allow-list, and update
    rejects a request that would leave the loaded chatbox in that state, both
    with [ValidationError] and without writing. *)
Theorem chatbox_routes_keep_allow_list :
  (∀ db, reachable db →
     ∀ key chatbox, Database.chatboxes db !! key = Some chatbox →
       Chatbox.enforce_allowed_domains chatbox = true →
       ∃ d ds, Chatbox.allowed_domains chatbox = Some (d :: ds))
  ∧ (∀ data org_id repo db,
       ChatboxCreate.enforce_allowed_domains data = true →
       ChatboxCreate.allowed_domains data = None
       ∨ ChatboxCreate.allowed_domains data = Some [] →
       create_chatbox data org_id repo db
       = Run.mk (Raise (ValidationError allowed_domains_required)) db [])
  ∧ (∀ chatbox_id data repo db chatbox,
       ChatboxRepository.get_by_id repo chatbox_id db = Run.mk (Return chatbox) db [] →
       Chatbox.enforce_allowed_domains (apply_update data chatbox) = true →
       Chatbox.allowed_domains (apply_update data chatbox) = None
       ∨ Chatbox.allowed_domains (apply_update data chatbox) = Some [] →
       update_chatbox chatbox_id data repo db
       = Run.mk (Raise (ValidationError allowed_domains_required)) db []).
Proof.
  split; [|split].
  - intros db Hreach key chatbox Hlookup. by apply (reachable_invariant db Hreach key).
  - intros data org_id repo db He Ha. unfold create_chatbox.
    fold (rejected (ChatboxCreate.enforce_allowed_domains data)
            (ChatboxCreate.allowed_domains data)).
    by rewrite rejected_of_missing.
  - intros chatbox_id data repo db chatbox Hget He Ha.
    unfold update_chatbox. rewrite bind_run, Hget. run_step.
    fold (rejected (Chatbox.enforce_allowed_domains (apply_update data chatbox))
            (Chatbox.allowed_domains (apply_update data chatbox))).
    by rewrite rejected_of_missing.
Qed.

(** C9, at a database with one enforcing chatbox: the chatbox stored has its
    allow-list, and the update that would empty the list is rejected and
    leaves the database as it was. *)
Lemma chatbox_routes_keep_allow_list_witness :
  (∃ d ds, Some ["https://a.com"] = Some (d :: ds))
  ∧ update_chatbox 1 (ChatboxUpdate.mk None None (Some []) None) chatbox_repo_0
      db_one_chatbox
    = Run.mk (Raise (ValidationError allowed_domains_required)) db_one_chatbox [].
Proof.
  destruct chatbox_routes_keep_allow_list as (Hinv & _ & Hupdate). split.
  - apply (Hinv db_one_chatbox
             (reachable_step _ chatbox_repo_0
                (PostChatbox (ChatboxCreate.mk "docs" None (Some ["https://a.com"]) true) 1)
                reachable_empty)
             1 (Chatbox.mk (Some 1) 1 "docs" None (Some ["https://a.com"]) true));
      reflexivity.
  - apply (Hupdate 1 _ chatbox_repo_0 db_one_chatbox
             (Chatbox.mk (Some 1) 1 "docs" None (Some ["https://a.com"]) true));
      [reflexivity | reflexivity | by right].
Defined.

(** ** Vector search *)

Lemma similarity_query_engine_raises rt self db chatbox_id query_embedding top_k
    min_score document_id e :
  (∀ query params,
     AsyncSession.execute_text (ChunkRepository.session self) db query params = Raise e) →
  ChunkRepository.similarity_query rt self db chatbox_id query_embedding top_k min_score
    document_id
  = Raise e.
Proof.
  intros Hraise. unfold ChunkRepository.similarity_query.
  destruct document_id; cbv zeta; by rewrite Hraise.
Qed.

(** C7: [similarity_search] never raises, and when the similarity query
    meets an exception, whichever it is, the search returns the empty list,
    leaving the database as it was. *)
Theorem similarity_search_degrades (rt : Interp.t) (self : ChunkRepository.t)
    (db : Database.t) (chatbox_id : option Z) (query_embedding : list float)
    (top_k : Z) (min_score : float) (document_id : option Z) :
  (∀ e,
     ChunkRepository.similarity_query rt self db chatbox_id query_embedding top_k
       min_score document_id = Raise e →
     ChunkRepository.similarity_search rt self chatbox_id query_embedding top_k
       min_score document_id db
     = Run.mk (Return []) db [])
  ∧ (∀ e,
       Run.result (ChunkRepository.similarity_search rt self chatbox_id query_embedding
                     top_k min_score document_id db)
       ≠ Raise e).
Proof.
  unfold ChunkRepository.similarity_search. split.
  - intros e He. by rewrite He.
  - intros e. run_step.
    by destruct (ChunkRepository.similarity_query _ _ _ _ _ _ _ _).
Qed.

(** C7, over a database without the vector extension: the engine refuses
    the statement and the search returns the empty list. *)
Lemma similarity_search_degrades_witness :
  ChunkRepository.similarity_query interp_0 chunk_repo_0 Database.empty (Some 1) [] 5
    0x1.6666666666666p-1%float None
  = Raise (OtherError "ProgrammingError" "type vector does not exist")
  ∧ ChunkRepository.similarity_search interp_0 chunk_repo_0 (Some 1) [] 5
      0x1.6666666666666p-1%float None Database.empty
    = Run.mk (Return []) Database.empty [].
Proof.
  split; [reflexivity|].
  apply (proj1 (similarity_search_degrades interp_0 chunk_repo_0 Database.empty (Some 1)
                  [] 5 0x1.6666666666666p-1%float None)
           (OtherError "ProgrammingError" "type vector does not exist")).
  reflexivity.
Defined.

(** ** The embedding service *)

(** C2 fails on the code: for every text, [embed_text] raises [TypeError],
    whatever [embed_texts] would return. *)
Theorem embed_text_raises (rt : Interp.t) (settings : Settings.t)
    (self : EmbeddingService.t) (text : string) :
  EmbeddingService.embed_text rt settings self text
  = Raise (OtherError "TypeError" "'coroutine' object is not subscriptable").
Proof. reflexivity. Qed.

(** C5 fails on the code: the seed of the stub embedding is the built-in
    hash of the text, which depends on the process. In two CPython processes,
    started with PYTHONHASHSEED 1 and 2 and alike in everything else, the
    text [foo] seeds the generator with 981740752 and with 3844130946. *)
Theorem stub_seed_differs_across_processes (float_str : float → string)
    (np_random_randn : Z → Z → list float) (np_linalg_norm : list float → float) :
  EmbeddingService.stub_seed
    (Interp.mk (CPython.str_hash 1) float_str np_random_randn np_linalg_norm) "foo"
  = 981740752
  ∧ EmbeddingService.stub_seed
      (Interp.mk (CPython.str_hash 2) float_str np_random_randn np_linalg_norm) "foo"
    = 3844130946.
Proof. split; vm_compute; reflexivity. Qed.

(** Within one process, and across processes that agree on the hash of the
    text and on numpy, the stub vector is the same. *)
Lemma stub_embedding_same_hash rt1 rt2 self text :
  Interp.hash rt1 text = Interp.hash rt2 text →
  Interp.np_random_randn rt1 = Interp.np_random_randn rt2 →
  Interp.np_linalg_norm rt1 = Interp.np_linalg_norm rt2 →
  EmbeddingService._generate_stub_embedding rt1 self text
  = EmbeddingService._generate_stub_embedding rt2 self text.
Proof.
  intros Hhash Hrandn Hnorm.
  unfold EmbeddingService._generate_stub_embedding, EmbeddingService.stub_seed.
  by rewrite Hhash, Hrandn, Hnorm.
Qed.

(** With the stub strategy the claimed operation returns the stub vector of
    the text, for every text. *)
Lemma embed_text_claimed_stub rt settings text :
  embed_text_claimed rt settings (EmbeddingService.mk None 1536) text
  = Return (EmbeddingService._generate_stub_embedding rt (EmbeddingService.mk None 1536) text).
Proof. reflexivity. Qed.

(** ** The retrieval pipeline *)

(** A query whose origin is accepted and whose question is embedded makes
    the two calls and goes on from the search. *)
Lemma query_reaches_search rt settings self chatbox question origin document_id top_k
    min_score db query_embedding :
  QueryService.validate_origin chatbox origin = Return tt →
  Embedder.embed_text (QueryService.embedding_service self) question
  = Return query_embedding →
  ∃ rest,
    Run.calls (QueryService.query rt settings self chatbox question origin document_id
                 top_k min_score db)
    = Call_embed_text question
      :: Call_similarity_search (Chatbox.id chatbox) query_embedding
           (resolved_top_k settings top_k) (resolved_min_score settings min_score)
           document_id
      :: rest.
Proof.
  intros Hvalid Hembed. unfold QueryService.query. cbv zeta.
  rewrite bind_lift, Hvalid, bind_called. run_step.
  rewrite bind_lift, Hembed, bind_called. run_step.
  fold (resolved_top_k settings top_k). fold (resolved_min_score settings min_score).
  eexists. reflexivity.
Qed.

(** A query whose search returns nothing stops there. *)
Lemma query_empty_search rt settings self chatbox question origin document_id top_k
    min_score db query_embedding :
  QueryService.validate_origin chatbox origin = Return tt →
  Embedder.embed_text (QueryService.embedding_service self) question
  = Return query_embedding →
  Run.result
    (ChunkRepository.similarity_search rt (QueryService.chunk_repo self)
       (Chatbox.id chatbox) query_embedding (resolved_top_k settings top_k)
       (resolved_min_score settings min_score) document_id db)
  = Return [] →
  QueryService.query rt settings self chatbox question origin document_id top_k
    min_score db
  = Run.mk (Return (QueryService.no_information_answer, [])) db
      [Call_embed_text question;
       Call_similarity_search (Chatbox.id chatbox) query_embedding
         (resolved_top_k settings top_k) (resolved_min_score settings min_score)
         document_id].
Proof.
  intros Hvalid Hembed Hsearch. unfold QueryService.query. cbv zeta.
  rewrite bind_lift, Hvalid, bind_called. run_step.
  rewrite bind_lift, Hembed, bind_called. run_step.
  fold (resolved_top_k settings top_k). fold (resolved_min_score settings min_score).
  rewrite bind_run, Hsearch.
  unfold ChunkRepository.similarity_search. run_step. reflexivity.
Qed.

(** With the repository's own embedding service wired in, a query whose
    origin is accepted stops at the embedding step: [embed_text] raises
    before the search is called. *)
Lemma query_with_own_embedding_service rt settings chunk_repo document_repo embedding
    llm chatbox question origin document_id top_k min_score db :
  QueryService.validate_origin chatbox origin = Return tt →
  QueryService.query rt settings
    (QueryService.mk chunk_repo document_repo
       (Embedder.of_service rt settings embedding) llm)
    chatbox question origin document_id top_k min_score db
  = Run.mk (Raise (OtherError "TypeError" "'coroutine' object is not subscriptable")) db
      [Call_embed_text question].
Proof.
  intros Hvalid. unfold QueryService.query. cbv zeta.
  rewrite bind_lift, Hvalid, bind_called, bind_lift. reflexivity.
Qed.

(** C1: when the origin is accepted, the question is embedded and the vector
    search returns no chunks, [query] returns the fixed answer with an empty
    source list, as a result and not as an exception; the run leaves the
    database as it was and calls the embedding service and the search only,
    never the language-model service. *)
Theorem query_without_chunks (rt : Interp.t) (settings : Settings.t)
    (self : QueryService.t) (chatbox : Chatbox.t) (question : string)
    (origin : option string) (document_id : option Z) (top_k : option Z)
    (min_score : option float) (db : Database.t) (query_embedding : list float) :
  QueryService.validate_origin chatbox origin = Return tt →
  Embedder.embed_text (QueryService.embedding_service self) question
  = Return query_embedding →
  Run.result
    (ChunkRepository.similarity_search rt (QueryService.chunk_repo self)
       (Chatbox.id chatbox) query_embedding (resolved_top_k settings top_k)
       (resolved_min_score settings min_score) document_id db)
  = Return [] →
  let run :=
    QueryService.query rt settings self chatbox question origin document_id top_k
      min_score db in
  Run.result run
  = Return ("I couldn't find any relevant information to answer your question.", [])
  ∧ Run.db run = db
  ∧ ∀ question' context_chunks,
      Call_generate_answer question' context_chunks ∉ Run.calls run.
Proof.
  intros Hvalid Hembed Hsearch run. subst run.
  rewrite (query_empty_search _ _ _ _ _ _ _ _ _ _ _ Hvalid Hembed Hsearch). run_step.
  split; [reflexivity|]. split; [reflexivity|].
  intros question' context_chunks Hin.
  apply list_elem_of_In in Hin. cbn in Hin. intuition discriminate.
Qed.

(** C1, at a query on [chatbox_a] from its allowed origin, over a database
    where the search finds nothing. *)
Lemma query_without_chunks_witness :
  QueryService.validate_origin chatbox_a (Some "https://a.com") = Return tt
  ∧ Embedder.embed_text embedder_fixed "What is Helperly?" = Return [1%float]
  ∧ Run.result
      (ChunkRepository.similarity_search interp_0 chunk_repo_0 (Some 1) [1%float] 5
         0x1.6666666666666p-1%float None Database.empty)
    = Return []
  ∧ Run.result
      (QueryService.query interp_0 Settings.defaults query_service_0 chatbox_a
         "What is Helperly?" (Some "https://a.com") None None None Database.empty)
    = Return ("I couldn't find any relevant information to answer your question.", []).
Proof.
  split; [reflexivity|]. split; [reflexivity|]. split; [reflexivity|].
  apply (query_without_chunks interp_0 Settings.defaults query_service_0 chatbox_a
           "What is Helperly?" (Some "https://a.com") None None None Database.empty
           [1%float]);
    reflexivity.
Defined.

(** C8, as the code has it: the search receives the configured default for
    [top_k] when the caller leaves it out or passes 0, and the caller's value
    otherwise; it receives the configured default for [min_score] when the
    caller leaves it out or passes a zero of either sign, and the caller's
    value otherwise. *)
Theorem query_resolves_defaults (rt : Interp.t) (settings : Settings.t)
    (self : QueryService.t) (chatbox : Chatbox.t) (question : string)
    (origin : option string) (document_id : option Z) (top_k : option Z)
    (min_score : option float) (db : Database.t) (query_embedding : list float) :
  QueryService.validate_origin chatbox origin = Return tt →
  Embedder.embed_text (QueryService.embedding_service self) question
  = Return query_embedding →
  ∃ k m rest,
    Run.calls (QueryService.query rt settings self chatbox question origin document_id
                 top_k min_score db)
    = Call_embed_text question
      :: Call_similarity_search (Chatbox.id chatbox) query_embedding k m document_id
      :: rest
    ∧ (top_k = None ∨ top_k = Some 0 → k = Settings.vector_top_k_default settings)
    ∧ (∀ n, top_k = Some n → n ≠ 0 → k = n)
    ∧ (min_score = None ∨ (∃ x, min_score = Some x ∧ PrimFloat.eqb x 0%float = true) →
       m = Settings.vector_min_score_default settings)
    ∧ (∀ x, min_score = Some x → PrimFloat.eqb x 0%float = false → m = x).
Proof.
  intros Hvalid Hembed.
  destruct (query_reaches_search rt settings self chatbox question origin document_id
              top_k min_score db query_embedding Hvalid Hembed) as [rest Hcalls].
  exists (resolved_top_k settings top_k), (resolved_min_score settings min_score), rest.
  split; [exact Hcalls|]. unfold resolved_top_k, resolved_min_score, Py.or_default.
  repeat split.
  - by intros [-> | ->].
  - intros n -> Hn. unfold Py.truthy_int.
    by replace (n =? 0) with false by (symmetry; apply Z.eqb_neq; lia).
  - intros [-> | (x & -> & Hx)]; [done|]. unfold Py.truthy_float. by rewrite Hx.
  - intros x -> Hx. unfold Py.truthy_float. by rewrite Hx.
Qed.

(** C8, at a query that asks for seven chunks above a score of one half. *)
Lemma query_resolves_defaults_witness :
  QueryService.validate_origin chatbox_open None = Return tt
  ∧ Embedder.embed_text embedder_fixed "What is Helperly?" = Return [1%float]
  ∧ ∃ rest,
      Run.calls (QueryService.query interp_0 Settings.defaults query_service_0
                   chatbox_open "What is Helperly?" None None (Some 7)
                   (Some 0.5%float) Database.empty)
      = Call_embed_text "What is Helperly?"
        :: Call_similarity_search (Some 1) [1%float] 7 0.5%float None :: rest.
Proof.
  split; [reflexivity|]. split; [reflexivity|].
  destruct (query_resolves_defaults interp_0 Settings.defaults query_service_0
              chatbox_open "What is Helperly?" None None (Some 7) (Some 0.5%float)
              Database.empty [1%float] eq_refl eq_refl)
    as (k & m & rest & Hcalls & _ & Hk & _ & Hm).
  exists rest. rewrite Hcalls.
  rewrite (Hk 7 eq_refl ltac:(discriminate)), (Hm 0.5%float eq_refl eq_refl).
  reflexivity.
Defined.

(** C8 as claimed fails: a caller who passes 0 and 0.0 has the search run
    with the defaults 5 and 0.7. *)
Lemma query_zero_replaced :
  Run.calls (QueryService.query interp_0 Settings.defaults query_service_0 chatbox_open
               "What is Helperly?" None None (Some 0) (Some 0%float) Database.empty)
  = [Call_embed_text "What is Helperly?";
     Call_similarity_search (Some 1) [1%float] 5 0x1.6666666666666p-1%float None].
Proof. reflexivity. Qed.

(** ** The ingestion pipeline *)

Lemma document_create_run self document db :
  DocumentRepository.create self document db
  = match AsyncSession.orm_error (DocumentRepository.session self) db with
    | Some e => Run.mk (Raise e) db []
    | None =>
        let key := Database.documents_id_seq db + 1 in
        let db' :=
          DocumentRepository.insert_row key (DocumentRepository.with_id key document) db in
        match AsyncSession.orm_error (DocumentRepository.session self) db' with
        | Some e => Run.mk (Raise e) db' []
        | None => Run.mk (Return (DocumentRepository.with_id key document)) db' []
        end
    end.
Proof.
  unfold DocumentRepository.create. run_unfold.
  destruct (AsyncSession.orm_error _ db); run_step; [reflexivity|].
  destruct (AsyncSession.orm_error _ _); reflexivity.
Qed.

(** A document that [create] returns is in the table under its new id, and
    the chunk table is as before. *)
Lemma document_create_returns self document db created :
  Run.result (DocumentRepository.create self document db) = Return created →
  let key := Database.documents_id_seq db + 1 in
  DocumentRepository.create self document db
  = Run.mk (Return created)
      (DocumentRepository.insert_row key created db) []
  ∧ Document.id created = Some key.
Proof.
  rewrite document_create_run. cbv zeta.
  destruct (AsyncSession.orm_error _ db); [discriminate|].
  destruct (AsyncSession.orm_error _ _); [discriminate|].
  run_step. by intros [= <-].
Qed.

(** C10: when the embedding step of [ingest_text] raises, the run raises the
    same exception after the document was committed: the document table holds
    the new document under its id, the chunk table is the one the run
    started from, and the embedding service is the last collaborator
    called. *)
Theorem ingest_text_embedding_failure (self : IngestionService.t) (chatbox_id : Z)
    (text : string) (source_name : option string) (db : Database.t)
    (document : Document.t) (chunks_text : list string) (e : exn) :
  Run.result
    (DocumentRepository.create (IngestionService.document_repo self)
       (Document.mk None chatbox_id TEXT
          (Some (Py.or_default Py.truthy_str source_name "Raw Text"))
          None text None None)
       db)
  = Return document →
  ChunkingService.chunk_text (IngestionService.chunking_service self) text
  = Return chunks_text →
  chunks_text ≠ [] →
  Embedder.embed_texts (IngestionService.embedding_service self) chunks_text = Raise e →
  let run := IngestionService.ingest_text self chatbox_id text source_name db in
  Run.result run = Raise e
  ∧ Document.id document = Some (Database.documents_id_seq db + 1)
  ∧ Database.documents (Run.db run)
    = <[Database.documents_id_seq db + 1 := document]> (Database.documents db)
  ∧ Database.chunks (Run.db run) = Database.chunks db
  ∧ Run.calls run = [Call_embed_texts chunks_text].
Proof.
  intros Hcreate Hchunks Hne Hembed run. subst run.
  apply document_create_returns in Hcreate as [Hcreate Hid]. cbv zeta in Hcreate.
  unfold IngestionService.ingest_text. cbv zeta.
  rewrite bind_run, Hcreate. run_step.
  rewrite bind_lift, Hchunks.
  destruct chunks_text as [|c chunks_text]; [done|]. cbn [Py.truthy_list negb].
  rewrite bind_called. run_step. rewrite bind_lift, Hembed. run_step.
  repeat split; [exact Hid].
Qed.

(** C10, at the ingestion of a text of two chunks into an empty database. *)
Lemma ingest_text_embedding_failure_witness :
  ChunkingService.chunk_text (ChunkingService.mk 40 10) helperly_text
  = Return ["Helperly is a RAG platform. It chunks, e"; "chunks, embeds, and retrieves."; "."]
  ∧ Run.result (IngestionService.ingest_text ingestion_service_failing 1 helperly_text
                  None Database.empty)
    = Raise (ExternalServiceError "Failed to generate embeddings: quota" "openai")
  ∧ Database.documents
      (Run.db (IngestionService.ingest_text ingestion_service_failing 1 helperly_text
                 None Database.empty))
    = <[1 := helperly_document]> ∅
  ∧ Database.chunks
      (Run.db (IngestionService.ingest_text ingestion_service_failing 1 helperly_text
                 None Database.empty))
    = ∅.
Proof.
  split; [reflexivity|].
  destruct (ingest_text_embedding_failure ingestion_service_failing 1 helperly_text None
              Database.empty helperly_document
              ["Helperly is a RAG platform. It chunks, e";
               "chunks, embeds, and retrieves."; "."]
              (ExternalServiceError "Failed to generate embeddings: quota" "openai")
              eq_refl eq_refl ltac:(discriminate) eq_refl)
    as (Hresult & _ & Hdocs & Hchunks & _).
  split; [exact Hresult|]. split; [exact Hdocs|exact Hchunks].
Defined.


(** * Further properties *)

(** ** Strings *)

Lemma string_append_assoc (s t u : string) : (s +:+ t) +:+ u = s +:+ (t +:+ u).
Proof. induction s as [|c s IH]; [reflexivity|]. by rewrite !append_cons, IH. Qed.

Lemma string_append_nil_r (s : string) : s +:+ "" = s.
Proof. induction s as [|c s IH]; [reflexivity|]. by rewrite append_cons, IH. Qed.

Lemma string_length_append (s t : string) :
  String.length (s +:+ t) = (String.length s + String.length t)%nat.
Proof. induction s as [|c s IH]; [reflexivity|]. rewrite append_cons. cbn. by rewrite IH. Qed.

Lemma part_of_refl s : part_of s s.
Proof. exists "", "". by rewrite append_nil_l, string_append_nil_r. Qed.

Lemma part_of_trans a b c : part_of a b → part_of b c → part_of a c.
Proof.
  intros (p1 & q1 & ->) (p2 & q2 & ->). exists (p2 +:+ p1), (q1 +:+ q2).
  by rewrite !string_append_assoc.
Qed.

Lemma part_of_length c text : part_of c text → (String.length c ≤ String.length text)%nat.
Proof. intros (pre & post & ->). rewrite !string_length_append. lia. Qed.

Lemma substring_prefix s : ∀ m, ∃ post, s = String.substring 0 m s +:+ post.
Proof.
  induction s as [|c s IH]; intros [|m]; cbn [String.substring].
  - by exists "".
  - by exists "".
  - by exists (String c s).
  - destruct (IH m) as [post Hs]. exists post. by rewrite append_cons, <- Hs.
Qed.

Lemma substring_part s : ∀ n m, part_of (String.substring n m s) s.
Proof.
  induction s as [|c s IH]; intros [|n] m.
  - destruct (substring_prefix "" m) as [post Hs]. by exists "", post.
  - destruct m; apply part_of_refl.
  - destruct (substring_prefix (String c s) m) as [post Hs]. by exists "", post.
  - cbn [String.substring]. destruct (IH n m) as (pre & post & Hs).
    exists (String c pre), post. by rewrite append_cons, <- Hs.
Qed.

Lemma substring_length s : ∀ n m, (String.length (String.substring n m s) ≤ m)%nat.
Proof.
  induction s as [|c s IH]; intros [|n] [|m]; cbn; try lia.
  - specialize (IH 0%nat m). lia.
  - apply (IH n 0%nat).
  - apply (IH n (S m)).
Qed.

Lemma lstrip_by_part p s : ∃ pre, s = pre +:+ Py.lstrip_by p s.
Proof.
  induction s as [|c s [pre Hs]]; [by exists ""|]. cbn [Py.lstrip_by].
  destruct (p c); [|by exists ""]. exists (String c pre). by rewrite append_cons, <- Hs.
Qed.

Lemma strip_part s : part_of (Py.strip s) s.
Proof.
  unfold Py.strip.
  destruct (rstrip_by_suffix Py.isspace s) as (post & Hs & _).
  destruct (lstrip_by_part Py.isspace (Py.rstrip_by Py.isspace s)) as [pre Hr].
  exists pre, post. rewrite <- string_append_assoc, <- Hr. exact Hs.
Qed.

Lemma slice_part text start stop : part_of (Py.slice text start stop) text.
Proof. apply substring_part. Qed.

(** Stripping twice is stripping once. *)
Lemma rstrip_by_idem p s : Py.rstrip_by p (Py.rstrip_by p s) = Py.rstrip_by p s.
Proof.
  induction s as [|c s IH]; [reflexivity|]. cbn [Py.rstrip_by].
  destruct (Py.rstrip_by p s) as [|a r] eqn:Hr.
  - destruct (p c) eqn:Hc; [reflexivity|]. cbn [Py.rstrip_by]. by rewrite Hc.
  - cbn [Py.rstrip_by]. cbn [Py.rstrip_by] in IH.
    destruct (Py.rstrip_by p r) as [|b r'] eqn:Hr'.
    + destruct (p a); [discriminate|]. by rewrite IH.
    + by rewrite IH.
Qed.

Lemma lstrip_by_idem p s : Py.lstrip_by p (Py.lstrip_by p s) = Py.lstrip_by p s.
Proof.
  induction s as [|c s IH]; [reflexivity|]. cbn [Py.lstrip_by].
  destruct (p c) eqn:Hc; [exact IH|]. cbn [Py.lstrip_by]. by rewrite Hc.
Qed.

Lemma rstrip_by_lstrip_by p s :
  Py.rstrip_by p s = s → Py.rstrip_by p (Py.lstrip_by p s) = Py.lstrip_by p s.
Proof.
  induction s as [|c s IH]; [reflexivity|]. intros Hs. cbn [Py.lstrip_by].
  destruct (p c) eqn:Hc; [|exact Hs]. apply IH.
  cbn [Py.rstrip_by] in Hs. rewrite Hc in Hs.
  destruct (Py.rstrip_by p s) as [|a r]; [discriminate|]. by injection Hs.
Qed.

Lemma strip_idem s : Py.strip (Py.strip s) = Py.strip s.
Proof.
  unfold Py.strip.
  rewrite (rstrip_by_lstrip_by _ _ (rstrip_by_idem Py.isspace s)).
  apply lstrip_by_idem.
Qed.

(** ** The chunker, further *)

Lemma chunk_loop_chunks self text :
  ∀ fuel start chunks result,
    Forall (chunk_of self text) chunks →
    0 ≤ start →
    ChunkingService.chunk_loop fuel self text start chunks = Return result →
    Forall (chunk_of self text) result.
Proof.
  induction fuel as [|fuel IH]; intros start chunks result Hall Hstart; [discriminate|].
  cbn [ChunkingService.chunk_loop]. fold (chunk_at self text start).
  destruct (Z.ltb_spec start (Py.len text)) as [Hlt|Hge]; [|by intros [= <-]].
  assert (Forall (chunk_of self text)
            (if Py.truthy_str (chunk_at self text start)
             then chunks ++ [chunk_at self text start] else chunks)) as Hall'.
  { destruct (Py.truthy_str (chunk_at self text start)) eqn:Htruthy; [|exact Hall].
    apply Forall_app. split; [exact Hall|]. apply Forall_singleton.
    split; [exact Htruthy|]. exists start. by split. }
  destruct (Z.leb_spec
              (start + (ChunkingService.chunk_size self - ChunkingService.chunk_overlap self))
              0) as [Hle|Hgt].
  - by intros [= <-].
  - apply IH; [exact Hall'|lia].
Qed.

Lemma chunk_text_chunks self text chunks :
  ChunkingService.chunk_text self text = Return chunks →
  Forall (chunk_of self text) chunks.
Proof.
  unfold ChunkingService.chunk_text.
  destruct (negb (Py.truthy_str text) || negb (Py.truthy_str (Py.strip text))).
  - intros [= <-]. constructor.
  - apply chunk_loop_chunks; [constructor|lia].
Qed.

Lemma chunk_at_length self text start :
  0 ≤ start ≤ Py.len text → 0 ≤ ChunkingService.chunk_size self →
  Py.len (chunk_at self text start) ≤ ChunkingService.chunk_size self.
Proof.
  intros Hstart Hsize. unfold chunk_at. rewrite slice_in_range by done.
  pose proof (part_of_length _ _ (strip_part
    (String.substring (Z.to_nat start)
       (Z.to_nat (Z.min (ChunkingService.chunk_size self) (Py.len text - start))) text)))
    as Hstrip.
  pose proof (substring_length text (Z.to_nat start)
    (Z.to_nat (Z.min (ChunkingService.chunk_size self) (Py.len text - start)))) as Hsub.
  unfold Py.len in *. lia.
Qed.

(** Every chunk that [chunk_text] returns, under any configuration, is
    non-empty, is its own stripped form, and is a contiguous piece of the
    text; under a chunk size that is not negative it has at most that many
    characters. *)
Theorem chunk_text_chunks_trimmed (self : ChunkingService.t) (text : string)
    (chunks : list string) (c : string) :
  ChunkingService.chunk_text self text = Return chunks →
  c ∈ chunks →
  c ≠ ""
  ∧ Py.strip c = c
  ∧ part_of c text
  ∧ (0 ≤ ChunkingService.chunk_size self →
     Py.len c ≤ ChunkingService.chunk_size self).
Proof.
  intros Hchunks Hin.
  pose proof (chunk_text_chunks _ _ _ Hchunks) as Hall.
  rewrite Forall_forall in Hall.
  destruct (Hall c Hin) as (Htruthy & start & Hstart & ->).
  split; [by destruct (chunk_at self text start)|].
  split; [apply strip_idem|].
  split; [exact (part_of_trans _ _ _ (strip_part _) (slice_part _ _ _))|].
  intros Hsize. apply chunk_at_length; lia.
Qed.

(** At the text of the chunker's example: the chunk [lo], read at offset 3
    from the slice [lo  ], has lost its two spaces. *)
Lemma chunk_text_chunks_trimmed_witness :
  "lo" ≠ "" ∧ Py.strip "lo" = "lo" ∧ part_of "lo" "hello   world  " ∧ Py.len "lo" ≤ 4.
Proof.
  destruct (chunk_text_chunks_trimmed (ChunkingService.mk 4 1) "hello   world  "
              ["hell"; "lo"; "wo"; "orld"; "d"] "lo" eq_refl
              ltac:(apply list_elem_of_In; cbn; tauto))
    as (Hne & Hstrip & Hpart & Hlen).
  split; [exact Hne|]. split; [exact Hstrip|]. split; [exact Hpart|].
  apply Hlen. cbn. lia.
Defined.

Lemma offsets_from_seq_In step count k :
  0 ≤ k ∧ k < Z.of_nat count → In (k * step) (offsets_from 0 step count).
Proof.
  intros [Hk Hlt]. rewrite offsets_from_seq. apply in_map_iff.
  exists (Z.to_nat k). split; [rewrite Z2Nat.id by lia; lia|]. apply in_seq. lia.
Qed.

Lemma get_Some_lt s : ∀ j ch, String.get j s = Some ch → (j < String.length s)%nat.
Proof.
  induction s as [|c s IH]; intros [|j] ch; cbn; try discriminate; [lia|].
  intros Hget. apply IH in Hget. lia.
Qed.

Lemma get_rstrip_by p s :
  ∀ j ch, String.get j s = Some ch → p ch = false →
          String.get j (Py.rstrip_by p s) = Some ch.
Proof.
  induction s as [|c s IH]; intros j ch Hget Hch; [discriminate|].
  cbn [Py.rstrip_by]. destruct j as [|j]; cbn in Hget.
  - injection Hget as ->. rewrite Hch. by destruct (Py.rstrip_by p s).
  - specialize (IH j ch Hget Hch).
    destruct (Py.rstrip_by p s) as [|a r]; [discriminate|]. exact IH.
Qed.

Lemma truthy_lstrip_by p s :
  ∀ j ch, String.get j s = Some ch → p ch = false →
          Py.truthy_str (Py.lstrip_by p s) = true.
Proof.
  induction s as [|c s IH]; intros j ch Hget Hch; [discriminate|].
  cbn [Py.lstrip_by]. destruct (p c) eqn:Hc; [|reflexivity].
  destruct j as [|j]; cbn in Hget; [congruence|]. by apply (IH j ch).
Qed.

(** A string with a character that is not whitespace does not strip to the
    empty string. *)
Lemma truthy_strip s j ch :
  String.get j s = Some ch → Py.isspace ch = false → Py.truthy_str (Py.strip s) = true.
Proof.
  intros Hget Hch. unfold Py.strip.
  apply (truthy_lstrip_by _ _ j ch); [|exact Hch]. by apply get_rstrip_by.
Qed.

Lemma get_slice text start size (i : nat) :
  0 ≤ start ≤ Z.of_nat i → Z.of_nat i < start + size → Z.of_nat i < Py.len text →
  String.get (i - Z.to_nat start) (Py.slice text start (start + size)) = String.get i text.
Proof.
  intros Hstart Hsize Hlen. rewrite slice_in_range by lia.
  rewrite substring_correct1 by lia. f_equal. lia.
Qed.

(** Under a configuration with [0 <= chunk_overlap < chunk_size] no character
    that is not whitespace is left out: the slice of some offset the loop
    visits holds it, and the chunk read there is among those returned. *)
Theorem chunk_text_covers (self : ChunkingService.t) (text : string)
    (chunks : list string) (i : nat) (ch : ascii) :
  0 ≤ ChunkingService.chunk_overlap self < ChunkingService.chunk_size self →
  ChunkingService.chunk_text self text = Return chunks →
  String.get i text = Some ch →
  Py.isspace ch = false →
  ∃ start,
    0 ≤ start ≤ Z.of_nat i
    ∧ Z.of_nat i < start + ChunkingService.chunk_size self
    ∧ Py.strip (Py.slice text start (start + ChunkingService.chunk_size self)) ∈ chunks.
Proof.
  intros Hconfig Hchunks Hget Hch.
  pose proof (get_Some_lt _ _ _ Hget) as Hi.
  set (step := ChunkingService.chunk_size self - ChunkingService.chunk_overlap self).
  assert (0 < step) as Hstep by (subst step; lia).
  assert (0 < Py.len text) as Hlen by (unfold Py.len; lia).
  destruct (offset_count_bounds (Py.len text) step Hlen Hstep)
    as [[Hlast Hend] [Hpos Hle]].
  unfold ChunkingService.chunk_text in Hchunks.
  replace (Py.truthy_str text) with true in Hchunks by (by destruct text).
  rewrite (truthy_strip _ _ _ Hget Hch) in Hchunks. cbn [negb orb] in Hchunks.
  rewrite (chunk_loop_positive_step self text (offset_count (Py.len text) step))
    in Hchunks; fold step; try lia.
  2:{ unfold Py.len in *. rewrite Nat2Z.id in Hle. lia. }
  injection Hchunks as <-. cbn [app].
  set (k := Z.of_nat i / step).
  pose proof (Z.div_mod (Z.of_nat i) step ltac:(lia)) as Hdiv.
  pose proof (Z.mod_pos_bound (Z.of_nat i) step Hstep) as Hmod. fold k in Hdiv.
  assert (0 ≤ k) as Hk by (apply Z.div_pos; lia).
  exists (k * step). split; [lia|]. split; [subst step; lia|].
  fold (chunk_at self text (k * step)).
  apply list_elem_of_In, List.filter_In. split.
  - apply in_map, offsets_from_seq_In. unfold Py.len in *. split; [lia|]. nia.
  - unfold chunk_at. apply (truthy_strip _ (i - Z.to_nat (k * step)) ch); [|exact Hch].
    rewrite get_slice; [exact Hget|lia|subst step; lia|unfold Py.len; lia].
Qed.

(** In the chunker's example the [r] of [world], at index 10, is held by the
    slice of offset 9, whose chunk is [orld]. *)
Lemma chunk_text_covers_witness :
  String.get 10 "hello   world  " = Some "r"%char
  ∧ ∃ start,
      0 ≤ start ≤ 10 ∧ 10 < start + 4
      ∧ Py.strip (Py.slice "hello   world  " start (start + 4))
        ∈ ["hell"; "lo"; "wo"; "orld"; "d"].
Proof.
  split; [reflexivity|].
  exact (chunk_text_covers (ChunkingService.mk 4 1) "hello   world  "
           ["hell"; "lo"; "wo"; "orld"; "d"] 10 "r"%char
           ltac:(cbn; lia) eq_refl eq_refl eq_refl).
Defined.

(** The constructor of the chunking service cannot be asked for zero
    overlap: a [chunk_overlap] of 0 gives way to the configured one. When the
    requested chunk size does not exceed that, the service returns the first
    chunk only, whatever the length of the text. *)
Theorem chunking_service_zero_overlap (settings : Settings.t) (size : Z) (text : string) :
  size ≠ 0 →
  size ≤ Settings.chunk_overlap settings →
  ChunkingService.init settings (Some size) (Some 0)
  = ChunkingService.mk size (Settings.chunk_overlap settings)
  ∧ ChunkingService.chunk_text (ChunkingService.init settings (Some size) (Some 0)) text
    = Return
        (if Py.truthy_str (Py.strip text) then
           List.filter Py.truthy_str [Py.strip (Py.slice text 0 (0 + size))]
         else []).
Proof.
  intros Hsize Hle.
  assert (ChunkingService.init settings (Some size) (Some 0)
          = ChunkingService.mk size (Settings.chunk_overlap settings)) as ->.
  { unfold ChunkingService.init, Py.or_default, Py.truthy_int. cbn.
    by replace (size =? 0) with false by (symmetry; apply Z.eqb_neq; lia). }
  split; [reflexivity|]. unfold ChunkingService.chunk_text.
  destruct (Py.truthy_str text) eqn:Htext; cbn [negb orb].
  2:{ destruct text; [reflexivity|discriminate]. }
  destruct (Py.truthy_str (Py.strip text)); cbn [negb]; [|reflexivity].
  rewrite chunk_loop_nonpositive_step by auto using len_pos_of_truthy.
  reflexivity.
Qed.

(** With the default settings (overlap 200), a service asked for chunks of
    four characters and no overlap returns one chunk for an eleven-character
    text. *)
Lemma chunking_service_zero_overlap_witness :
  4 ≠ 0 ∧ 4 ≤ 200
  ∧ ChunkingService.chunk_text
      (ChunkingService.init Settings.defaults (Some 4) (Some 0)) "hello world"
    = Return ["hell"].
Proof.
  split; [lia|]. split; [lia|].
  destruct (chunking_service_zero_overlap Settings.defaults 4 "hello world"
              ltac:(lia) ltac:(cbn; lia)) as [_ Hchunks].
  rewrite Hchunks. reflexivity.
Defined.

(** ** Primary keys *)

Lemma keeps_ret {A} P (a : A) : keeps P (ret a).
Proof. by intros db. Qed.

Lemma keeps_raise {A} P e : keeps P (@raise A e).
Proof. by intros db. Qed.

Lemma keeps_lift {A} P (o : outcome A) : keeps P (lift o).
Proof. by intros db. Qed.

Lemma keeps_called P c : keeps P (called c).
Proof. by intros db. Qed.

Lemma keeps_read {A} P (f : Database.t → A) : keeps P (read f).
Proof. by intros db. Qed.

Lemma keeps_statement P session : keeps P (statement session).
Proof. intros db Hdb. unfold statement. by destruct (AsyncSession.orm_error session db). Qed.

Lemma keeps_bind {A B} P (m : M A) (f : A → M B) :
  keeps P m → (∀ a, keeps P (f a)) → keeps P (bind m f).
Proof.
  intros Hm Hf db Hdb. rewrite bind_run. specialize (Hm db Hdb).
  destruct (Run.result (m db)); run_step; [by apply Hf|done..].
Qed.

(** The same, for a continuation that relies on what the first step read in
    the state it left. *)
Lemma keeps_bind_read {A B} P (m : M A) (f : A → M B) :
  keeps P m →
  (∀ db a, P db → Run.result (m db) = Return a → P (Run.db (f a (Run.db (m db))))) →
  keeps P (bind m f).
Proof.
  intros Hm Hf db Hdb. rewrite bind_run.
  destruct (Run.result (m db)) eqn:Hr; run_step; [by apply Hf|by apply Hm..].
Qed.

Lemma keys_ok_insert {A} (id_of : A → option Z) table seq row :
  keys_ok id_of table seq → id_of row = Some (seq + 1) →
  keys_ok id_of (<[seq + 1 := row]> table) (seq + 1).
Proof.
  intros Hok Hid key row'. rewrite lookup_insert. case_decide as Hkey.
  - intros [= <-]. subst key. split; [exact Hid|lia].
  - intros Hrow. destruct (Hok key row' Hrow). split; [done|lia].
Qed.

Lemma keys_ok_fresh {A} (id_of : A → option Z) table seq key :
  keys_ok id_of table seq → seq < key → table !! key = None.
Proof.
  intros Hok Hlt. destruct (table !! key) as [row|] eqn:Hrow; [|done].
  destruct (Hok key row Hrow). lia.
Qed.

(** ** Steps of the monad *)

Lemma run_eta {A} (r : Run.t A) : Run.mk (Run.result r) (Run.db r) (Run.calls r) = r.
Proof. by destruct r. Qed.

Lemma bind_statement {B} session (f : unit → M B) db :
  bind (statement session) f db
  = match AsyncSession.orm_error session db with
    | Some e => Run.mk (Raise e) db []
    | None => f tt db
    end.
Proof.
  rewrite bind_run. unfold statement.
  destruct (AsyncSession.orm_error session db); run_step; [reflexivity|apply run_eta].
Qed.

Lemma bind_read {A B} (g : Database.t → A) (f : A → M B) db :
  bind (read g) f db = f (g db) db.
Proof. rewrite bind_run. unfold read. run_step. apply run_eta. Qed.

Lemma bind_write {B} (g : Database.t → Database.t) (f : unit → M B) db :
  bind (write g) f db = f tt (g db).
Proof. rewrite bind_run. unfold write. run_step. apply run_eta. Qed.

(** ** Bulk creation of chunks *)

Lemma numbered_length seq chunks :
  length (ChunkRepository.numbered seq chunks) = length chunks.
Proof. revert seq. induction chunks as [|c rest IH]; intros seq; cbn; [done|]. by rewrite IH. Qed.

(** The table after the rows numbered from [seq] were inserted: a key in
    [(seq, seq + n]] holds the chunk of that position, with the key as id;
    every other key holds what it held. *)
Lemma insert_numbered_lookup chunks :
  ∀ seq (table : gmap Z Chunk.t) key,
    foldl (fun table chunk => <[ChunkRepository.key_of chunk := chunk]> table) table
      (ChunkRepository.numbered seq chunks) !! key
    = if decide (seq < key ≤ seq + Z.of_nat (length chunks))
      then ChunkRepository.with_id key <$> chunks !! Z.to_nat (key - seq - 1)
      else table !! key.
Proof.
  induction chunks as [|c rest IH]; intros seq table key.
  - cbn. case_decide; [lia|done].
  - cbn [ChunkRepository.numbered foldl]. rewrite IH.
    change (ChunkRepository.key_of (ChunkRepository.with_id (seq + 1) c)) with (seq + 1).
    cbn [length]. repeat case_decide; try lia.
    + replace (Z.to_nat (key - seq - 1)) with (S (Z.to_nat (key - (seq + 1) - 1))) by lia.
      reflexivity.
    + assert (key = seq + 1) as -> by lia. rewrite lookup_insert_eq.
      by replace (Z.to_nat (seq + 1 - seq - 1)) with 0%nat by lia.
    + apply lookup_insert_ne. lia.
Qed.

Lemma refresh_all_healthy self chunks db :
  AsyncSession.orm_error (ChunkRepository.session self) db = None →
  ChunkRepository.refresh_all self chunks db = Run.mk (Return tt) db [].
Proof.
  intros Hok. induction chunks as [|c rest IH]; [reflexivity|].
  cbn [ChunkRepository.refresh_all]. by rewrite bind_statement, Hok.
Qed.

Lemma refresh_all_db self chunks db : Run.db (ChunkRepository.refresh_all self chunks db) = db.
Proof.
  induction chunks as [|c rest IH]; [reflexivity|].
  cbn [ChunkRepository.refresh_all]. rewrite bind_statement.
  destruct (AsyncSession.orm_error _ db); [reflexivity|exact IH].
Qed.


Lemma create_many_healthy self chunks db :
  (∀ db', AsyncSession.orm_error (ChunkRepository.session self) db' = None) →
  ChunkRepository.create_many self chunks db
  = Run.mk (Return (ChunkRepository.numbered (Database.chunks_id_seq db) chunks))
      (ChunkRepository.insert_rows
         (ChunkRepository.numbered (Database.chunks_id_seq db) chunks) db)
      [].
Proof.
  intros Hok. unfold ChunkRepository.create_many.
  rewrite bind_statement, Hok, bind_read, bind_write.
  by rewrite bind_run, refresh_all_healthy by apply Hok.
Qed.

Lemma inserted_chunk_lookup chunks (db : Database.t) i chunk :
  chunks !! i = Some chunk →
  Database.chunks
    (ChunkRepository.insert_rows
       (ChunkRepository.numbered (Database.chunks_id_seq db) chunks) db)
    !! (Database.chunks_id_seq db + 1 + Z.of_nat i)
  = Some (ChunkRepository.with_id (Database.chunks_id_seq db + 1 + Z.of_nat i) chunk).
Proof.
  intros Hi. pose proof (lookup_lt_Some _ _ _ Hi) as Hlt.
  unfold ChunkRepository.insert_rows. cbn [Database.chunks].
  rewrite insert_numbered_lookup. case_decide; [|lia].
  replace (Z.to_nat (Database.chunks_id_seq db + 1 + Z.of_nat i
                     - Database.chunks_id_seq db - 1)) with i by lia.
  by rewrite Hi.
Qed.

Lemma inserted_chunk_lookup_other chunks (db : Database.t) key :
  ¬ (Database.chunks_id_seq db < key
     ≤ Database.chunks_id_seq db + Z.of_nat (length chunks)) →
  Database.chunks
    (ChunkRepository.insert_rows
       (ChunkRepository.numbered (Database.chunks_id_seq db) chunks) db)
    !! key
  = Database.chunks db !! key.
Proof.
  intros Hkey. unfold ChunkRepository.insert_rows. cbn [Database.chunks].
  rewrite insert_numbered_lookup. by case_decide.
Qed.



(** ** The operations keep the primary keys in order *)

Lemma consistent_chatbox_insert db chatbox :
  consistent db →
  consistent
    (ChatboxRepository.insert_row (Database.chatboxes_id_seq db + 1)
       (ChatboxRepository.with_id (Database.chatboxes_id_seq db + 1) chatbox) db).
Proof.
  intros (Hc & Hd & Hk). split; [|by split]. by apply keys_ok_insert.
Qed.

Lemma consistent_document_insert db document :
  consistent db →
  consistent
    (DocumentRepository.insert_row (Database.documents_id_seq db + 1)
       (DocumentRepository.with_id (Database.documents_id_seq db + 1) document) db).
Proof.
  intros (Hc & Hd & Hk). split; [done|]. split; [|done]. by apply keys_ok_insert.
Qed.

Lemma consistent_chunks_insert db chunks :
  consistent db →
  consistent
    (ChunkRepository.insert_rows
       (ChunkRepository.numbered (Database.chunks_id_seq db) chunks) db).
Proof.
  intros (Hc & Hd & Hk). split; [done|]. split; [done|].
  intros key row. unfold ChunkRepository.insert_rows.
  cbn [Database.chunks Database.chunks_id_seq].
  rewrite insert_numbered_lookup, numbered_length. case_decide as Hkey.
  - destruct (chunks !! Z.to_nat (key - Database.chunks_id_seq db - 1)); [|discriminate].
    intros [= <-]. split; [reflexivity|lia].
  - intros Hrow. destruct (Hk key row Hrow). split; [done|lia].
Qed.

Lemma chatbox_create_keeps self chatbox : keeps consistent (ChatboxRepository.create self chatbox).
Proof.
  intros db Hdb. rewrite chatbox_create_run. cbv zeta.
  destruct (AsyncSession.orm_error _ db); [exact Hdb|].
  pose proof (consistent_chatbox_insert db chatbox Hdb) as Hdb'.
  by destruct (AsyncSession.orm_error _ _).
Qed.

Lemma document_create_keeps self document :
  keeps consistent (DocumentRepository.create self document).
Proof.
  intros db Hdb. rewrite document_create_run. cbv zeta.
  destruct (AsyncSession.orm_error _ db); [exact Hdb|].
  pose proof (consistent_document_insert db document Hdb) as Hdb'.
  by destruct (AsyncSession.orm_error _ _).
Qed.

Lemma create_many_keeps self chunks : keeps consistent (ChunkRepository.create_many self chunks).
Proof.
  intros db Hdb. unfold ChunkRepository.create_many. rewrite bind_statement.
  destruct (AsyncSession.orm_error _ db); [exact Hdb|].
  rewrite bind_read, bind_write, bind_run.
  pose proof (consistent_chunks_insert db chunks Hdb) as Hdb'.
  pose proof (refresh_all_db self (ChunkRepository.numbered (Database.chunks_id_seq db) chunks)
                (ChunkRepository.insert_rows
                   (ChunkRepository.numbered (Database.chunks_id_seq db) chunks) db)) as Hr.
  destruct (Run.result (ChunkRepository.refresh_all _ _ _)); run_step; by rewrite Hr.
Qed.

Lemma foldl_delete_lookup {A} (rows : list (Z * A)) :
  ∀ (table : gmap Z A) key,
    foldl (fun table kv => delete kv.1 table) table rows !! key
    = if decide (key ∈ rows.*1) then None else table !! key.
Proof.
  induction rows as [|[k row] rows IH]; intros table key; cbn [foldl fmap list_fmap].
  - case_decide as Hin; [by apply elem_of_nil in Hin|done].
  - rewrite IH. cbn [fst]. rewrite lookup_delete.
    destruct (decide (key ∈ rows.*1)) as [Hin|Hnin].
    + by rewrite decide_True by (by right).
    + destruct (decide (k = key)) as [->|Hne].
      * by rewrite decide_True by (by left).
      * rewrite decide_False; [done|]. by intros [->|Hin]%elem_of_cons.
Qed.

Lemma delete_by_document_keeps self document_id :
  keeps consistent (ChunkRepository.delete_by_document self document_id).
Proof.
  intros db Hdb. unfold ChunkRepository.delete_by_document. rewrite bind_statement.
  destruct (AsyncSession.orm_error _ db) eqn:Herr; [exact Hdb|].
  rewrite bind_read, bind_statement, Herr. unfold write. run_step.
  destruct Hdb as (Hc & Hd & Hk). split; [done|]. split; [done|].
  intros key row. cbn [Database.chunks Database.chunks_id_seq].
  rewrite foldl_delete_lookup. case_decide; [discriminate|apply Hk].
Qed.

Lemma create_chatbox_keeps data org_id repo : keeps consistent (create_chatbox data org_id repo).
Proof.
  unfold create_chatbox. destruct (_ && _); [apply keeps_raise|apply chatbox_create_keeps].
Qed.

Lemma update_chatbox_keeps chatbox_id data repo :
  keeps consistent (update_chatbox chatbox_id data repo).
Proof.
  intros db Hdb. unfold update_chatbox. rewrite bind_run, chatbox_get_by_id_run.
  destruct (AsyncSession.orm_error _ db); [exact Hdb|].
  destruct (Database.chatboxes db !! chatbox_id) as [chatbox|] eqn:Hrow; run_step;
    [|exact Hdb].
  destruct (_ && _); [exact Hdb|]. rewrite chatbox_update_run.
  destruct (AsyncSession.orm_error _ db); [exact Hdb|]. cbv zeta.
  assert (consistent
            match Chatbox.id (apply_update data chatbox) with
            | Some key => ChatboxRepository.update_row key (apply_update data chatbox) db
            | None => db
            end) as Hdb'.
  { destruct Hdb as (Hc & Hd & Hk). destruct (Hc _ _ Hrow) as [Hid Hle].
    cbn [apply_update Chatbox.id]. rewrite Hid.
    split; [|by split]. intros key row.
    cbn [ChatboxRepository.update_row Database.chatboxes Database.chatboxes_id_seq].
    rewrite lookup_insert. case_decide as Hkey; [|apply Hc].
    intros [= <-]. subst key. by split. }
  by destruct (AsyncSession.orm_error _ _).
Qed.

Lemma ingest_text_keeps self chatbox_id text source_name :
  keeps consistent (IngestionService.ingest_text self chatbox_id text source_name).
Proof.
  unfold IngestionService.ingest_text. cbv zeta.
  apply keeps_bind; [apply document_create_keeps|]. intros document.
  apply keeps_bind; [apply keeps_lift|]. intros chunks_text.
  destruct (negb (Py.truthy_list chunks_text)); [apply keeps_ret|].
  apply keeps_bind; [apply keeps_called|]. intros _.
  apply keeps_bind; [apply keeps_lift|]. intros embeddings.
  apply keeps_bind; [apply create_many_keeps|]. intros _. apply keeps_ret.
Qed.

(** [query] only reads: whatever holds of the database before holds after. *)
Lemma load_documents_keeps P self doc_ids :
  ∀ documents, keeps P (QueryService.load_documents self doc_ids documents).
Proof.
  induction doc_ids as [|doc_id rest IH]; intros documents; [apply keeps_ret|].
  cbn [QueryService.load_documents]. apply keeps_bind.
  - destruct doc_id.
    + unfold DocumentRepository.get_by_id_optional.
      apply keeps_bind; [apply keeps_statement|]. intros _. apply keeps_read.
    + apply keeps_bind; [apply keeps_statement|]. intros _. apply keeps_ret.
  - intros doc. destruct doc_id, doc; apply IH.
Qed.

Lemma similarity_search_keeps P rt self chatbox_id query_embedding top_k min_score
    document_id :
  keeps P (ChunkRepository.similarity_search rt self chatbox_id query_embedding top_k
             min_score document_id).
Proof. by intros db. Qed.

Lemma query_keeps P rt settings self chatbox question origin document_id top_k min_score :
  keeps P (QueryService.query rt settings self chatbox question origin document_id top_k
             min_score).
Proof.
  unfold QueryService.query. cbv zeta.
  apply keeps_bind; [apply keeps_lift|]. intros _.
  apply keeps_bind; [apply keeps_called|]. intros _.
  apply keeps_bind; [apply keeps_lift|]. intros query_embedding.
  apply keeps_bind; [apply keeps_called|]. intros _.
  apply keeps_bind; [apply similarity_search_keeps|]. intros results.
  destruct (negb (Py.truthy_list results)); [apply keeps_ret|].
  apply keeps_bind; [apply keeps_called|]. intros _.
  apply keeps_bind; [apply keeps_lift|]. intros answer.
  apply keeps_bind; [apply load_documents_keeps|]. intros documents.
  apply keeps_bind; [apply keeps_lift|]. intros sources. apply keeps_ret.
Qed.

(** ** Chunks and their documents *)

Lemma new_chunks_lookup document chatbox_id chunks_text embeddings i chunk :
  new_chunks document chatbox_id chunks_text embeddings !! i = Some chunk →
  ∃ chunk_text embedding,
    chunks_text !! i = Some chunk_text ∧ embeddings !! i = Some embedding
    ∧ chunk = Chunk.mk None (Document.id document) chatbox_id chunk_text
                (Z.of_nat i) (Some embedding).
Proof.
  unfold new_chunks. rewrite list_lookup_imap.
  destruct (zip chunks_text embeddings !! i) as [[chunk_text embedding]|] eqn:Hzip;
    [|discriminate].
  intros [= <-]. exists chunk_text, embedding.
  apply lookup_zip_with_Some in Hzip as (x & y & [= -> ->] & Hx & Hy). done.
Qed.

Lemma create_many_db self chunks db :
  Run.db (ChunkRepository.create_many self chunks db) = db
  ∨ Run.db (ChunkRepository.create_many self chunks db)
    = ChunkRepository.insert_rows
        (ChunkRepository.numbered (Database.chunks_id_seq db) chunks) db.
Proof.
  unfold ChunkRepository.create_many. rewrite bind_statement.
  destruct (AsyncSession.orm_error _ db); [by left|right].
  rewrite bind_read, bind_write, bind_run.
  pose proof (refresh_all_db self (ChunkRepository.numbered (Database.chunks_id_seq db) chunks)
                (ChunkRepository.insert_rows
                   (ChunkRepository.numbered (Database.chunks_id_seq db) chunks) db)) as Hr.
  destruct (Run.result (ChunkRepository.refresh_all _ _ _)); run_step; by rewrite Hr.
Qed.

(** The database [ingest_text] leaves: the one it found, or that one with
    the new document, or that one with the new document and its chunks. *)
Lemma ingest_text_db self chatbox_id text source_name db :
  let document :=
    DocumentRepository.with_id (Database.documents_id_seq db + 1)
      (Document.mk None chatbox_id TEXT
         (Some (Py.or_default Py.truthy_str source_name "Raw Text"))
         None text None None) in
  let db1 := DocumentRepository.insert_row (Database.documents_id_seq db + 1) document db in
  let db' := Run.db (IngestionService.ingest_text self chatbox_id text source_name db) in
  db' = db ∨ db' = db1
  ∨ ∃ chunks_text embeddings,
      db' = ChunkRepository.insert_rows
              (ChunkRepository.numbered (Database.chunks_id_seq db1)
                 (new_chunks document chatbox_id chunks_text embeddings))
              db1.
Proof.
  cbv zeta. unfold IngestionService.ingest_text. cbv zeta.
  rewrite bind_run, document_create_run. cbv zeta.
  destruct (AsyncSession.orm_error _ db); [by left|].
  destruct (AsyncSession.orm_error _ _); [by right; left|]. run_step.
  rewrite bind_lift.
  destruct (ChunkingService.chunk_text _ text) as [chunks_text| |]; try (by right; left).
  destruct (negb (Py.truthy_list chunks_text)); [by right; left|].
  rewrite bind_called. run_step. rewrite bind_lift.
  destruct (Embedder.embed_texts _ chunks_text) as [embeddings| |]; try (by right; left).
  rewrite bind_run.
  match goal with
  | |- context [ChunkRepository.create_many ?r ?cs ?d] =>
      destruct (create_many_db r cs d) as [Hdb|Hdb];
      destruct (Run.result (ChunkRepository.create_many r cs d)); run_step;
      rewrite ?Hdb
  end; try (by right; left); right; right; by exists chunks_text, embeddings.
Qed.

Lemma ingest_text_keeps_belonging self chatbox_id text source_name :
  keeps (fun db => consistent db ∧ chunks_belong db)
    (IngestionService.ingest_text self chatbox_id text source_name).
Proof.
  intros db [Hcons Hbel]. split; [by apply ingest_text_keeps|].
  pose proof (ingest_text_db self chatbox_id text source_name db) as Hdb. cbv zeta in Hdb.
  set (document :=
         DocumentRepository.with_id (Database.documents_id_seq db + 1)
           (Document.mk None chatbox_id TEXT
              (Some (Py.or_default Py.truthy_str source_name "Raw Text"))
              None text None None)) in *.
  set (db1 := DocumentRepository.insert_row (Database.documents_id_seq db + 1) document db)
    in *.
  assert (chunks_belong db1) as Hbel1.
  { intros key chunk Hrow. destruct (Hbel key chunk Hrow) as (dkey & doc & Hid & Hdoc & Hbox).
    exists dkey, doc. split; [done|]. split; [|done].
    subst db1. cbn [DocumentRepository.insert_row Database.documents].
    rewrite lookup_insert_ne; [done|].
    destruct Hcons as (_ & Hd & _). destruct (Hd dkey doc Hdoc). lia. }
  destruct Hdb as [-> | [-> | (chunks_text & embeddings & ->)]]; [done..|].
  intros key chunk. unfold ChunkRepository.insert_rows. cbn [Database.chunks Database.documents].
  rewrite insert_numbered_lookup. case_decide as Hkey; [|apply Hbel1].
  destruct (new_chunks document chatbox_id chunks_text embeddings
              !! Z.to_nat (key - Database.chunks_id_seq db1 - 1)) as [c|] eqn:Hc;
    [|discriminate].
  intros [= <-].
  apply new_chunks_lookup in Hc as (chunk_text & embedding & _ & _ & ->).
  exists (Database.documents_id_seq db + 1), document.
  split; [reflexivity|]. split; [|reflexivity].
  subst db1. cbn [DocumentRepository.insert_row Database.documents]. apply lookup_insert_eq.
Qed.

Lemma chunks_belong_same_tables db db' :
  Database.documents db' = Database.documents db →
  Database.chunks db' = Database.chunks db →
  chunks_belong db → chunks_belong db'.
Proof. unfold chunks_belong. by intros -> ->. Qed.

Lemma create_chatbox_keeps_belonging data org_id repo :
  keeps chunks_belong (create_chatbox data org_id repo).
Proof.
  intros db Hdb. unfold create_chatbox. destruct (_ && _); [exact Hdb|].
  rewrite chatbox_create_run. cbv zeta.
  destruct (AsyncSession.orm_error _ db); [exact Hdb|].
  destruct (AsyncSession.orm_error _ _); exact Hdb.
Qed.

Lemma update_chatbox_keeps_belonging chatbox_id data repo :
  keeps chunks_belong (update_chatbox chatbox_id data repo).
Proof.
  intros db Hdb. unfold update_chatbox. rewrite bind_run, chatbox_get_by_id_run.
  destruct (AsyncSession.orm_error _ db); [exact Hdb|].
  destruct (Database.chatboxes db !! chatbox_id) as [chatbox|]; run_step; [|exact Hdb].
  destruct (_ && _); [exact Hdb|]. rewrite chatbox_update_run.
  destruct (AsyncSession.orm_error _ db); [exact Hdb|]. cbv zeta.
  assert (chunks_belong
            match Chatbox.id (apply_update data chatbox) with
            | Some key => ChatboxRepository.update_row key (apply_update data chatbox) db
            | None => db
            end) as Hdb' by (by destruct (Chatbox.id _)).
  by destruct (AsyncSession.orm_error _ _).
Qed.

Lemma delete_by_document_keeps_belonging self document_id :
  keeps chunks_belong (ChunkRepository.delete_by_document self document_id).
Proof.
  intros db Hdb. unfold ChunkRepository.delete_by_document. rewrite bind_statement.
  destruct (AsyncSession.orm_error _ db) eqn:Herr; [exact Hdb|].
  rewrite bind_read, bind_statement, Herr. unfold write. run_step.
  intros key chunk. cbn [Database.chunks Database.documents].
  rewrite foldl_delete_lookup. case_decide; [discriminate|apply Hdb].
Qed.

(** Every operation keeps the database in order, however it ends: each row
    carries its key as id, no key is ahead of its table's sequence (so the
    next id is unused), and every chunk names a stored document of its own
    chatbox. *)
Theorem operations_keep_integrity (op : Operation) (db : Database.t) :
  consistent db ∧ chunks_belong db →
  consistent (perform op db) ∧ chunks_belong (perform op db).
Proof.
  intros [Hcons Hbel].
  destruct op as [data org_id repo|chatbox_id data repo|service chatbox_id text source_name
                 |rt settings service chatbox question origin document_id top_k min_score
                 |repo document_id]; cbn [perform].
  - split; [by apply create_chatbox_keeps|by apply create_chatbox_keeps_belonging].
  - split; [by apply update_chatbox_keeps|by apply update_chatbox_keeps_belonging].
  - by apply ingest_text_keeps_belonging.
  - by apply (query_keeps (fun db => consistent db ∧ chunks_belong db)).
  - split; [by apply delete_by_document_keeps|by apply delete_by_document_keeps_belonging].
Qed.

Lemma empty_consistent : consistent Database.empty ∧ chunks_belong Database.empty.
Proof.
  split; [split; [|split]|]; intros key row; cbn; by rewrite lookup_empty.
Qed.

(** ** The ingestion pipeline, further *)

Lemma document_create_healthy self document db :
  (∀ db', AsyncSession.orm_error (DocumentRepository.session self) db' = None) →
  DocumentRepository.create self document db
  = Run.mk
      (Return (DocumentRepository.with_id (Database.documents_id_seq db + 1) document))
      (DocumentRepository.insert_row (Database.documents_id_seq db + 1)
         (DocumentRepository.with_id (Database.documents_id_seq db + 1) document) db)
      [].
Proof. intros Hok. rewrite document_create_run. cbv zeta. by rewrite !Hok. Qed.

(** A run of [ingest_text] in which every step succeeds, over sessions whose
    statements succeed. It returns the new document and the number of chunks
    stored, which is the smaller of the number of chunk texts and the number
    of embeddings returned: a text without an embedding is left out. The
    chunk of position [i] is stored under the [i]-th next id with that text,
    that embedding, position [i], the id of the new document and the chatbox
    id; all other chunk rows are as before; the embedding service is called
    once, with all chunk texts. *)
Theorem ingest_text_stores_chunks (self : IngestionService.t) (chatbox_id : Z)
    (text : string) (source_name : option string) (db : Database.t)
    (chunks_text : list string) (embeddings : list (list float)) :
  (∀ db', AsyncSession.orm_error
            (DocumentRepository.session (IngestionService.document_repo self)) db' = None) →
  (∀ db', AsyncSession.orm_error
            (ChunkRepository.session (IngestionService.chunk_repo self)) db' = None) →
  ChunkingService.chunk_text (IngestionService.chunking_service self) text
  = Return chunks_text →
  chunks_text ≠ [] →
  Embedder.embed_texts (IngestionService.embedding_service self) chunks_text
  = Return embeddings →
  let run := IngestionService.ingest_text self chatbox_id text source_name db in
  let document_key := Database.documents_id_seq db + 1 in
  let document :=
    Document.mk (Some document_key) chatbox_id TEXT
      (Some (Py.or_default Py.truthy_str source_name "Raw Text")) None text None None in
  let stored := Z.of_nat (length chunks_text `min` length embeddings) in
  Run.result run = Return (document, stored)
  ∧ Run.calls run = [Call_embed_texts chunks_text]
  ∧ Database.documents (Run.db run) = <[document_key := document]> (Database.documents db)
  ∧ (∀ i chunk_text embedding,
       chunks_text !! i = Some chunk_text → embeddings !! i = Some embedding →
       Database.chunks (Run.db run) !! (Database.chunks_id_seq db + 1 + Z.of_nat i)
       = Some (Chunk.mk (Some (Database.chunks_id_seq db + 1 + Z.of_nat i))
                 (Some document_key) chatbox_id chunk_text (Z.of_nat i) (Some embedding)))
  ∧ (∀ key, ¬ (Database.chunks_id_seq db < key ≤ Database.chunks_id_seq db + stored) →
       Database.chunks (Run.db run) !! key = Database.chunks db !! key).
Proof.
  intros Hdocs Hchunks Htext Hne Hembed run document_key document stored.
  subst run. unfold IngestionService.ingest_text. cbv zeta.
  rewrite bind_run, document_create_healthy by done. run_step.
  rewrite bind_lift, Htext.
  replace (negb (Py.truthy_list chunks_text)) with false by (by destruct chunks_text).
  rewrite bind_called. run_step. rewrite bind_lift, Hembed.
  rewrite bind_run, create_many_healthy by done. run_step. unfold ret. run_step.
  fold (new_chunks
          (DocumentRepository.with_id (Database.documents_id_seq db + 1)
             (Document.mk None chatbox_id TEXT
                (Some (Py.or_default Py.truthy_str source_name "Raw Text"))
                None text None None))
          chatbox_id chunks_text embeddings).
  set (chunks := new_chunks _ chatbox_id chunks_text embeddings).
  set (db1 := DocumentRepository.insert_row _ _ db).
  assert (length chunks = (length chunks_text `min` length embeddings)%nat) as Hlen.
  { subst chunks. unfold new_chunks. by rewrite length_imap, length_zip. }
  split; [by rewrite Hlen|]. split; [reflexivity|]. split; [reflexivity|]. split.
  - intros i chunk_text embedding Hi Hj.
    assert (chunks !! i
            = Some (Chunk.mk None (Some document_key) chatbox_id chunk_text (Z.of_nat i)
                      (Some embedding))) as Hchunk.
    { subst chunks. unfold new_chunks. rewrite list_lookup_imap.
      by rewrite (proj2 (lookup_zip_with_Some pair chunks_text embeddings i
                           (chunk_text, embedding))
                    (ex_intro _ chunk_text (ex_intro _ embedding
                       (conj eq_refl (conj Hi Hj))))). }
    exact (inserted_chunk_lookup chunks db1 i _ Hchunk).
  - intros key Hkey.
    rewrite (inserted_chunk_lookup_other chunks db1 key); [reflexivity|].
    rewrite Hlen. exact Hkey.
Qed.

(** A run of [ingest_text] on a text that is empty or all whitespace, over a
    session whose statements succeed: the document is stored all the same,
    no chunk is, the embedding service is not called, and the run returns the
    document with a count of zero. *)
Theorem ingest_text_blank (self : IngestionService.t) (chatbox_id : Z) (text : string)
    (source_name : option string) (db : Database.t) :
  (∀ db', AsyncSession.orm_error
            (DocumentRepository.session (IngestionService.document_repo self)) db' = None) →
  Py.strip text = "" →
  let run := IngestionService.ingest_text self chatbox_id text source_name db in
  let document_key := Database.documents_id_seq db + 1 in
  let document :=
    Document.mk (Some document_key) chatbox_id TEXT
      (Some (Py.or_default Py.truthy_str source_name "Raw Text")) None text None None in
  Run.result run = Return (document, 0)
  ∧ Run.calls run = []
  ∧ Database.documents (Run.db run) = <[document_key := document]> (Database.documents db)
  ∧ Database.chunks (Run.db run) = Database.chunks db.
Proof.
  intros Hdocs Hblank run document_key document. subst run.
  unfold IngestionService.ingest_text. cbv zeta.
  rewrite bind_run, document_create_healthy by done. run_step.
  assert (ChunkingService.chunk_text (IngestionService.chunking_service self) text
          = Return []) as ->.
  { unfold ChunkingService.chunk_text. rewrite Hblank. cbn. by rewrite orb_true_r. }
  rewrite bind_lift. cbn [Py.truthy_list negb]. unfold ret. run_step. done.
Qed.

(** At the ingestion of a text of three chunks into an empty database: the
    document gets id 1, three chunks are stored, and the second is under id
    2. *)
Lemma ingest_text_stores_chunks_witness :
  Run.result (IngestionService.ingest_text ingestion_service_fixed 1 helperly_text None
                Database.empty)
  = Return (helperly_document, 3)
  ∧ Database.chunks
      (Run.db (IngestionService.ingest_text ingestion_service_fixed 1 helperly_text None
                 Database.empty))
    !! 2
    = Some (Chunk.mk (Some 2) (Some 1) 1 "chunks, embeds, and retrieves." 1
              (Some [1%float])).
Proof.
  destruct (ingest_text_stores_chunks ingestion_service_fixed 1 helperly_text None
              Database.empty
              ["Helperly is a RAG platform. It chunks, e";
               "chunks, embeds, and retrieves."; "."]
              [[1%float]; [1%float]; [1%float]]
              (fun _ => eq_refl) (fun _ => eq_refl) eq_refl ltac:(discriminate) eq_refl)
    as (Hresult & _ & _ & Hrows & _).
  split; [exact Hresult|].
  exact (Hrows 1%nat "chunks, embeds, and retrieves." [1%float] eq_refl eq_refl).
Defined.

(** At the ingestion of a text of two spaces into an empty database. *)
Lemma ingest_text_blank_witness :
  Py.strip "  " = ""
  ∧ Run.result (IngestionService.ingest_text ingestion_service_fixed 1 "  " None
                  Database.empty)
    = Return (Document.mk (Some 1) 1 TEXT (Some "Raw Text") None "  " None None, 0)
  ∧ Database.chunks
      (Run.db (IngestionService.ingest_text ingestion_service_fixed 1 "  " None
                 Database.empty))
    = ∅.
Proof.
  split; [reflexivity|].
  destruct (ingest_text_blank ingestion_service_fixed 1 "  " None Database.empty
              (fun _ => eq_refl) eq_refl) as (Hresult & _ & _ & Hchunks).
  split; [exact Hresult|exact Hchunks].
Defined.

(** From the empty database, the ingestion of a text of three chunks leaves
    a database in order. *)
Lemma operations_keep_integrity_witness :
  consistent (perform (IngestText ingestion_service_fixed 1 helperly_text None)
                Database.empty)
  ∧ chunks_belong (perform (IngestText ingestion_service_fixed 1 helperly_text None)
                     Database.empty).
Proof.
  exact (operations_keep_integrity (IngestText ingestion_service_fixed 1 helperly_text None)
           Database.empty empty_consistent).
Defined.

(** ** Deleting the chunks of a document *)

Lemma delete_by_document_healthy self document_id db :
  AsyncSession.orm_error (ChunkRepository.session self) db = None →
  ChunkRepository.delete_by_document self document_id db
  = Run.mk (Return tt)
      (Database.mk (Database.chatboxes db) (Database.documents db)
         (foldl (fun table kv => delete kv.1 table) (Database.chunks db)
            (map_to_list
               (filter (fun kv => Chunk.document_id kv.2 = Some document_id)
                  (Database.chunks db))))
         (Database.chatboxes_id_seq db) (Database.documents_id_seq db)
         (Database.chunks_id_seq db))
      [].
Proof.
  intros Hok. unfold ChunkRepository.delete_by_document.
  by rewrite bind_statement, Hok, bind_read, bind_statement, Hok.
Qed.

(** The table after the selected rows were deleted. *)
Lemma deleted_lookup (table : gmap Z Chunk.t) document_id key :
  foldl (fun table kv => delete kv.1 table) table
    (map_to_list (filter (fun kv => Chunk.document_id kv.2 = Some document_id) table))
    !! key
  = match table !! key with
    | Some chunk =>
        if decide (Chunk.document_id chunk = Some document_id) then None else Some chunk
    | None => None
    end.
Proof.
  rewrite foldl_delete_lookup. case_decide as Hin.
  - apply list_elem_of_fmap in Hin as ([k chunk] & -> & Hin).
    apply elem_of_map_to_list, map_lookup_filter_Some in Hin as [Hrow Hdoc].
    cbn [fst snd] in *. rewrite Hrow. by case_decide.
  - destruct (table !! key) as [chunk|] eqn:Hrow; [|done].
    case_decide as Hdoc; [|done]. destruct Hin.
    apply list_elem_of_fmap. exists (key, chunk). split; [done|].
    by apply elem_of_map_to_list, map_lookup_filter_Some.
Qed.

(** [delete_by_document] over a session whose statements succeed: the rows
    left in the chunk table are those that were there and belong to another
    document (or to none); the other tables are as before, and the sequence
    of chunk ids is not moved back, so the ids of deleted chunks are not given
    out again. *)
Theorem delete_by_document_removes (self : ChunkRepository.t) (document_id : Z)
    (db : Database.t) :
  AsyncSession.orm_error (ChunkRepository.session self) db = None →
  let run := ChunkRepository.delete_by_document self document_id db in
  Run.result run = Return tt
  ∧ (∀ key chunk,
       Database.chunks (Run.db run) !! key = Some chunk
       ↔ Database.chunks db !! key = Some chunk
         ∧ Chunk.document_id chunk ≠ Some document_id)
  ∧ Database.documents (Run.db run) = Database.documents db
  ∧ Database.chatboxes (Run.db run) = Database.chatboxes db
  ∧ Database.chunks_id_seq (Run.db run) = Database.chunks_id_seq db.
Proof.
  intros Hok run. subst run. rewrite delete_by_document_healthy by done. run_step.
  split; [reflexivity|]. split; [|done].
  intros key chunk. cbn [Database.chunks]. rewrite deleted_lookup.
  destruct (Database.chunks db !! key) as [row|]; [|split; [discriminate|by intros [? _]]].
  case_decide as Hdoc.
  - split; [discriminate|]. by intros [[= ->] Hne].
  - split; [by intros [= ->]|]. by intros [? _].
Qed.

(** Deleting the chunks of document 1 leaves the chunk of document 2 under
    its id, and nothing under id 1. *)
Lemma delete_by_document_removes_witness :
  Database.chunks (Run.db (ChunkRepository.delete_by_document chunk_repo_0 1 db_three_chunks))
    !! 3
  = Some (Chunk.mk (Some 3) (Some 2) 1 "other" 0 None)
  ∧ Database.chunks (Run.db (ChunkRepository.delete_by_document chunk_repo_0 1 db_three_chunks))
      !! 1
    ≠ Some (Chunk.mk (Some 1) (Some 1) 1 "hello" 0 None).
Proof.
  destruct (delete_by_document_removes chunk_repo_0 1 db_three_chunks eq_refl)
    as (_ & Hrows & _).
  split.
  - apply Hrows. split; [reflexivity|discriminate].
  - intros Hrow. apply Hrows in Hrow as [_ Hdoc]. by apply Hdoc.
Defined.

(** ** Ingestion, then deletion *)

Lemma no_chunk_of_next_document db key chunk :
  consistent db → chunks_belong db →
  Database.chunks db !! key = Some chunk →
  Chunk.document_id chunk ≠ Some (Database.documents_id_seq db + 1).
Proof.
  intros (_ & Hd & _) Hbel Hrow Hdoc.
  destruct (Hbel key chunk Hrow) as (dkey & doc & Hid & Hstored & _).
  destruct (Hd dkey doc Hstored) as [_ Hle]. rewrite Hid in Hdoc. injection Hdoc as ->. lia.
Qed.

(** The chunk table [ingest_text] leaves, however it ends: at each key, the
    row that was there, or a chunk of the new document at a key that was
    free. *)
Lemma ingest_text_chunk_rows self chatbox_id text source_name db key :
  consistent db →
  let db' := Run.db (IngestionService.ingest_text self chatbox_id text source_name db) in
  Database.chunks db' !! key = Database.chunks db !! key
  ∨ Database.chunks db !! key = None
    ∧ ∃ chunk, Database.chunks db' !! key = Some chunk
               ∧ Chunk.document_id chunk = Some (Database.documents_id_seq db + 1).
Proof.
  intros Hcons db'. subst db'.
  destruct (ingest_text_db self chatbox_id text source_name db)
    as [-> | [-> | (chunks_text & embeddings & ->)]]; [by left..|].
  unfold ChunkRepository.insert_rows. cbn [Database.chunks].
  rewrite insert_numbered_lookup. case_decide as Hkey; [|by left].
  cbn [DocumentRepository.insert_row Database.chunks Database.chunks_id_seq] in *.
  destruct (new_chunks _ chatbox_id chunks_text embeddings !! _) as [chunk|] eqn:Hchunk.
  - right. split.
    + destruct Hcons as (_ & _ & Hk). apply (keys_ok_fresh _ _ _ _ Hk). lia.
    + apply new_chunks_lookup in Hchunk as (chunk_text & embedding & _ & _ & ->).
      eexists. split; [reflexivity|]. reflexivity.
  - apply lookup_ge_None in Hchunk. lia.
Qed.

(** Whatever [ingest_text] did to a database in order, whether it returned or
    raised after the document was committed, deleting the chunks of the new
    document brings the chunk table back to what it was before the
    ingestion. *)
Theorem ingest_then_delete_restores_chunks (self : IngestionService.t) (chatbox_id : Z)
    (text : string) (source_name : option string) (repo : ChunkRepository.t)
    (db : Database.t) :
  consistent db ∧ chunks_belong db →
  let db' := Run.db (IngestionService.ingest_text self chatbox_id text source_name db) in
  AsyncSession.orm_error (ChunkRepository.session repo) db' = None →
  Database.chunks
    (Run.db (ChunkRepository.delete_by_document repo (Database.documents_id_seq db + 1) db'))
  = Database.chunks db.
Proof.
  intros [Hcons Hbel] db' Hok. subst db'.
  rewrite delete_by_document_healthy by done. run_step.
  apply map_eq. intros key. cbn [Database.chunks]. rewrite deleted_lookup.
  destruct (ingest_text_chunk_rows self chatbox_id text source_name db key Hcons)
    as [Hsame | (Hfree & chunk & Hrow & Hdoc)].
  - rewrite Hsame. destruct (Database.chunks db !! key) as [chunk|] eqn:Hrow; [|done].
    case_decide as Hdoc; [|done].
    by destruct (no_chunk_of_next_document db key chunk Hcons Hbel Hrow).
  - rewrite Hrow, Hfree. by case_decide.
Qed.

(** After the ingestion of a text of three chunks into an empty database,
    deleting the chunks of document 1 leaves the chunk table empty. *)
Lemma ingest_then_delete_restores_chunks_witness :
  Database.chunks
    (Run.db (ChunkRepository.delete_by_document chunk_repo_0 1
               (Run.db (IngestionService.ingest_text ingestion_service_fixed 1
                          helperly_text None Database.empty))))
  = ∅.
Proof.
  exact (ingest_then_delete_restores_chunks ingestion_service_fixed 1 helperly_text None
           chunk_repo_0 Database.empty empty_consistent eq_refl).
Defined.

(** ** The chatbox routes, further *)

Lemma create_chatbox_healthy data org_id repo db :
  (∀ db', AsyncSession.orm_error (ChatboxRepository.session repo) db' = None) →
  rejected (ChatboxCreate.enforce_allowed_domains data) (ChatboxCreate.allowed_domains data)
  = false →
  let key := Database.chatboxes_id_seq db + 1 in
  let chatbox :=
    Chatbox.mk (Some key) org_id (ChatboxCreate.name data) (ChatboxCreate.description data)
      (ChatboxCreate.allowed_domains data) (ChatboxCreate.enforce_allowed_domains data) in
  create_chatbox data org_id repo db
  = Run.mk (Return chatbox) (ChatboxRepository.insert_row key chatbox db) [].
Proof.
  intros Hok Hr. cbv zeta. unfold create_chatbox. unfold rejected in Hr. rewrite Hr.
  rewrite chatbox_create_run. cbv zeta. by rewrite !Hok.
Qed.

(** Creation, then retrieval. Over a session whose statements succeed and a
    database in order, a request that passes the allow-list check creates the
    chatbox under the next id, which no chatbox held; [get_chatbox] on that id
    then returns the chatbox created, and on any other id answers as it did
    before the creation. *)
Theorem create_chatbox_then_get (data : ChatboxCreate.t) (org_id : Z)
    (repo : ChatboxRepository.t) (db : Database.t) :
  consistent db →
  (∀ db', AsyncSession.orm_error (ChatboxRepository.session repo) db' = None) →
  rejected (ChatboxCreate.enforce_allowed_domains data) (ChatboxCreate.allowed_domains data)
  = false →
  let run := create_chatbox data org_id repo db in
  let key := Database.chatboxes_id_seq db + 1 in
  let chatbox :=
    Chatbox.mk (Some key) org_id (ChatboxCreate.name data) (ChatboxCreate.description data)
      (ChatboxCreate.allowed_domains data) (ChatboxCreate.enforce_allowed_domains data) in
  Run.result run = Return chatbox
  ∧ Database.chatboxes db !! key = None
  ∧ get_chatbox key repo (Run.db run) = Run.mk (Return chatbox) (Run.db run) []
  ∧ ∀ other, other ≠ key →
      Run.result (get_chatbox other repo (Run.db run))
      = Run.result (get_chatbox other repo db).
Proof.
  intros (Hc & _) Hok Hr run key chatbox. subst run.
  rewrite (create_chatbox_healthy data org_id repo db Hok Hr). run_step.
  fold key. fold chatbox. split; [reflexivity|].
  split; [apply (keys_ok_fresh _ _ _ _ Hc); lia|].
  unfold get_chatbox. split.
  - rewrite chatbox_get_by_id_run, Hok.
    cbn [ChatboxRepository.insert_row Database.chatboxes]. by rewrite lookup_insert_eq.
  - intros other Hother. rewrite !chatbox_get_by_id_run, !Hok.
    cbn [ChatboxRepository.insert_row Database.chatboxes].
    rewrite lookup_insert_ne by (intros Heq; by apply Hother).
    by destruct (Database.chatboxes db !! other).
Qed.

(** The chatbox created first in an empty database is found under id 1. *)
Lemma create_chatbox_then_get_witness :
  Run.result (get_chatbox 1 chatbox_repo_0 db_one_chatbox) = Return chatbox_a.
Proof.
  destruct (create_chatbox_then_get
              (ChatboxCreate.mk "docs" None (Some ["https://a.com"]) true) 1 chatbox_repo_0
              Database.empty (proj1 empty_consistent) (fun _ => eq_refl) eq_refl)
    as (_ & _ & Hget & _).
  exact (f_equal Run.result Hget).
Defined.

(** The database [update_chatbox] leaves: the one it found, or that one with
    the updated chatbox written to the row of the loaded one. *)
Lemma update_chatbox_db chatbox_id data repo db :
  Run.db (update_chatbox chatbox_id data repo db) = db
  ∨ ∃ chatbox key,
      Database.chatboxes db !! chatbox_id = Some chatbox
      ∧ Chatbox.id chatbox = Some key
      ∧ Run.db (update_chatbox chatbox_id data repo db)
        = ChatboxRepository.update_row key (apply_update data chatbox) db.
Proof.
  unfold update_chatbox. rewrite bind_run, chatbox_get_by_id_run.
  destruct (AsyncSession.orm_error _ db); [by left|].
  destruct (Database.chatboxes db !! chatbox_id) as [chatbox|] eqn:Hrow; run_step;
    [|by left].
  destruct (_ && _); [by left|]. rewrite chatbox_update_run.
  destruct (AsyncSession.orm_error _ db); [by left|]. cbv zeta.
  change (Chatbox.id (apply_update data chatbox)) with (Chatbox.id chatbox).
  destruct (Chatbox.id chatbox) as [key|] eqn:Hid.
  - right. exists chatbox, key. split; [done|]. split; [done|].
    by destruct (AsyncSession.orm_error _ _).
  - left. by destruct (AsyncSession.orm_error _ _).
Qed.

(** A chatbox that [update_chatbox] returns is the loaded one with the
    request applied, and the database was written. *)
Lemma update_chatbox_returns chatbox_id data repo db updated :
  Run.result (update_chatbox chatbox_id data repo db) = Return updated →
  ∃ chatbox,
    Database.chatboxes db !! chatbox_id = Some chatbox
    ∧ updated = apply_update data chatbox
    ∧ Run.db (update_chatbox chatbox_id data repo db)
      = match Chatbox.id chatbox with
        | Some key => ChatboxRepository.update_row key updated db
        | None => db
        end.
Proof.
  unfold update_chatbox. rewrite bind_run, chatbox_get_by_id_run.
  destruct (AsyncSession.orm_error _ db); [discriminate|].
  destruct (Database.chatboxes db !! chatbox_id) as [chatbox|] eqn:Hrow; run_step;
    [|discriminate].
  destruct (_ && _); [discriminate|]. rewrite chatbox_update_run.
  destruct (AsyncSession.orm_error _ db); [discriminate|]. cbv zeta.
  change (Chatbox.id (apply_update data chatbox)) with (Chatbox.id chatbox).
  destruct (AsyncSession.orm_error _ _); [discriminate|]. run_step.
  intros [= <-]. by exists chatbox.
Qed.

(** In a database in order the update route writes to the addressed row and
    to no other: every other chatbox, the documents and the chunks are as
    before, however the run ends. A chatbox it returns is the stored one with
    the fields of the request replaced; it keeps its id and its organization,
    and it is what the row holds afterwards. When no chatbox has the id, the
    run does not return and the database is as before. *)
Theorem update_chatbox_one_row (chatbox_id : Z) (data : ChatboxUpdate.t)
    (repo : ChatboxRepository.t) (db : Database.t) :
  consistent db →
  let run := update_chatbox chatbox_id data repo db in
  (∀ other, other ≠ chatbox_id →
     Database.chatboxes (Run.db run) !! other = Database.chatboxes db !! other)
  ∧ Database.documents (Run.db run) = Database.documents db
  ∧ Database.chunks (Run.db run) = Database.chunks db
  ∧ (∀ updated, Run.result run = Return updated →
       ∃ chatbox,
         Database.chatboxes db !! chatbox_id = Some chatbox
         ∧ updated = apply_update data chatbox
         ∧ Chatbox.id updated = Some chatbox_id
         ∧ Chatbox.organization_id updated = Chatbox.organization_id chatbox
         ∧ Database.chatboxes (Run.db run) !! chatbox_id = Some updated)
  ∧ (Database.chatboxes db !! chatbox_id = None →
     Run.db run = db ∧ ∀ updated, Run.result run ≠ Return updated).
Proof.
  intros (Hc & _) run. subst run.
  assert (∀ chatbox key,
            Database.chatboxes db !! chatbox_id = Some chatbox →
            Chatbox.id chatbox = Some key → key = chatbox_id) as Hkey.
  { intros chatbox key Hrow Hid. destruct (Hc _ _ Hrow) as [Hid' _]. congruence. }
  split; [|split; [|split; [|split]]].
  - intros other Hother.
    destruct (update_chatbox_db chatbox_id data repo db)
      as [-> | (chatbox & key & Hrow & Hid & ->)]; [done|].
    rewrite (Hkey _ _ Hrow Hid).
    cbn [ChatboxRepository.update_row Database.chatboxes].
    by rewrite lookup_insert_ne by (intros Heq; by apply Hother).
  - by destruct (update_chatbox_db chatbox_id data repo db)
      as [-> | (chatbox & key & Hrow & Hid & ->)].
  - by destruct (update_chatbox_db chatbox_id data repo db)
      as [-> | (chatbox & key & Hrow & Hid & ->)].
  - intros updated Hret.
    destruct (update_chatbox_returns _ _ _ _ _ Hret) as (chatbox & Hrow & -> & ->).
    destruct (Hc _ _ Hrow) as [Hid _]. exists chatbox. rewrite Hid.
    split; [done|]. split; [done|]. split; [exact Hid|]. split; [done|].
    cbn [ChatboxRepository.update_row Database.chatboxes]. by rewrite lookup_insert_eq.
  - intros Hnone. split.
    + by destruct (update_chatbox_db chatbox_id data repo db)
        as [-> | (chatbox & key & Hrow & Hid & ->)]; [|congruence].
    + intros updated Hret.
      destruct (update_chatbox_returns _ _ _ _ _ Hret) as (chatbox & Hrow & _). congruence.
Qed.

(** Renaming the one chatbox of the database: its row holds the new name,
    with the id, the organization and the allow-list it had. *)
Lemma update_chatbox_one_row_witness :
  Database.chatboxes
    (Run.db (update_chatbox 1 (ChatboxUpdate.mk (Some "manual") None None None)
               chatbox_repo_0 db_one_chatbox))
    !! 1
  = Some (Chatbox.mk (Some 1) 1 "manual" None (Some ["https://a.com"]) true).
Proof.
  destruct (update_chatbox_one_row 1 (ChatboxUpdate.mk (Some "manual") None None None)
              chatbox_repo_0 db_one_chatbox)
    as (_ & _ & _ & Hret & _).
  - apply (create_chatbox_keeps _ _ _ _ (proj1 empty_consistent)).
  - destruct (Hret (Chatbox.mk (Some 1) 1 "manual" None (Some ["https://a.com"]) true)
                eq_refl) as (chatbox & _ & _ & _ & _ & Hrow).
    exact Hrow.
Defined.




(** ** The retrieval pipeline, further *)

(** The chunks a similarity query returns come from rows: each has its id
    and the id of its document. *)
Lemma similarity_query_results rt self db chatbox_id query_embedding top_k min_score
    document_id results :
  ChunkRepository.similarity_query rt self db chatbox_id query_embedding top_k min_score
    document_id
  = Return results →
  Forall (fun r => is_Some (Chunk.id r.1) ∧ is_Some (Chunk.document_id r.1)) results.
Proof.
  unfold ChunkRepository.similarity_query.
  destruct document_id; cbv zeta;
    (destruct (AsyncSession.execute_text _ _ _ _) as [rows| |]; [|discriminate..]);
    cbn [obind]; intros [= <-]; apply Forall_fmap, Forall_true; intros row; cbn; eauto.
Qed.

Lemma zip_map_fst_snd {A B} (l : list (A * B)) : zip (map fst l) (map snd l) = l.
Proof. induction l as [|[a b] l IH]; [reflexivity|]. cbn. by rewrite IH. Qed.

Lemma bind_returns {A B} (m : M A) (f : A → M B) db a :
  m db = Run.mk (Return a) db [] → bind m f db = f a db.
Proof. intros Hm. rewrite bind_run, Hm. run_step. apply run_eta. Qed.

Lemma document_get_by_id_optional_healthy self document_id db :
  AsyncSession.orm_error (DocumentRepository.session self) db = None →
  DocumentRepository.get_by_id_optional self document_id db
  = Run.mk (Return (Database.documents db !! document_id)) db [].
Proof.
  intros Hok. unfold DocumentRepository.get_by_id_optional.
  by rewrite bind_statement, Hok.
Qed.

(** The documents loaded for a list of ids, over a session whose statements
    succeed: an id of the list is looked up in the table. *)
Lemma load_documents_healthy self doc_ids db :
  AsyncSession.orm_error (DocumentRepository.session (QueryService.document_repo self)) db
  = None →
  ∀ documents,
    ∃ loaded,
      QueryService.load_documents self doc_ids documents db = Run.mk (Return loaded) db []
      ∧ ∀ key,
          loaded !! key
          = if decide (Some key ∈ doc_ids)
            then from_option Some (documents !! key) (Database.documents db !! key)
            else documents !! key.
Proof.
  intros Hok. induction doc_ids as [|doc_id rest IH]; intros documents.
  - exists documents. split; [reflexivity|]. intros key.
    by rewrite decide_False by apply not_elem_of_nil.
  - cbn [QueryService.load_documents]. destruct doc_id as [k|].
    + rewrite (bind_returns _ _ db _ (document_get_by_id_optional_healthy _ k db Hok)).
      destruct (Database.documents db !! k) as [doc|] eqn:Hdoc.
      * destruct (IH (<[k := doc]> documents)) as (loaded & -> & Hloaded).
        exists loaded. split; [reflexivity|]. intros key. rewrite Hloaded.
        destruct (decide (key = k)) as [->|Hne].
        -- rewrite (decide_True (P := Some k ∈ Some k :: rest)) by (by left).
           rewrite Hdoc, lookup_insert_eq. by case_decide.
        -- rewrite lookup_insert_ne by done.
           destruct (decide (Some key ∈ rest)) as [Hin|Hnin].
           ++ by rewrite decide_True by (by right).
           ++ rewrite decide_False; [done|].
              intros [[= ->]|Hin]%elem_of_cons; done.
      * destruct (IH documents) as (loaded & -> & Hloaded).
        exists loaded. split; [reflexivity|]. intros key. rewrite Hloaded.
        destruct (decide (Some key ∈ rest)) as [Hin|Hnin].
        -- by rewrite decide_True by (by right).
        -- destruct (decide (key = k)) as [->|Hne].
           ++ rewrite decide_True by (by left). by rewrite Hdoc.
           ++ rewrite decide_False; [done|].
              intros [[= ->]|Hin]%elem_of_cons; done.
    + rewrite (bind_returns _ _ db None) by (by rewrite bind_statement, Hok).
      destruct (IH documents) as (loaded & -> & Hloaded).
      exists loaded. split; [reflexivity|]. intros key. rewrite Hloaded.
      destruct (decide (Some key ∈ rest)) as [Hin|Hnin].
      * by rewrite decide_True by (by right).
      * rewrite decide_False; [done|]. intros [[=]|Hin]%elem_of_cons; done.
Qed.

(** The source records built from results that have their ids: one per
    result, in order, with the name of its document if that was loaded. *)
Lemma build_sources_returns documents results :
  Forall (fun r => is_Some (Chunk.id r.1) ∧ is_Some (Chunk.document_id r.1)) results →
  ∃ sources,
    QueryService.build_sources documents results = Return sources
    ∧ length sources = length results
    ∧ ∀ i chunk score, results !! i = Some (chunk, score) →
        ∃ doc_id chunk_id,
          Chunk.document_id chunk = Some doc_id
          ∧ Chunk.id chunk = Some chunk_id
          ∧ sources !! i
            = Some (SourceChunk.mk doc_id chunk_id (Chunk.content chunk) score
                      (documents !! doc_id ≫= Document.source_name)).
Proof.
  induction 1 as [|[chunk score] results [[chunk_id Hid] [doc_id Hdoc]] _ IH].
  - exists []. split; [reflexivity|]. split; [reflexivity|]. by intros [|i].
  - destruct IH as (sources & Hsources & Hlen & Hrows). cbn [fst] in *.
    cbn [QueryService.build_sources]. rewrite Hdoc, Hid.
    cbn [QueryService.source_chunk obind]. rewrite Hsources. cbn [obind].
    eexists. split; [reflexivity|]. split; [by cbn; rewrite Hlen|].
    intros [|i] chunk' score'; rewrite !lookup_cons.
    + intros [= <- <-]. by exists doc_id, chunk_id.
    + apply Hrows.
Qed.

(** A query that finds chunks. When the origin is accepted, the question is
    embedded, the similarity query returns a non-empty list, the language
    model answers and the document lookups succeed, [query] returns that
    answer with one source per result, in ranking order: the source carries
    the ids, content and score of its chunk, and the name of the chunk's
    document as stored, or none if no such document is stored. The language
    model is called once, with the contents of the chunks in ranking order,
    and the database is as before. *)
Theorem query_answers_with_sources (rt : Interp.t) (settings : Settings.t)
    (self : QueryService.t) (chatbox : Chatbox.t) (question : string)
    (origin : option string) (document_id : option Z) (top_k : option Z)
    (min_score : option float) (db : Database.t) (query_embedding : list float)
    (results : list (Chunk.t * float)) (answer : string) :
  QueryService.validate_origin chatbox origin = Return tt →
  Embedder.embed_text (QueryService.embedding_service self) question
  = Return query_embedding →
  ChunkRepository.similarity_query rt (QueryService.chunk_repo self) db
    (Chatbox.id chatbox) query_embedding (resolved_top_k settings top_k)
    (resolved_min_score settings min_score) document_id
  = Return results →
  results ≠ [] →
  Answerer.generate_answer (QueryService.llm_service self) question
    (map Chunk.content (map fst results))
  = Return answer →
  AsyncSession.orm_error (DocumentRepository.session (QueryService.document_repo self)) db
  = None →
  ∃ sources,
    QueryService.query rt settings self chatbox question origin document_id top_k
      min_score db
    = Run.mk (Return (answer, sources)) db
        [Call_embed_text question;
         Call_similarity_search (Chatbox.id chatbox) query_embedding
           (resolved_top_k settings top_k) (resolved_min_score settings min_score)
           document_id;
         Call_generate_answer question (map Chunk.content (map fst results))]
    ∧ length sources = length results
    ∧ ∀ i chunk score, results !! i = Some (chunk, score) →
        ∃ doc_id chunk_id,
          Chunk.document_id chunk = Some doc_id
          ∧ Chunk.id chunk = Some chunk_id
          ∧ sources !! i
            = Some (SourceChunk.mk doc_id chunk_id (Chunk.content chunk) score
                      (Database.documents db !! doc_id ≫= Document.source_name)).
Proof.
  intros Hvalid Hembed Hquery Hne Hanswer Hok.
  pose proof (similarity_query_results _ _ _ _ _ _ _ _ _ Hquery) as Hids.
  set (doc_ids :=
         elements (list_to_set (map Chunk.document_id (map fst results)) : gset (option Z))).
  destruct (load_documents_healthy self doc_ids db Hok ∅) as (loaded & Hload & Hloaded).
  destruct (build_sources_returns loaded results Hids) as (sources & Hsources & Hlen & Hrows).
  exists sources. split; [|split; [exact Hlen|]].
  - unfold QueryService.query. cbv zeta.
    rewrite bind_lift, Hvalid, bind_called. run_step.
    rewrite bind_lift, Hembed, bind_called. run_step.
    fold (resolved_top_k settings top_k). fold (resolved_min_score settings min_score).
    rewrite bind_run. unfold ChunkRepository.similarity_search. run_step.
    rewrite Hquery. cbn [try_except].
    replace (negb (Py.truthy_list results)) with false by (by destruct results).
    rewrite bind_called. run_step. rewrite bind_lift, Hanswer.
    fold doc_ids. rewrite bind_run, Hload. run_step.
    rewrite bind_lift, zip_map_fst_snd, Hsources. reflexivity.
  - intros i chunk score Hi.
    destruct (Hrows i chunk score Hi) as (doc_id & chunk_id & Hdoc & Hid & Hsource).
    exists doc_id, chunk_id. split; [exact Hdoc|]. split; [exact Hid|].
    rewrite Hsource, Hloaded. rewrite decide_True.
    + rewrite lookup_empty. by destruct (Database.documents db !! doc_id).
    + subst doc_ids. apply elem_of_elements, elem_of_list_to_set.
      rewrite <- Hdoc. apply list_elem_of_In, in_map, in_map_iff.
      exists (chunk, score). split; [reflexivity|].
      apply list_elem_of_In. by eapply list_elem_of_lookup_2.
Qed.

(** A query that finds the row of the Helperly document returns the stub
    answer with one source, named after the document. *)
Lemma query_answers_with_sources_witness :
  Run.result
    (QueryService.query interp_0 Settings.defaults query_service_rows chatbox_open
       "What is Helperly?" None None None None db_helperly)
  = Return
      (LLMService._generate_stub_answer "What is Helperly?" ["Helperly is a RAG platform."],
       [SourceChunk.mk 1 1 "Helperly is a RAG platform." 0.5%float (Some "Raw Text")]).
Proof.
  destruct (query_answers_with_sources interp_0 Settings.defaults query_service_rows
              chatbox_open "What is Helperly?" None None None None db_helperly [1%float]
              [(Chunk.mk (Some 1) (Some 1) 1 "Helperly is a RAG platform." 0 None, 0.5%float)]
              (LLMService._generate_stub_answer "What is Helperly?"
                 ["Helperly is a RAG platform."])
              eq_refl eq_refl eq_refl ltac:(discriminate) eq_refl eq_refl)
    as (sources & Hrun & Hlen & Hrows).
  destruct (Hrows 0%nat _ _ eq_refl) as (doc_id & chunk_id & [= <-] & [= <-] & Hsource).
  destruct sources as [|source [|source' sources]]; [discriminate| |discriminate].
  injection Hsource as ->. rewrite Hrun. run_step.
  unfold db_helperly. cbn [Database.documents]. by rewrite lookup_insert_eq.
Defined.

Lemma load_documents_calls self doc_ids :
  ∀ documents db, Run.calls (QueryService.load_documents self doc_ids documents db) = [].
Proof.
  induction doc_ids as [|doc_id rest IH]; intros documents db; [reflexivity|].
  cbn [QueryService.load_documents]. rewrite bind_run.
  destruct doc_id as [k|].
  - unfold DocumentRepository.get_by_id_optional. rewrite bind_statement.
    destruct (AsyncSession.orm_error _ db); [reflexivity|]. unfold read. run_step.
    destruct (Database.documents db !! k); apply IH.
  - rewrite bind_statement.
    destruct (AsyncSession.orm_error _ db); [reflexivity|]. unfold ret at 1. run_step.
    apply IH.
Qed.

(** The calls [query] records, however it ends: the embedding of the
    question first, then at most one search, with the resolved parameters,
    then at most one call of the language model. *)
Lemma query_calls rt settings self chatbox question origin document_id top_k min_score db :
  ∃ query_embedding context_chunks,
    Run.calls (QueryService.query rt settings self chatbox question origin document_id
                 top_k min_score db)
    `prefix_of`
      [Call_embed_text question;
       Call_similarity_search (Chatbox.id chatbox) query_embedding
         (resolved_top_k settings top_k) (resolved_min_score settings min_score)
         document_id;
       Call_generate_answer question context_chunks].
Proof.
  unfold QueryService.query. cbv zeta. rewrite bind_lift.
  destruct (QueryService.validate_origin chatbox origin);
    [|exists [], []; apply prefix_nil..].
  rewrite bind_called. run_step. rewrite bind_lift.
  destruct (Embedder.embed_text _ question) as [query_embedding| |];
    [|exists [], []; apply prefix_cons, prefix_nil..].
  exists query_embedding.
  fold (resolved_top_k settings top_k). fold (resolved_min_score settings min_score).
  rewrite bind_called. run_step. rewrite bind_run.
  set (search := ChunkRepository.similarity_search _ _ _ _ _ _ _ db).
  assert (Run.db search = db) as Hdb by reflexivity.
  assert (Run.calls search = []) as Hcalls by reflexivity.
  destruct (Run.result search) as [results| |]; run_step; rewrite ?Hdb, Hcalls;
    [|exists []; do 2 apply prefix_cons; apply prefix_nil..].
  destruct (negb (Py.truthy_list results));
    [exists []; do 2 apply prefix_cons; apply prefix_nil|].
  exists (map Chunk.content (map fst results)). cbn [app].
  rewrite bind_called. run_step. rewrite bind_lift.
  destruct (Answerer.generate_answer _ _ _) as [answer| |]; [|reflexivity..].
  rewrite bind_run, load_documents_calls.
  destruct (Run.result (QueryService.load_documents _ _ _ _)) as [documents| |];
    [|reflexivity..].
  run_step. rewrite bind_lift.
  by destruct (QueryService.build_sources _ _).
Qed.

(** [query] and the query route only read: whatever the request and however
    the run ends, the database is the one it started from. *)
Theorem query_never_writes (rt : Interp.t) (settings : Settings.t)
    (data : QueryRequest.t) (chatbox_repo : ChatboxRepository.t)
    (query_service : QueryService.t) (chatbox : Chatbox.t) (min_score : option float)
    (db : Database.t) :
  Run.db (QueryService.query rt settings query_service chatbox (QueryRequest.question data)
            (QueryRequest.origin data) (QueryRequest.document_id data)
            (QueryRequest.top_k data) min_score db)
  = db
  ∧ Run.db (query_chatbox rt settings data chatbox_repo query_service db) = db.
Proof.
  split; [by apply (query_keeps (fun db' => db' = db))|].
  apply (keeps_bind (fun db' => db' = db)); [| |reflexivity].
  - intros db' ->. rewrite chatbox_get_by_id_run.
    destruct (AsyncSession.orm_error _ db); [reflexivity|].
    by destruct (Database.chatboxes db !! _).
  - intros loaded. apply keeps_bind; [apply query_keeps|]. intros result. apply keeps_ret.
Qed.

(** What the query route lets through to the search. For a request that
    meets the constraints of its schema, every search the route starts runs
    with the configured minimum score, with the [top_k] of the request if it
    gives one and the configured default otherwise, with the document filter
    of the request, and in the chatbox that was loaded. *)
Theorem query_chatbox_search_parameters (rt : Interp.t) (settings : Settings.t)
    (data : QueryRequest.t) (chatbox_repo : ChatboxRepository.t)
    (query_service : QueryService.t) (db : Database.t) (chatbox_id : option Z)
    (query_embedding : list float) (top_k : Z) (min_score : float)
    (document_id : option Z) :
  QueryRequest.valid data = true →
  Call_similarity_search chatbox_id query_embedding top_k min_score document_id
  ∈ Run.calls (query_chatbox rt settings data chatbox_repo query_service db) →
  min_score = Settings.vector_min_score_default settings
  ∧ top_k = default (Settings.vector_top_k_default settings) (QueryRequest.top_k data)
  ∧ 1 ≤ default 1 (QueryRequest.top_k data) ≤ 20
  ∧ document_id = QueryRequest.document_id data
  ∧ ∃ chatbox,
      Database.chatboxes db !! QueryRequest.chatbox_id data = Some chatbox
      ∧ chatbox_id = Chatbox.id chatbox.
Proof.
  intros Hvalid. unfold QueryRequest.valid in Hvalid.
  apply andb_true_iff in Hvalid as [_ Hk].
  unfold query_chatbox. rewrite bind_run, chatbox_get_by_id_run.
  destruct (AsyncSession.orm_error _ db); [by intros ?%elem_of_nil|].
  destruct (Database.chatboxes db !! QueryRequest.chatbox_id data) as [chatbox|];
    run_step; [|by intros ?%elem_of_nil].
  rewrite bind_run.
  destruct (query_calls rt settings query_service chatbox (QueryRequest.question data)
              (QueryRequest.origin data) (QueryRequest.document_id data)
              (QueryRequest.top_k data) None db)
    as (query_embedding' & context_chunks & Hprefix).
  intros Hin.
  assert (Call_similarity_search chatbox_id query_embedding top_k min_score document_id
          ∈ Run.calls (QueryService.query rt settings query_service chatbox
                         (QueryRequest.question data) (QueryRequest.origin data)
                         (QueryRequest.document_id data) (QueryRequest.top_k data) None db))
    as Hcall.
  { destruct (Run.result (QueryService.query _ _ _ _ _ _ _ _ _ _));
      cbn [Run.result Run.db Run.calls] in Hin; [|done..].
    unfold ret in Hin. cbn [Run.result Run.db Run.calls] in Hin.
    by rewrite !app_nil_r in Hin. }
  apply (elem_of_prefix _ _ _ Hcall) in Hprefix.
  apply list_elem_of_In in Hprefix. cbn [In] in Hprefix.
  destruct Hprefix as [Heq|[Heq|[Heq|[]]]]; try discriminate.
  injection Heq as <- <- <- <- <-.
  split; [reflexivity|]. split; [|split; [|split; [reflexivity|by exists chatbox]]].
  - unfold resolved_top_k, Py.or_default, Py.truthy_int. revert Hk.
    destruct (QueryRequest.top_k data) as [k|]; [|reflexivity]. cbn [default].
    intros [Hlo%Z.leb_le Hhi%Z.leb_le]%andb_true_iff.
    by replace (k =? 0) with false by (symmetry; apply Z.eqb_neq; lia).
  - revert Hk. destruct (QueryRequest.top_k data) as [k|]; cbn [from_option id];
      [|intros _; lia].
    intros [Hlo%Z.leb_le Hhi%Z.leb_le]%andb_true_iff. lia.
Qed.

(** The search of a request for seven chunks runs with [top_k] 7 and the
    default minimum score. *)
Lemma query_chatbox_search_parameters_witness :
  QueryRequest.valid query_request_seven = true
  ∧ Call_similarity_search (Some 1) [1%float] 7 0x1.6666666666666p-1%float None
    ∈ Run.calls (query_chatbox interp_0 Settings.defaults query_request_seven
                   chatbox_repo_0 query_service_0 db_one_chatbox)
  ∧ 7 = default 5 (Some 7).
Proof.
  assert (Call_similarity_search (Some 1) [1%float] 7 0x1.6666666666666p-1%float None
          ∈ Run.calls (query_chatbox interp_0 Settings.defaults query_request_seven
                         chatbox_repo_0 query_service_0 db_one_chatbox)) as Hin.
  { apply list_elem_of_In. right. left. reflexivity. }
  split; [reflexivity|]. split; [exact Hin|].
  exact (proj1 (proj2 (query_chatbox_search_parameters interp_0 Settings.defaults
                         query_request_seven chatbox_repo_0 query_service_0
                         db_one_chatbox (Some 1) [1%float] 7 0x1.6666666666666p-1%float
                         None eq_refl Hin))).
Defined.

(** ** Error responses of the query endpoint *)

(** What [validate_origin] raises is a [ForbiddenError] or its subclass. *)
Lemma validate_origin_raises_forbidden chatbox origin e :
  QueryService.validate_origin chatbox origin = Raise e → Py.is_ForbiddenError e = true.
Proof.
  unfold QueryService.validate_origin.
  repeat match goal with
         | |- context [if ?b then _ else _] => destruct b
         end; by intros [= <-].
Qed.

Lemma forbidden_response e :
  Py.is_ForbiddenError e = true →
  error_response e = ErrorResponse.mk 403 "FORBIDDEN" (Py.message e).
Proof. by destruct e. Qed.

(** The failures of the query endpoint, over a connection that answers the
    lookup of the chatbox. A request that names no stored chatbox is answered
    404 NOT_FOUND. A request whose origin the chatbox refuses is answered 403
    FORBIDDEN, with the message of the refusal. In both cases no collaborator
    was called: the question reaches neither the embedding service nor the
    language model. A request whose origin is accepted, with the repository's
    own embedding service wired in, is answered 500 INTERNAL_ERROR with the
    generic message, after the one call of [embed_text]. *)
Theorem query_chatbox_error_responses (rt : Interp.t) (settings : Settings.t)
    (data : QueryRequest.t) (chatbox_repo : ChatboxRepository.t)
    (query_service : QueryService.t) (db : Database.t) :
  AsyncSession.orm_error (ChatboxRepository.session chatbox_repo) db = None →
  let run := query_chatbox rt settings data chatbox_repo query_service db in
  (Database.chatboxes db !! QueryRequest.chatbox_id data = None →
   ∃ e, run = Run.mk (Raise e) db []
        ∧ error_response e
          = ErrorResponse.mk 404 "NOT_FOUND"
              ("Chatbox with id " +:+ pretty (QueryRequest.chatbox_id data)
               +:+ " not found"))
  ∧ (∀ chatbox e,
       Database.chatboxes db !! QueryRequest.chatbox_id data = Some chatbox →
       QueryService.validate_origin chatbox (QueryRequest.origin data) = Raise e →
       run = Run.mk (Raise e) db []
       ∧ error_response e = ErrorResponse.mk 403 "FORBIDDEN" (Py.message e))
  ∧ (∀ chatbox embedding,
       Database.chatboxes db !! QueryRequest.chatbox_id data = Some chatbox →
       QueryService.validate_origin chatbox (QueryRequest.origin data) = Return tt →
       QueryService.embedding_service query_service
       = Embedder.of_service rt settings embedding →
       ∃ e, run = Run.mk (Raise e) db [Call_embed_text (QueryRequest.question data)]
            ∧ error_response e = generic_exception_handler).
Proof.
  intros Hok run. subst run. unfold query_chatbox.
  rewrite bind_run, chatbox_get_by_id_run, Hok. split; [|split].
  - intros ->. run_step. eexists. split; reflexivity.
  - intros chatbox e -> Hvalid. run_step. split.
    + rewrite bind_run. unfold QueryService.query. rewrite bind_lift, Hvalid. reflexivity.
    + by apply forbidden_response,
        (validate_origin_raises_forbidden chatbox (QueryRequest.origin data) e).
  - intros chatbox embedding -> Hvalid Hservice. run_step.
    destruct query_service as [chunk_repo document_repo embedding_service llm_service].
    cbn [QueryService.embedding_service] in Hservice. subst embedding_service.
    rewrite bind_run, (query_with_own_embedding_service _ _ _ _ _ _ _ _ _ _ _ _ _ Hvalid).
    run_step. eexists. split; reflexivity.
Qed.

(** A request to the enforcing chatbox that gives no origin is answered 403,
    and no collaborator is called. *)
Lemma query_chatbox_error_responses_witness :
  query_chatbox interp_0 Settings.defaults query_request_no_origin chatbox_repo_0
    query_service_0 db_one_chatbox
  = Run.mk (Raise (ForbiddenError "Origin header is required for this chatbox"))
      db_one_chatbox []
  ∧ error_response (ForbiddenError "Origin header is required for this chatbox")
    = ErrorResponse.mk 403 "FORBIDDEN" "Origin header is required for this chatbox".
Proof.
  destruct (query_chatbox_error_responses interp_0 Settings.defaults
              query_request_no_origin chatbox_repo_0 query_service_0 db_one_chatbox
              eq_refl) as (_ & Hforbidden & _).
  exact (Hforbidden chatbox_a
           (ForbiddenError "Origin header is required for this chatbox") eq_refl eq_refl).
Defined.

(** ** Failures of the provider *)

(** [embed_texts] lets one exception out: when it raises, a client is
    configured, the list of texts is not empty, the provider call raised, and
    what [embed_texts] raises is an [ExternalServiceError] for the service
    [openai] whose message ends with the text of the provider's exception;
    the handlers answer it 502. Without a client, and on the empty list,
    nothing is raised. *)
Theorem embed_texts_failure_wrapped (rt : Interp.t) (settings : Settings.t)
    (self : EmbeddingService.t) (texts : list string) (e : exn) :
  EmbeddingService.embed_texts rt settings self texts = Raise e →
  ∃ client cause,
    EmbeddingService.openai_client self = Some client
    ∧ texts ≠ []
    ∧ AsyncOpenAI.embeddings_create client (Settings.openai_embedding_model settings) texts
      = Raise cause
    ∧ e = ExternalServiceError ("Failed to generate embeddings: " +:+ Py.message cause)
            "openai"
    ∧ error_response e
      = ErrorResponse.mk 502 "EXTERNAL_SERVICE_ERROR"
          ("Failed to generate embeddings: " +:+ Py.message cause).
Proof.
  unfold EmbeddingService.embed_texts.
  destruct texts as [|text texts]; [discriminate|]. cbn [Py.truthy_list negb].
  destruct (EmbeddingService.openai_client self) as [client|]; [|discriminate].
  destruct (AsyncOpenAI.embeddings_create client _ _) as [embeddings|cause|] eqn:Hcall;
    cbn [try_except]; [discriminate| |discriminate].
  intros [= <-]. exists client, cause. by repeat split.
Qed.

(** With a client out of quota the embedding of a text is answered 502. *)
Lemma embed_texts_failure_wrapped_witness :
  EmbeddingService.embed_texts interp_0 Settings.defaults
    (EmbeddingService.mk (Some client_out_of_quota) 1536) ["hello"]
  = Raise (ExternalServiceError "Failed to generate embeddings: quota" "openai")
  ∧ error_response (ExternalServiceError "Failed to generate embeddings: quota" "openai")
    = ErrorResponse.mk 502 "EXTERNAL_SERVICE_ERROR" "Failed to generate embeddings: quota".
Proof.
  split; [reflexivity|].
  destruct (embed_texts_failure_wrapped interp_0 Settings.defaults
              (EmbeddingService.mk (Some client_out_of_quota) 1536) ["hello"]
              (ExternalServiceError "Failed to generate embeddings: quota" "openai")
              eq_refl) as (client & cause & _ & _ & _ & He & Hresponse).
  pose proof (f_equal Py.message He) as Hmessage. cbn [Py.message] in Hmessage.
  rewrite Hresponse, <- Hmessage. reflexivity.
Defined.

(** [generate_answer] lets one exception out. When it raises, a client is
    configured and what it raises is an [ExternalServiceError] for the
    service [openai]; its message ends with the text of the provider's
    exception, or, when the provider answered without a choice or with a
    first choice without content, with the text of the [IndexError] or
    [AttributeError] the code met in reading the response. *)
Theorem generate_answer_failure_wrapped (settings : Settings.t) (self : LLMService.t)
    (question : string) (context_chunks : list string) (max_tokens : Z) (e : exn) :
  LLMService.generate_answer settings self question context_chunks max_tokens = Raise e →
  ∃ client cause,
    LLMService.openai_client self = Some client
    ∧ e = ExternalServiceError ("Failed to generate answer: " +:+ cause) "openai"
    ∧ let response :=
        AsyncOpenAI.chat_completions_create client (Settings.openai_chat_model settings)
          (chat_messages question context_chunks) max_tokens 0x1.6666666666666p-1%float in
      (∃ e', response = Raise e' ∧ cause = Py.message e')
      ∨ (response = Return [] ∧ cause = "list index out of range")
      ∨ (∃ choices, response = Return (None :: choices)
                    ∧ cause = "'NoneType' object has no attribute 'strip'").
Proof.
  unfold LLMService.generate_answer.
  destruct (LLMService.openai_client self) as [client|]; [|discriminate]. cbv zeta.
  fold (chat_messages question context_chunks).
  destruct (AsyncOpenAI.chat_completions_create client _ _ max_tokens _)
    as [[|[content|] choices]|e'|] eqn:Hcall;
    cbn [obind list_getitem lookup list_lookup try_except]; try discriminate;
    intros [= <-]; exists client.
  - exists "list index out of range". split; [done|]. split; [done|]. right. left. done.
  - exists "'NoneType' object has no attribute 'strip'".
    split; [done|]. split; [done|]. right. right. by exists choices.
  - exists (Py.message e'). split; [done|]. split; [done|]. left. by exists e'.
Qed.

(** When the provider answers without a choice the failure names the list
    index. *)
Lemma generate_answer_failure_wrapped_witness :
  LLMService.generate_answer Settings.defaults (LLMService.mk (Some client_no_choice))
    "What is Helperly?" ["Helperly is a RAG platform."] 500
  = Raise (ExternalServiceError "Failed to generate answer: list index out of range"
             "openai")
  ∧ ∃ client cause,
      Some client_no_choice = Some client
      ∧ ExternalServiceError "Failed to generate answer: list index out of range" "openai"
        = ExternalServiceError ("Failed to generate answer: " +:+ cause) "openai".
Proof.
  split; [reflexivity|].
  destruct (generate_answer_failure_wrapped Settings.defaults
              (LLMService.mk (Some client_no_choice)) "What is Helperly?"
              ["Helperly is a RAG platform."] 500
              (ExternalServiceError "Failed to generate answer: list index out of range"
                 "openai")
              eq_refl) as (client & cause & Hclient & He & _).
  by exists client, cause.
Defined.

(** ** The text ingestion endpoint *)

Lemma insert_rows_nil db : ChunkRepository.insert_rows [] db = db.
Proof. destruct db. unfold ChunkRepository.insert_rows. cbn. f_equal. lia. Qed.

Lemma create_many_returns self chunks db stored :
  Run.result (ChunkRepository.create_many self chunks db) = Return stored →
  Run.db (ChunkRepository.create_many self chunks db)
  = ChunkRepository.insert_rows
      (ChunkRepository.numbered (Database.chunks_id_seq db) chunks) db.
Proof.
  unfold ChunkRepository.create_many. rewrite bind_statement.
  destruct (AsyncSession.orm_error _ db); [discriminate|].
  rewrite bind_read, bind_write, bind_run.
  pose proof (refresh_all_db self (ChunkRepository.numbered (Database.chunks_id_seq db) chunks)
                (ChunkRepository.insert_rows
                   (ChunkRepository.numbered (Database.chunks_id_seq db) chunks) db)) as Hr.
  destruct (Run.result (ChunkRepository.refresh_all _ _ _)); run_step; [|discriminate..].
  by rewrite Hr.
Qed.

(** A run of [ingest_text] that returns: the document is the new one, under
    the next id, and the database holds it and the chunks built from some
    chunk texts and embeddings, whose number is the count returned. *)
Lemma ingest_text_returns self chatbox_id text source_name db document n :
  Run.result (IngestionService.ingest_text self chatbox_id text source_name db)
  = Return (document, n) →
  document
  = Document.mk (Some (Database.documents_id_seq db + 1)) chatbox_id TEXT
      (Some (Py.or_default Py.truthy_str source_name "Raw Text")) None text None None
  ∧ ∃ chunks_text embeddings,
      n = Z.of_nat (length (new_chunks document chatbox_id chunks_text embeddings))
      ∧ Run.db (IngestionService.ingest_text self chatbox_id text source_name db)
        = ChunkRepository.insert_rows
            (ChunkRepository.numbered (Database.chunks_id_seq db)
               (new_chunks document chatbox_id chunks_text embeddings))
            (DocumentRepository.insert_row (Database.documents_id_seq db + 1) document db).
Proof.
  unfold IngestionService.ingest_text. cbv zeta.
  rewrite bind_run, document_create_run. cbv zeta.
  destruct (AsyncSession.orm_error _ db); [discriminate|].
  destruct (AsyncSession.orm_error _ _); [discriminate|]. run_step.
  rewrite bind_lift.
  destruct (ChunkingService.chunk_text _ text) as [chunks_text| |]; [|discriminate..].
  destruct chunks_text as [|c0 rest]; cbn [Py.truthy_list negb].
  - unfold ret. run_step. intros [= <- <-]. split; [reflexivity|].
    exists [], []. split; [reflexivity|]. by rewrite insert_rows_nil.
  - rewrite bind_called. run_step. rewrite bind_lift.
    destruct (Embedder.embed_texts _ _) as [embeddings| |]; [|discriminate..].
    rewrite bind_run.
    match goal with
    | |- context [ChunkRepository.create_many ?r ?cs ?d] =>
        pose proof (create_many_returns r cs d) as Hdb;
        destruct (Run.result (ChunkRepository.create_many r cs d)) as [stored| |];
        run_step; [|discriminate..]
    end.
    unfold ret. run_step. intros [= <- <-]. split; [reflexivity|].
    exists (c0 :: rest), embeddings. split; [reflexivity|].
    by rewrite (Hdb stored).
Qed.

(** What a response of the text ingestion endpoint means, in a database in
    order. When the route returns, the chatbox exists; [document_id] is the
    next document id, and the document stored under it is the text of the
    request, in the chatbox of the request; [chunks_created] is not negative,
    the chunk sequence has moved on by it, and the chunks of the new document
    are exactly the rows under the next [chunks_created] chunk ids, each of
    which holds a row. *)
Theorem ingest_route_response (data : IngestTextRequest.t)
    (chatbox_repo : ChatboxRepository.t) (ingestion_service : IngestionService.t)
    (db : Database.t) (response : IngestTextResponse.t) :
  consistent db ∧ chunks_belong db →
  Run.result (IngestRoutes.ingest_text data chatbox_repo ingestion_service db)
  = Return response →
  let db' := Run.db (IngestRoutes.ingest_text data chatbox_repo ingestion_service db) in
  let seq := Database.chunks_id_seq db in
  let document_id := IngestTextResponse.document_id response in
  let created := IngestTextResponse.chunks_created response in
  is_Some (Database.chatboxes db !! IngestTextRequest.chatbox_id data)
  ∧ document_id = Database.documents_id_seq db + 1
  ∧ Database.documents db' !! document_id
    = Some (Document.mk (Some document_id) (IngestTextRequest.chatbox_id data) TEXT
              (Some (Py.or_default Py.truthy_str (IngestTextRequest.source_name data)
                       "Raw Text"))
              None (IngestTextRequest.text data) None None)
  ∧ 0 ≤ created
  ∧ Database.chunks_id_seq db' = seq + created
  ∧ (∀ key chunk, Database.chunks db' !! key = Some chunk →
       (Chunk.document_id chunk = Some document_id ↔ seq < key ≤ seq + created))
  ∧ (∀ key, seq < key ≤ seq + created → is_Some (Database.chunks db' !! key))
  ∧ IngestTextResponse.message response
    = "Successfully ingested text with " +:+ pretty created +:+ " chunks".
Proof.
  intros [Hcons Hbel]. unfold IngestRoutes.ingest_text.
  rewrite bind_run, chatbox_get_by_id_run.
  destruct (AsyncSession.orm_error _ db); [discriminate|].
  destruct (Database.chatboxes db !! IngestTextRequest.chatbox_id data) as [chatbox|];
    run_step; [|discriminate].
  rewrite bind_run.
  destruct (Run.result (IngestionService.ingest_text _ _ _ _ db))
    as [[document n]| |] eqn:Hingest; run_step; [|discriminate..].
  apply ingest_text_returns in Hingest
    as (Hdocument & chunks_text & embeddings & Hn & ->).
  assert (Document.id document = Some (Database.documents_id_seq db + 1)) as Hid
    by (by rewrite Hdocument).
  cbn [fst snd]. rewrite Hid. unfold ret. run_step.
  intros [= <-]. cbv zeta. cbn [IngestTextResponse.document_id
    IngestTextResponse.chunks_created IngestTextResponse.message].
  set (chunks := new_chunks document (IngestTextRequest.chatbox_id data) chunks_text
                   embeddings) in *.
  unfold ChunkRepository.insert_rows, DocumentRepository.insert_row.
  cbn [Database.chatboxes Database.documents Database.chunks Database.chunks_id_seq].
  split; [by eexists|]. split; [reflexivity|].
  split; [by rewrite lookup_insert_eq, Hdocument|].
  split; [lia|]. split; [by rewrite numbered_length, Hn|].
  split; [|split; [|reflexivity]].
  - intros key chunk. rewrite insert_numbered_lookup, Hn. case_decide as Hkey.
    + destruct (chunks !! Z.to_nat (key - Database.chunks_id_seq db - 1)) as [c|] eqn:Hc;
        [|discriminate].
      intros [= <-]. subst chunks.
      apply new_chunks_lookup in Hc as (chunk_text & embedding & _ & _ & ->).
      split; [done|]. by rewrite Hdocument.
    + intros Hrow. split; [|done]. intros Hdoc.
      by destruct (no_chunk_of_next_document db key chunk Hcons Hbel Hrow).
  - intros key Hkey. rewrite insert_numbered_lookup, <- Hn. rewrite decide_True by done.
    destruct (chunks !! Z.to_nat (key - Database.chunks_id_seq db - 1)) as [c|] eqn:Hc;
      [by eexists|].
    apply lookup_ge_None in Hc. lia.
Qed.

(** The ingestion of the Helperly text into the database with one chatbox
    answers with document 1 and three chunks, stored under the ids 1 to 3. *)
Lemma ingest_route_response_witness :
  Run.result (IngestRoutes.ingest_text ingest_request_helperly chatbox_repo_0
                ingestion_service_fixed db_one_chatbox)
  = Return (IngestTextResponse.mk 1 3 "Successfully ingested text with 3 chunks")
  ∧ Database.chunks_id_seq
      (Run.db (IngestRoutes.ingest_text ingest_request_helperly chatbox_repo_0
                 ingestion_service_fixed db_one_chatbox))
    = 0 + 3
  ∧ is_Some
      (Database.chunks
         (Run.db (IngestRoutes.ingest_text ingest_request_helperly chatbox_repo_0
                    ingestion_service_fixed db_one_chatbox))
       !! 3).
Proof.
  split; [reflexivity|].
  destruct (ingest_route_response ingest_request_helperly chatbox_repo_0
              ingestion_service_fixed db_one_chatbox
              (IngestTextResponse.mk 1 3 "Successfully ingested text with 3 chunks"))
    as (_ & _ & _ & _ & Hseq & _ & Hrows & _).
  - split.
    + apply (create_chatbox_keeps _ _ _ _ (proj1 empty_consistent)).
    + apply (create_chatbox_keeps_belonging _ _ _ _ (proj2 empty_consistent)).
  - reflexivity.
  - split; [exact Hseq|]. apply Hrows. cbn. lia.
Defined.

(** A request to ingest into a chatbox that is not stored creates nothing:
    over any session the run does not return, calls no collaborator and
    leaves the database as it was. *)
Theorem ingest_route_unknown_chatbox (data : IngestTextRequest.t)
    (chatbox_repo : ChatboxRepository.t) (ingestion_service : IngestionService.t)
    (db : Database.t) :
  Database.chatboxes db !! IngestTextRequest.chatbox_id data = None →
  let run := IngestRoutes.ingest_text data chatbox_repo ingestion_service db in
  (∃ e, Run.result run = Raise e
        ∧ (AsyncSession.orm_error (ChatboxRepository.session chatbox_repo) db = None →
           error_response e
           = ErrorResponse.mk 404 "NOT_FOUND"
               ("Chatbox with id " +:+ pretty (IngestTextRequest.chatbox_id data)
                +:+ " not found")))
  ∧ Run.db run = db
  ∧ Run.calls run = [].
Proof.
  intros Hnone run. subst run. unfold IngestRoutes.ingest_text.
  rewrite bind_run, chatbox_get_by_id_run, Hnone.
  destruct (AsyncSession.orm_error _ db) as [e|]; run_step.
  - split; [|done]. exists e. split; [reflexivity|discriminate].
  - split; [|done]. eexists. split; reflexivity.
Qed.

(** A request to ingest into chatbox 1 of an empty database is answered
    404 and leaves the database empty. *)
Lemma ingest_route_unknown_chatbox_witness :
  Run.result (IngestRoutes.ingest_text ingest_request_helperly chatbox_repo_0
                ingestion_service_fixed Database.empty)
  = Raise (NotFoundError "Chatbox with id 1 not found")
  ∧ Run.db (IngestRoutes.ingest_text ingest_request_helperly chatbox_repo_0
              ingestion_service_fixed Database.empty)
    = Database.empty.
Proof.
  split; [reflexivity|].
  exact (proj1 (proj2 (ingest_route_unknown_chatbox ingest_request_helperly chatbox_repo_0
                         ingestion_service_fixed Database.empty eq_refl))).
Defined.

(** ** The chunker always returns *)

(** For every configuration and every text, negative sizes and overlaps
    included, [chunk_text] returns a list: it raises nothing, the loop ends
    within the steps allowed, and the text has at least as many characters as
    the list has chunks. *)
Theorem chunk_text_total (self : ChunkingService.t) (text : string) :
  ∃ chunks,
    ChunkingService.chunk_text self text = Return chunks
    ∧ (length chunks ≤ String.length text)%nat.
Proof.
  unfold ChunkingService.chunk_text.
  destruct (Py.truthy_str text) eqn:Htext; cbn [negb orb];
    [|exists []; split; [done|cbn; lia]].
  destruct (Py.truthy_str (Py.strip text)); cbn [negb];
    [|exists []; split; [done|cbn; lia]].
  pose proof (len_pos_of_truthy _ Htext) as Hlen.
  destruct (Z.le_gt_cases (ChunkingService.chunk_size self)
              (ChunkingService.chunk_overlap self)) as [Hle|Hgt].
  - eexists. split; [by apply chunk_loop_nonpositive_step|].
    cbn [app List.filter]. unfold Py.len in Hlen.
    destruct (Py.truthy_str (chunk_at self text 0)); cbn [length]; lia.
  - set (step := ChunkingService.chunk_size self - ChunkingService.chunk_overlap self).
    assert (0 < step) as Hstep by (subst step; lia).
    destruct (offset_count_bounds (Py.len text) step Hlen Hstep)
      as [[Hlast Hend] [Hpos Hle]].
    replace (Z.to_nat (Py.len text)) with (String.length text) in Hle
      by (unfold Py.len; lia).
    eexists. split.
    + apply (chunk_loop_positive_step self text (offset_count (Py.len text) step));
        fold step; lia.
    + cbn [app]. etransitivity; [apply List.filter_length_le|].
      rewrite length_map, offsets_from_seq, length_map, length_seq. lia.
Qed.
